(** * USBasp firmware: the programming session of [main.c]

    A shallow embedding of the three V-USB callbacks of the USBasp firmware
    ([usbFunctionSetup], [usbFunctionRead], [usbFunctionWrite]) together with
    the static variables they share, and the properties of the paged write
    engine, the chunked reader and the command dispatcher.

    The firmware is compiled by avr-gcc for an ATMega8: [uchar] is 8 bits,
    [int] and [unsigned int] are 16 bits, [unsigned long] is 32 bits, and the
    machine is little-endian.  Every C integer is a [Z] kept in range by an
    explicit [wrap].  Calls into [isp.c] and the LED macros are recorded, in
    program order, in a trace; the bytes they return come from a [Port] of
    oracles over the calls made so far. *)

From Stdlib Require Import ZArith List Lia Bool.
Import ListNotations.
Local Open Scope Z_scope.

(** ** Machine integers *)

Definition wrap (w x : Z) : Z := x mod 2 ^ w.

(** Conversion to [uchar], [unsigned int] and [unsigned long]. *)
Definition to_uchar : Z -> Z := wrap 8.
Definition to_uint : Z -> Z := wrap 16.
Definition to_ulong : Z -> Z := wrap 32.

(** Conversion to the signed 16-bit [int] (two's complement, as avr-gcc
    does it). *)
Definition to_int (x : Z) : Z :=
  let y := wrap 16 x in if y <? 2 ^ 15 then y else y - 2 ^ 16.

(** [(hi << 8) | lo] on two [uchar] operands: both are promoted to [int], so
    the value is a signed 16-bit one. *)
Definition int_of_bytes (hi lo : Z) : Z := Z.lor (to_int (Z.shiftl hi 8)) lo.

(** ** Constants

    The command numbers, the states and the block flags as
    [firmware/main.c] defines them. *)

Definition USBASP_FUNC_CONNECT : Z := 1.
Definition USBASP_FUNC_DISCONNECT : Z := 2.
Definition USBASP_FUNC_TRANSMIT : Z := 3.
Definition USBASP_FUNC_READFLASH : Z := 4.
Definition USBASP_FUNC_ENABLEPROG : Z := 5.
Definition USBASP_FUNC_WRITEFLASH : Z := 6.
Definition USBASP_FUNC_READEEPROM : Z := 7.
Definition USBASP_FUNC_WRITEEEPROM : Z := 8.

(** Modelled from the spec: [usbasp.h], which numbers the two commands added
    after [firmware/main.c], is missing; the ten command kinds are "numbered
    1-10 in protocol order as listed", which puts SetExtendedAddress at 9. *)
Definition USBASP_FUNC_SETLONGADDRESS : Z := 9.

(** Modelled from the spec: [usbasp.h] is missing; SetProgrammingClock is the
    tenth command kind of the list. *)
Definition USBASP_FUNC_SETISPSCK : Z := 10.

Definition PROG_STATE_IDLE : Z := 0.
Definition PROG_STATE_WRITEFLASH : Z := 1.
Definition PROG_STATE_READFLASH : Z := 2.
Definition PROG_STATE_READEEPROM : Z := 3.
Definition PROG_STATE_WRITEEEPROM : Z := 4.

Definition PROG_BLOCKFLAG_FIRST : Z := 1.
Definition PROG_BLOCKFLAG_LAST : Z := 2.

(** Constants of headers that are not part of the sources ([usbdrv.h],
    [avr/io.h] and the clock selectors of [usbasp.h]): they stay parameters. *)
Record Headers : Type := {
  USBRQ_TYPE_MASK : Z;
  USBRQ_TYPE_CLASS : Z;
  USBRQ_HID_GET_REPORT : Z;
  USBRQ_HID_GET_IDLE : Z;
  USBRQ_HID_SET_IDLE : Z;
  PC2 : Z;
  USBASP_ISP_SCK_AUTO : Z;
  USBASP_ISP_SCK_8 : Z
}.

(** ** The outside world *)

(** One constructor per function of [isp.c] and per LED macro the callbacks
    use, with the arguments of the call. *)
Inductive isp_call : Type :=
| CallSetSCKOption (option : Z)
| CallConnect
| CallDisconnect
| CallTransmit (send_byte : Z)
| CallEnterProgrammingMode
| CallReadFlash (address : Z)
| CallReadEEPROM (address : Z)
| CallWriteFlash (address data pollmode : Z)
| CallFlushPage (address pollvalue : Z)
| CallWriteEEPROM (address data : Z)
| CallLedRedOn
| CallLedRedOff.

(** What the hardware answers, given the calls made before. *)
Record Port : Type := {
  PINC : list isp_call -> Z;
  ispTransmit : list isp_call -> Z -> Z;
  ispEnterProgrammingMode : list isp_call -> Z;
  ispReadFlash : list isp_call -> Z -> Z;
  ispReadEEPROM : list isp_call -> Z -> Z
}.

(** The buffer [usbMsgPtr] points to. *)
Inductive msg_ptr : Type := PtrNone | PtrIdleRate | PtrReplyBuffer.

(** ** The static variables *)

Record Device : Type := mkDevice {
  prog_state : Z;
  prog_sck : Z;
  prog_address_newmode : Z;
  prog_address : Z;
  prog_nbytes : Z;
  prog_pagesize : Z;
  prog_blockflags : Z;
  prog_pagecounter : Z;
  replyBuffer : list Z;
  reportBuffer : list Z;
  idleRate : Z;
  lastKey : Z;
  usbMsgPtr : msg_ptr;
  trace : list isp_call
}.

Definition set_prog_state (v : Z) (s : Device) : Device :=
  mkDevice v (prog_sck s) (prog_address_newmode s) (prog_address s)
    (prog_nbytes s) (prog_pagesize s) (prog_blockflags s) (prog_pagecounter s)
    (replyBuffer s) (reportBuffer s) (idleRate s) (lastKey s) (usbMsgPtr s)
    (trace s).

Definition set_prog_sck (v : Z) (s : Device) : Device :=
  mkDevice (prog_state s) v (prog_address_newmode s) (prog_address s)
    (prog_nbytes s) (prog_pagesize s) (prog_blockflags s) (prog_pagecounter s)
    (replyBuffer s) (reportBuffer s) (idleRate s) (lastKey s) (usbMsgPtr s)
    (trace s).

Definition set_prog_address_newmode (v : Z) (s : Device) : Device :=
  mkDevice (prog_state s) (prog_sck s) v (prog_address s)
    (prog_nbytes s) (prog_pagesize s) (prog_blockflags s) (prog_pagecounter s)
    (replyBuffer s) (reportBuffer s) (idleRate s) (lastKey s) (usbMsgPtr s)
    (trace s).

Definition set_prog_address (v : Z) (s : Device) : Device :=
  mkDevice (prog_state s) (prog_sck s) (prog_address_newmode s) v
    (prog_nbytes s) (prog_pagesize s) (prog_blockflags s) (prog_pagecounter s)
    (replyBuffer s) (reportBuffer s) (idleRate s) (lastKey s) (usbMsgPtr s)
    (trace s).

Definition set_prog_nbytes (v : Z) (s : Device) : Device :=
  mkDevice (prog_state s) (prog_sck s) (prog_address_newmode s)
    (prog_address s) v (prog_pagesize s) (prog_blockflags s)
    (prog_pagecounter s)
    (replyBuffer s) (reportBuffer s) (idleRate s) (lastKey s) (usbMsgPtr s)
    (trace s).

Definition set_prog_pagesize (v : Z) (s : Device) : Device :=
  mkDevice (prog_state s) (prog_sck s) (prog_address_newmode s)
    (prog_address s) (prog_nbytes s) v (prog_blockflags s)
    (prog_pagecounter s)
    (replyBuffer s) (reportBuffer s) (idleRate s) (lastKey s) (usbMsgPtr s)
    (trace s).

Definition set_prog_blockflags (v : Z) (s : Device) : Device :=
  mkDevice (prog_state s) (prog_sck s) (prog_address_newmode s)
    (prog_address s) (prog_nbytes s) (prog_pagesize s) v
    (prog_pagecounter s)
    (replyBuffer s) (reportBuffer s) (idleRate s) (lastKey s) (usbMsgPtr s)
    (trace s).

Definition set_prog_pagecounter (v : Z) (s : Device) : Device :=
  mkDevice (prog_state s) (prog_sck s) (prog_address_newmode s)
    (prog_address s) (prog_nbytes s) (prog_pagesize s) (prog_blockflags s) v
    (replyBuffer s) (reportBuffer s) (idleRate s) (lastKey s) (usbMsgPtr s)
    (trace s).

Definition set_replyBuffer (v : list Z) (s : Device) : Device :=
  mkDevice (prog_state s) (prog_sck s) (prog_address_newmode s)
    (prog_address s) (prog_nbytes s) (prog_pagesize s) (prog_blockflags s)
    (prog_pagecounter s)
    v (reportBuffer s) (idleRate s) (lastKey s) (usbMsgPtr s) (trace s).

Definition set_reportBuffer (v : list Z) (s : Device) : Device :=
  mkDevice (prog_state s) (prog_sck s) (prog_address_newmode s)
    (prog_address s) (prog_nbytes s) (prog_pagesize s) (prog_blockflags s)
    (prog_pagecounter s)
    (replyBuffer s) v (idleRate s) (lastKey s) (usbMsgPtr s) (trace s).

Definition set_idleRate (v : Z) (s : Device) : Device :=
  mkDevice (prog_state s) (prog_sck s) (prog_address_newmode s)
    (prog_address s) (prog_nbytes s) (prog_pagesize s) (prog_blockflags s)
    (prog_pagecounter s)
    (replyBuffer s) (reportBuffer s) v (lastKey s) (usbMsgPtr s) (trace s).

Definition set_usbMsgPtr (v : msg_ptr) (s : Device) : Device :=
  mkDevice (prog_state s) (prog_sck s) (prog_address_newmode s)
    (prog_address s) (prog_nbytes s) (prog_pagesize s) (prog_blockflags s)
    (prog_pagecounter s)
    (replyBuffer s) (reportBuffer s) (idleRate s) (lastKey s) v (trace s).

(** A call into [isp.c] (or an LED macro) goes to the end of the trace. *)
Definition emit (c : isp_call) (s : Device) : Device :=
  mkDevice (prog_state s) (prog_sck s) (prog_address_newmode s)
    (prog_address s) (prog_nbytes s) (prog_pagesize s) (prog_blockflags s)
    (prog_pagecounter s)
    (replyBuffer s) (reportBuffer s) (idleRate s) (lastKey s) (usbMsgPtr s)
    (trace s ++ [c]).

(** [a[i] = v] on a C array held as a list. *)
Fixpoint store (i : nat) (v : Z) (a : list Z) : list Z :=
  match a, i with
  | [], _ => []
  | _ :: t, O => v :: t
  | h :: t, S j => h :: store j v t
  end.

(** [data[i]] of the 8-byte setup packet. *)
Definition byte_at (data : list Z) (i : nat) : Z := nth i data 0.

(** A setup packet as V-USB hands it over: eight [uchar]s. *)
Definition is_packet (data : list Z) : Prop :=
  length data = 8%nat /\ Forall (fun b => 0 <= b < 256) data.

(** ** The keyboard report *)

Definition KEY_ENTER : Z := 40.

Definition keyReport : list (list Z) := [[0; 0]; [0; KEY_ENTER]].

(** [buildReport]: both bytes of [keyReport[key]] go to [reportBuffer]. *)
Definition buildReport (key : Z) (s : Device) : Device :=
  set_reportBuffer (nth (Z.to_nat key) keyReport [0; 0]) s.

(** ** The callbacks *)

Section Callbacks.

Variable hdr : Headers.
Variable port : Port.

(** Width in bits of [prog_address]: 32 ([unsigned long]) in the firmware
    with SETLONGADDRESS, 16 ([unsigned int]) in [firmware/main.c]. *)
Variable addr_bits : Z.

(** *** [usbFunctionSetup] *)

(** The class requests of the keyboard interface, which return before the
    programmer's commands are looked at; [None] when the function goes on. *)
Definition hid_request (s : Device) (data : list Z) : option (Device * Z) :=
  let bmRequestType := byte_at data 0 in
  let bRequest := byte_at data 1 in
  if Z.land bmRequestType (USBRQ_TYPE_MASK hdr) =? USBRQ_TYPE_CLASS hdr then
    if bRequest =? USBRQ_HID_GET_REPORT hdr then
      Some (buildReport (lastKey s) s, 2)
    else if bRequest =? USBRQ_HID_GET_IDLE hdr then
      Some (set_usbMsgPtr PtrIdleRate s, 1)
    else if bRequest =? USBRQ_HID_SET_IDLE hdr then
      Some (set_idleRate (byte_at data 3) s, 1)
    else None
  else None.

(** [if (!prog_address_newmode) prog_address = (data[3] << 8) | data[2];] *)
Definition legacy_address (data : list Z) : Z :=
  to_ulong (int_of_bytes (byte_at data 3) (byte_at data 2)).

Definition load_legacy_address (data : list Z) (s : Device) : Device :=
  if prog_address_newmode s =? 0
  then set_prog_address (legacy_address data) s
  else s.

(** [prog_nbytes = (data[7] << 8) | data[6];] *)
Definition load_nbytes (data : list Z) (s : Device) : Device :=
  set_prog_nbytes (to_uint (int_of_bytes (byte_at data 7) (byte_at data 6))) s.

(** [replyBuffer[i] = ispTransmit(b);] *)
Definition transmit_into (i : nat) (b : Z) (s : Device) : Device :=
  let r := ispTransmit port (trace s) b in
  set_replyBuffer (store i (to_uchar r) (replyBuffer s))
    (emit (CallTransmit b) s).

(** The four bytes from [data[2]] on read as one [unsigned long], as the
    cast in the SETLONGADDRESS branch does on the little-endian AVR. *)
Definition long_address (data : list Z) : Z :=
  to_ulong
    (Z.lor (byte_at data 2)
       (Z.lor (Z.shiftl (byte_at data 3) 8)
          (Z.lor (Z.shiftl (byte_at data 4) 16)
             (Z.shiftl (byte_at data 5) 24)))).

(** The chain of [if (rq->bRequest == ...)]: the new state and [len]. *)
Definition dispatch (s : Device) (data : list Z) : Device * Z :=
  let bRequest := byte_at data 1 in
  if bRequest =? USBASP_FUNC_CONNECT then
    let s1 :=
      if Z.land (PINC port (trace s)) (Z.shiftl 1 (PC2 hdr)) =? 0
      then emit (CallSetSCKOption (USBASP_ISP_SCK_8 hdr)) s
      else emit (CallSetSCKOption (prog_sck s)) s in
    let s2 := set_prog_address_newmode 0 s1 in
    let s3 := emit CallLedRedOn s2 in
    (emit CallConnect s3, 0)
  else if bRequest =? USBASP_FUNC_DISCONNECT then
    (emit CallLedRedOff (emit CallDisconnect s), 0)
  else if bRequest =? USBASP_FUNC_TRANSMIT then
    let s1 := transmit_into 0 (byte_at data 2) s in
    let s2 := transmit_into 1 (byte_at data 3) s1 in
    let s3 := transmit_into 2 (byte_at data 4) s2 in
    (transmit_into 3 (byte_at data 5) s3, 4)
  else if bRequest =? USBASP_FUNC_READFLASH then
    let s1 := load_legacy_address data s in
    let s2 := load_nbytes data s1 in
    (set_prog_state PROG_STATE_READFLASH s2, 255)
  else if bRequest =? USBASP_FUNC_READEEPROM then
    let s1 := load_legacy_address data s in
    let s2 := load_nbytes data s1 in
    (set_prog_state PROG_STATE_READEEPROM s2, 255)
  else if bRequest =? USBASP_FUNC_ENABLEPROG then
    let r := ispEnterProgrammingMode port (trace s) in
    (set_replyBuffer (store 0 (to_uchar r) (replyBuffer s))
       (emit CallEnterProgrammingMode s), 1)
  else if bRequest =? USBASP_FUNC_WRITEFLASH then
    let s1 := load_legacy_address data s in
    let s2 := set_prog_pagesize (to_uint (byte_at data 4)) s1 in
    let s3 := set_prog_blockflags (to_uchar (Z.land (byte_at data 5) 15)) s2 in
    let s4 :=
      set_prog_pagesize
        (to_uint (prog_pagesize s3
                  + Z.shiftl (Z.land (to_uint (byte_at data 5)) 240) 4)) s3 in
    let s5 :=
      if Z.land (prog_blockflags s4) PROG_BLOCKFLAG_FIRST =? 0
      then s4
      else set_prog_pagecounter (to_uchar (prog_pagesize s4)) s4 in
    let s6 := load_nbytes data s5 in
    (set_prog_state PROG_STATE_WRITEFLASH s6, 255)
  else if bRequest =? USBASP_FUNC_WRITEEEPROM then
    let s1 := load_legacy_address data s in
    let s2 := set_prog_pagesize 0 s1 in
    let s3 := set_prog_blockflags 0 s2 in
    let s4 := load_nbytes data s3 in
    (set_prog_state PROG_STATE_WRITEEEPROM s4, 255)
  else if bRequest =? USBASP_FUNC_SETLONGADDRESS then
    let s1 := set_prog_address_newmode 1 s in
    (set_prog_address (long_address data) s1, 0)
  else if bRequest =? USBASP_FUNC_SETISPSCK then
    let s1 := set_prog_sck (byte_at data 2) s in
    (set_replyBuffer (store 0 0 (replyBuffer s1)) s1, 1)
  else (s, 0).

Definition usbFunctionSetup (s : Device) (data : list Z) : Device * Z :=
  match hid_request s data with
  | Some r => r
  | None =>
      let (s1, len) := dispatch s data in
      (set_usbMsgPtr PtrReplyBuffer s1, len)
  end.

(** *** [usbFunctionRead] *)

Definition in_read_state (s : Device) : bool :=
  (prog_state s =? PROG_STATE_READFLASH)
  || (prog_state s =? PROG_STATE_READEEPROM).

(** One turn of the [for] loop: the new state and the byte put in
    [data[i]]. *)
Definition read_iter (s : Device) : Device * Z :=
  let a := prog_address s in
  let (s1, b) :=
    if prog_state s =? PROG_STATE_READFLASH
    then (emit (CallReadFlash a) s, to_uchar (ispReadFlash port (trace s) a))
    else (emit (CallReadEEPROM a) s,
          to_uchar (ispReadEEPROM port (trace s) a)) in
  (set_prog_address (wrap addr_bits (prog_address s1 + 1)) s1, b).

(** The loop, [n] turns: the new state and [data[0 .. n-1]]. *)
Fixpoint read_loop (n : nat) (s : Device) : Device * list Z :=
  match n with
  | O => (s, [])
  | S k =>
      let (s1, b) := read_iter s in
      let (s2, bs) := read_loop k s1 in
      (s2, b :: bs)
  end.

(** [usbFunctionRead(data, len)]: the new state, the value returned and the
    bytes written to [data]. *)
Definition usbFunctionRead (s : Device) (len : Z) : Device * Z * list Z :=
  if negb (in_read_state s) then (s, 255, [])
  else
    let (s1, out) := read_loop (Z.to_nat len) s in
    let s2 := if len <? 8 then set_prog_state PROG_STATE_IDLE s1 else s1 in
    (s2, len, out).

(** *** [usbFunctionWrite] *)

Definition in_write_state (s : Device) : bool :=
  (prog_state s =? PROG_STATE_WRITEFLASH)
  || (prog_state s =? PROG_STATE_WRITEEEPROM).

(** First half of the loop body: the byte goes to the flash or to the
    EEPROM, and a page that is full is flushed. *)
Definition write_store (s : Device) (b : Z) : Device :=
  let a := prog_address s in
  if prog_state s =? PROG_STATE_WRITEFLASH then
    if prog_pagesize s =? 0 then emit (CallWriteFlash a b 1) s
    else
      let s1 := emit (CallWriteFlash a b 0) s in
      let s2 := set_prog_pagecounter (to_uchar (prog_pagecounter s1 - 1)) s1 in
      if prog_pagecounter s2 =? 0 then
        let s3 := emit (CallFlushPage a b) s2 in
        set_prog_pagecounter (to_uchar (prog_pagesize s3)) s3
      else s2
  else emit (CallWriteEEPROM a b) s.

(** The test of the forced flush, on the state reached when [prog_nbytes]
    has just become 0. *)
Definition flush_pending (s : Device) : bool :=
  negb (Z.land (prog_blockflags s) PROG_BLOCKFLAG_LAST =? 0)
  && negb (prog_pagecounter s =? prog_pagesize s).

(** Second half of the loop body: the byte is counted, the transfer is
    closed when the count reaches 0, and the address moves on. *)
Definition write_account (sr : Device * Z) (b : Z) : Device * Z :=
  let (s, retVal) := sr in
  let s1 := set_prog_nbytes (to_uint (prog_nbytes s - 1)) s in
  let (s4, retVal') :=
    if prog_nbytes s1 =? 0 then
      let s2 := set_prog_state PROG_STATE_IDLE s1 in
      let s3 :=
        if flush_pending s2
        then emit (CallFlushPage (prog_address s2) b) s2
        else s2 in
      (s3, 1)
    else (s1, retVal) in
  (set_prog_address (wrap addr_bits (prog_address s4 + 1)) s4, retVal').

(** One turn of the [for] loop on the state and [retVal]. *)
Definition write_iter (sr : Device * Z) (b : Z) : Device * Z :=
  write_account (write_store (fst sr) b, snd sr) b.

Definition write_loop (sr : Device * Z) (data : list Z) : Device * Z :=
  fold_left write_iter data sr.

(** [usbFunctionWrite(data, len)], [data] being the [len] bytes of the
    chunk ([len] is a [uchar]: at most 255 of them). *)
Definition usbFunctionWrite (s : Device) (data : list Z) : Device * Z :=
  if negb (in_write_state s) then (s, 255)
  else write_loop (s, 0) data.

(** *** The transport's side: a transfer is a run of calls *)

(** The chunks of a write transfer pushed one after the other: the final
    state and what each call returned. *)
Fixpoint push_chunks (s : Device) (chunks : list (list Z))
  : Device * list Z :=
  match chunks with
  | [] => (s, [])
  | c :: rest =>
      let (s1, r) := usbFunctionWrite s c in
      let (s2, rs) := push_chunks s1 rest in
      (s2, r :: rs)
  end.

(** The chunks of a read transfer pulled one after the other, with the
    lengths asked for: the final state and the bytes each call produced. *)
Fixpoint pull_chunks (s : Device) (lens : list Z)
  : Device * list (list Z) :=
  match lens with
  | [] => (s, [])
  | len :: rest =>
      let '(s1, _, out) := usbFunctionRead s len in
      let (s2, outs) := pull_chunks s1 rest in
      (s2, out :: outs)
  end.

End Callbacks.

(** ** Sample hardware and states

    The values V-USB and avr-libc give the parameters of [Headers], a port
    whose target answers 0 to everything (strap open), and the state after
    reset: C zero-initialises the statics that have no initialiser. *)

Definition sample_headers : Headers :=
  {| USBRQ_TYPE_MASK := 96; USBRQ_TYPE_CLASS := 32;
     USBRQ_HID_GET_REPORT := 1; USBRQ_HID_GET_IDLE := 2;
     USBRQ_HID_SET_IDLE := 10; PC2 := 2;
     USBASP_ISP_SCK_AUTO := 0; USBASP_ISP_SCK_8 := 5 |}.

Definition quiet_port : Port :=
  {| PINC := fun _ => 255;
     ispTransmit := fun _ _ => 0;
     ispEnterProgrammingMode := fun _ => 0;
     ispReadFlash := fun _ _ => 0;
     ispReadEEPROM := fun _ _ => 0 |}.

Definition power_up (hdr : Headers) : Device :=
  mkDevice PROG_STATE_IDLE (USBASP_ISP_SCK_AUTO hdr) 0 0 0 0 0 0
    [0; 0; 0; 0; 0; 0; 0; 0] [0; 0] 0 0 PtrNone [].

(** A vendor request (type bits 0x40) carrying command [kind]. *)
Definition vendor_packet (kind a_lo a_hi b4 b5 n_lo n_hi : Z) : list Z :=
  [64; kind; a_lo; a_hi; b4; b5; n_lo; n_hi].

(** What a host does between two observations of the device. *)
Inductive action : Type :=
| DoSetup (data : list Z)
| DoRead (len : Z)
| DoWrite (data : list Z).

Definition step (hdr : Headers) (port : Port) (addr_bits : Z)
  (s : Device) (a : action) : Device :=
  match a with
  | DoSetup data => fst (usbFunctionSetup hdr port s data)
  | DoRead len => fst (fst (usbFunctionRead port addr_bits s len))
  | DoWrite data => fst (usbFunctionWrite addr_bits s data)
  end.

Definition run (hdr : Headers) (port : Port) (addr_bits : Z)
  (s : Device) (acts : list action) : Device :=
  fold_left (step hdr port addr_bits) acts s.

(** The packet is one of the three class requests [usbFunctionSetup]
    answers itself. *)
Definition class_request_served (hdr : Headers) (data : list Z) : bool :=
  (Z.land (byte_at data 0) (USBRQ_TYPE_MASK hdr) =? USBRQ_TYPE_CLASS hdr)
  && ((byte_at data 1 =? USBRQ_HID_GET_REPORT hdr)
      || (byte_at data 1 =? USBRQ_HID_GET_IDLE hdr)
      || (byte_at data 1 =? USBRQ_HID_SET_IDLE hdr)).


(** The four commands that arm a chunked transfer. *)
Definition is_arming (data : list Z) : bool :=
  (byte_at data 1 =? USBASP_FUNC_READFLASH)
  || (byte_at data 1 =? USBASP_FUNC_READEEPROM)
  || (byte_at data 1 =? USBASP_FUNC_WRITEFLASH)
  || (byte_at data 1 =? USBASP_FUNC_WRITEEEPROM).

(** The bytes a write transfer took in, from its chunks and what each call
    returned: a call that returns 0xff took none. *)
Fixpoint accepted_bytes (chunks : list (list Z)) (rets : list Z) : nat :=
  match chunks, rets with
  | c :: cs, r :: rs =>
      ((if (r =? 255)%Z then 0 else length c) + accepted_bytes cs rs)%nat
  | _, _ => 0%nat
  end.

(** The [CallFlushPage] entries of a trace. *)
Definition is_flush (c : isp_call) : bool :=
  match c with CallFlushPage _ _ => true | _ => false end.

Definition flushes (t : list isp_call) : list isp_call := filter is_flush t.

(** The reader counting [prog_nbytes] down, one per byte served, and
    closing the transfer exactly at 0: what a reader that mirrors the
    writer would do on one call. *)
Definition reader_counts_down (port : Port) (addr_bits : Z)
  (s : Device) (len : Z) : Prop :=
  let '(s', _, out) := usbFunctionRead port addr_bits s len in
  prog_nbytes s' = to_uint (prog_nbytes s - Z.of_nat (length out))
  /\ (prog_state s' = PROG_STATE_IDLE <-> prog_nbytes s' = 0).

(** The device after reset and one command. *)
Definition armed (data : list Z) : Device :=
  fst (usbFunctionSetup sample_headers quiet_port
         (power_up sample_headers) data).

(** ** The paging policy, stated

    What the paged writer is expected to call, as a function of the offset
    of a byte in its transfer. *)

(** The number of bytes between two flushes: the 8-bit [prog_pagecounter]
    is reloaded with the low byte of [prog_pagesize] and counts down to 0,
    a reload with 0 counting 256. *)
Definition period (pagesize : Z) : Z := (pagesize - 1) mod 256 + 1.

(** The calls for the byte [b] at offset [j]: it is written into the page
    buffer, and the page is flushed when [j + 1] is a multiple of the
    period. *)
Definition paged_byte_calls (addr_bits a0 pagesize : Z) (j : nat) (b : Z)
  : list isp_call :=
  let a := wrap addr_bits (a0 + Z.of_nat j) in
  CallWriteFlash a b 0
  :: (if (Z.of_nat j + 1) mod period pagesize =? 0
      then [CallFlushPage a b] else []).

Fixpoint paged_calls (addr_bits a0 pagesize : Z) (j : nat) (data : list Z)
  : list isp_call :=
  match data with
  | [] => []
  | b :: rest =>
      paged_byte_calls addr_bits a0 pagesize j b
      ++ paged_calls addr_bits a0 pagesize (S j) rest
  end.

(** The offsets, among the [n] first ones from [from], of the bytes that
    fill a page. *)
Definition flush_offsets (pagesize : Z) (from n : nat) : list nat :=
  filter (fun i => (Z.of_nat i + 1) mod period pagesize =? 0) (seq from n).

(** The flush of the page that the byte at offset [i] of [data] fills (or
    closes): [ispFlushPage] with the address of that byte and the byte. *)
Definition flush_at (addr_bits a0 : Z) (data : list Z) (i : nat)
  : isp_call :=
  CallFlushPage (wrap addr_bits (a0 + Z.of_nat i)) (nth i data 0).

(** The forced flush at the end of a transfer of [n] bytes: asked for by
    PROG_BLOCKFLAG_LAST, and made when the countdown differs from the page
    size, which it does when the last page is not full and, the countdown
    being a byte, whenever the page size is 256 or more. *)
Definition forced_flush (addr_bits a0 pagesize : Z) (last : bool)
  (data : list Z) : list isp_call :=
  let n := length data in
  if last && ((256 <=? pagesize)
              || negb (Z.of_nat n mod period pagesize =? 0))
  then [flush_at addr_bits a0 data (n - 1)] else [].

(** The command [cmd] is a WRITEFLASH that announces the page size
    [pagesize], [nbytes] bytes and the two block flags. *)
Definition arms_paged_write (cmd : list Z) (pagesize nbytes : Z)
  (first last : bool) : Prop :=
  is_packet cmd
  /\ byte_at cmd 1 = USBASP_FUNC_WRITEFLASH
  /\ byte_at cmd 4 + 256 * (byte_at cmd 5 / 16) = pagesize
  /\ Z.testbit (byte_at cmd 5) 0 = first
  /\ Z.testbit (byte_at cmd 5) 1 = last
  /\ byte_at cmd 6 + 256 * byte_at cmd 7 = nbytes.

(** The session [j] bytes into a paged flash write of [n] bytes that
    started at [a0] with a full countdown. *)
Definition paging (addr_bits a0 pagesize n flags : Z) (j : nat)
  (s : Device) : Prop :=
  prog_state s = PROG_STATE_WRITEFLASH
  /\ prog_pagesize s = pagesize
  /\ prog_blockflags s = flags
  /\ prog_nbytes s = n - Z.of_nat j
  /\ prog_address s = wrap addr_bits (a0 + Z.of_nat j)
  /\ prog_pagecounter s
     = to_uchar (pagesize - Z.of_nat j mod period pagesize).

(** The calls made between the state [s0] and the later state [s']. *)
Definition calls_since (s0 s' : Device) : list isp_call :=
  skipn (length (trace s0)) (trace s').

(** The bytes of [data] written to the EEPROM one after the other, the
    first of them at [a + j]. *)
Fixpoint eeprom_calls (addr_bits a : Z) (j : nat) (data : list Z)
  : list isp_call :=
  match data with
  | [] => []
  | b :: rest =>
      CallWriteEEPROM (wrap addr_bits (a + Z.of_nat j)) b
      :: eeprom_calls addr_bits a (S j) rest
  end.

Definition is_eeprom_write (c : isp_call) : bool :=
  match c with CallWriteEEPROM _ _ => true | _ => false end.

(** The bytes a write in progress takes before the writer closes it:
    [prog_nbytes] is decremented before it is compared with 0, so a count
    of 0 stands for 65536. *)
Definition bytes_left (s : Device) : Z :=
  if prog_nbytes s =? 0 then 65536 else prog_nbytes s.

(** A flash write handed a chunk longer than [prog_nbytes] going idle in
    the middle of the chunk, passing bytes to the EEPROM and returning 1,
    whatever the count at the entry of the call. *)
Definition overrun_spills (addr_bits : Z) (s : Device) (data : list Z)
  : Prop :=
  prog_state s = PROG_STATE_WRITEFLASH ->
  prog_nbytes s < Z.of_nat (length data) ->
  let (s', ret) := usbFunctionWrite addr_bits s data in
  prog_state s' = PROG_STATE_IDLE
  /\ existsb is_eeprom_write (calls_since s s') = true
  /\ ret = 1.

(** ** The rest of the firmware

    The session as one value, the calls of the plain (unpaged) transfers,
    the keyboard polling of [main]'s loop, and the command dispatcher of the
    older [firmware/main.c]. *)

(** The eight [prog_] variables, in the order of their declarations. *)
Definition session (s : Device) : list Z :=
  [prog_state s; prog_sck s; prog_address_newmode s; prog_address s;
   prog_nbytes s; prog_pagesize s; prog_blockflags s; prog_pagecounter s].

(** One call per byte of [data], made with the address of the byte, the
    first of them at [a + j]. *)
Fixpoint byte_calls (call : Z -> Z -> isp_call) (addr_bits a : Z) (j : nat)
  (data : list Z) : list isp_call :=
  match data with
  | [] => []
  | b :: rest =>
      call (wrap addr_bits (a + Z.of_nat j)) b
      :: byte_calls call addr_bits a (S j) rest
  end.

(** [ispWriteFlash] with its poll mode set: the byte is committed at once. *)
Definition write_flash_now (a b : Z) : isp_call := CallWriteFlash a b 1.

(** [n] reads at consecutive addresses from [a + j] on. *)
Definition read_calls (call : Z -> isp_call) (addr_bits a : Z) (j n : nat)
  : list isp_call :=
  map (fun i => call (wrap addr_bits (a + Z.of_nat i))) (seq j n).

(** The read primitive of the state [st]: the flash in READFLASH, the
    EEPROM otherwise. *)
Definition read_call_of (st : Z) : Z -> isp_call :=
  if st =? PROG_STATE_READFLASH then CallReadFlash else CallReadEEPROM.

(** The action is a SETISPSCK command that reaches the dispatcher. *)
Definition is_setispsck (hdr : Headers) (a : action) : bool :=
  match a with
  | DoSetup data =>
      negb (class_request_served hdr data)
      && (byte_at data 1 =? USBASP_FUNC_SETISPSCK)
  | _ => false
  end.

(** The strap on PC2 reads low: [(PINC & (1 << PC2)) == 0]. *)
Definition strap_low (hdr : Headers) (port : Port) (s : Device) : bool :=
  Z.land (PINC port (trace s)) (Z.shiftl 1 (PC2 hdr)) =? 0.

(** An action a host can really make: a setup packet is eight bytes. *)
Definition action_ok (a : action) : Prop :=
  match a with
  | DoSetup data => is_packet data
  | _ => True
  end.

(** The values the session variables take: each within its C type, and
    within what the code ever stores in it. *)
Definition session_ok (s : Device) : Prop :=
  0 <= prog_state s <= 4
  /\ 0 <= prog_sck s < 256
  /\ 0 <= prog_address_newmode s <= 1
  /\ 0 <= prog_address s < 2 ^ 32
  /\ 0 <= prog_nbytes s < 65536
  /\ 0 <= prog_pagesize s <= 4095
  /\ 0 <= prog_blockflags s <= 15
  /\ 0 <= prog_pagecounter s < 256.

(** What neither [usbFunctionRead] nor [usbFunctionWrite] has an
    assignment to: the settings of the session and the buffers of
    [usbFunctionSetup]. *)
Definition beyond_chunks (s : Device)
  : Z * Z * Z * Z * list Z * list Z * Z * Z * msg_ptr :=
  (prog_sck s, prog_address_newmode s, prog_pagesize s, prog_blockflags s,
   replyBuffer s, reportBuffer s, idleRate s, lastKey s, usbMsgPtr s).

(** *** The keyboard polling of [main]'s loop *)

(** The statics of the keyboard code that [usbFunctionSetup] does not
    use. *)
Record Keys : Type := mkKeys {
  key : Z;
  keyChanged : Z;
  idleCounter : Z
}.

Definition set_lastKey (v : Z) (s : Device) : Device :=
  mkDevice (prog_state s) (prog_sck s) (prog_address_newmode s)
    (prog_address s) (prog_nbytes s) (prog_pagesize s) (prog_blockflags s)
    (prog_pagecounter s)
    (replyBuffer s) (reportBuffer s) (idleRate s) v (usbMsgPtr s) (trace s).

(** [keyPressed]: [!(PIND & (1 << PIND5))], on the value read from PIND;
    the bit number PIND5 of [avr/io.h] is a parameter. *)
Definition keyPressed (pind5 pind : Z) : Z :=
  if Z.land pind (Z.shiftl 1 pind5) =? 0 then 1 else 0.

(** [keyPoll], PIND reading [pind]. *)
Definition keyPoll (pind5 pind : Z) (sk : Device * Keys) : Device * Keys :=
  let (s, k) := sk in
  let k1 := mkKeys (keyPressed pind5 pind) (keyChanged k) (idleCounter k) in
  if negb (lastKey s =? key k1)
  then (set_lastKey (key k1) s, mkKeys (key k1) 1 (idleCounter k1))
  else (s, k1).

(** [timerPoll], TIFR reading [tifr]: the new state and the value written
    back to TIFR, if any.  TOV2 is a parameter as PIND5 is. *)
Definition timerPoll (tov2 tifr : Z) (sk : Device * Keys)
  : Device * Keys * option Z :=
  let (s, k) := sk in
  if Z.land tifr (Z.shiftl 1 tov2) =? 0 then (s, k, None)
  else
    let k1 :=
      if idleRate s =? 0 then k
      else if 4 <? idleCounter k
           then mkKeys (key k) (keyChanged k) (to_uchar (idleCounter k - 5))
           else mkKeys (key k) 1 (idleRate s) in
    (s, k1, Some (Z.shiftl 1 tov2)).

(** [sendKey], [usbInterruptIsReady()] answering [ready]: the new state
    and the report handed to [usbSetInterrupt], if any. *)
Definition sendKey (ready : bool) (sk : Device * Keys)
  : Device * Keys * option (list Z) :=
  let (s, k) := sk in
  if negb (keyChanged k =? 0) && ready then
    let k1 := mkKeys (key k) 0 (idleCounter k) in
    let s1 := buildReport (lastKey s) s in
    (s1, k1, Some (reportBuffer s1))
  else (s, k, None).

(** The keyboard's part of one turn of the loop of [main]: [keyPoll();
    timerPoll(); sendKey();].  The new state and the report sent. *)
Definition poll_keys (pind5 tov2 pind tifr : Z) (ready : bool)
  (sk : Device * Keys) : Device * Keys * option (list Z) :=
  sendKey ready (fst (timerPoll tov2 tifr (keyPoll pind5 pind sk))).

(** [n] timer overflows seen by [timerPoll] one after the other. *)
Fixpoint overflows (tov2 tifr : Z) (n : nat) (sk : Device * Keys)
  : Device * Keys :=
  match n with
  | O => sk
  | S m => overflows tov2 tifr m (fst (timerPoll tov2 tifr sk))
  end.

(** *** The dispatcher of [firmware/main.c] *)

Module Fw2006.

(** The clock selectors of [isp.h] and the bit number of [avr/io.h], none
    of them in the sources. *)
Record Headers : Type := {
  ISP_SCK_SLOW : Z;
  ISP_SCK_FAST : Z;
  PC2 : Z
}.

(** [prog_address = (data[3] << 8) | data[2];] into an [unsigned int]. *)
Definition load_address (data : list Z) (s : Device) : Device :=
  set_prog_address (to_uint (int_of_bytes (byte_at data 3) (byte_at data 2)))
    s.

Definition usbFunctionSetup (hdr : Headers) (port : Port) (s : Device)
  (data : list Z) : Device * Z :=
  let cmd := byte_at data 1 in
  let (s1, len) :=
    if cmd =? USBASP_FUNC_CONNECT then
      let s1 :=
        if Z.land (PINC port (trace s)) (Z.shiftl 1 (PC2 hdr)) =? 0
        then emit (CallSetSCKOption (ISP_SCK_SLOW hdr)) s
        else emit (CallSetSCKOption (ISP_SCK_FAST hdr)) s in
      (emit CallLedRedOn (emit CallConnect s1), 0)
    else if cmd =? USBASP_FUNC_DISCONNECT then
      (emit CallLedRedOff (emit CallDisconnect s), 0)
    else if cmd =? USBASP_FUNC_TRANSMIT then
      let s1 := transmit_into port 0 (byte_at data 2) s in
      let s2 := transmit_into port 1 (byte_at data 3) s1 in
      let s3 := transmit_into port 2 (byte_at data 4) s2 in
      (transmit_into port 3 (byte_at data 5) s3, 4)
    else if cmd =? USBASP_FUNC_READFLASH then
      let s1 := load_address data s in
      let s2 := load_nbytes data s1 in
      (set_prog_state PROG_STATE_READFLASH s2, 255)
    else if cmd =? USBASP_FUNC_READEEPROM then
      let s1 := load_address data s in
      let s2 := load_nbytes data s1 in
      (set_prog_state PROG_STATE_READEEPROM s2, 255)
    else if cmd =? USBASP_FUNC_ENABLEPROG then
      let r := ispEnterProgrammingMode port (trace s) in
      (set_replyBuffer (store 0 (to_uchar r) (replyBuffer s))
         (emit CallEnterProgrammingMode s), 1)
    else if cmd =? USBASP_FUNC_WRITEFLASH then
      let s1 := load_address data s in
      let s2 := set_prog_pagesize (to_uint (byte_at data 4)) s1 in
      let s3 :=
        set_prog_blockflags (to_uchar (Z.land (byte_at data 5) 15)) s2 in
      let s4 :=
        set_prog_pagesize
          (to_uint (prog_pagesize s3
                    + Z.shiftl (Z.land (to_uint (byte_at data 5)) 240) 4))
          s3 in
      let s5 :=
        if Z.land (prog_blockflags s4) PROG_BLOCKFLAG_FIRST =? 0
        then s4
        else set_prog_pagecounter (to_uchar (prog_pagesize s4)) s4 in
      let s6 := load_nbytes data s5 in
      (set_prog_state PROG_STATE_WRITEFLASH s6, 255)
    else if cmd =? USBASP_FUNC_WRITEEEPROM then
      let s1 := load_address data s in
      let s2 := set_prog_pagesize 0 s1 in
      let s3 := set_prog_blockflags 0 s2 in
      let s4 := load_nbytes data s3 in
      (set_prog_state PROG_STATE_WRITEEEPROM s4, 255)
    else (s, 0) in
  (set_usbMsgPtr PtrReplyBuffer s1, len).

End Fw2006.

(** ** Basic facts *)

(** Case analysis on every test the goal branches on. *)
Ltac split_ifs :=
  repeat match goal with
         | |- context [if ?c then _ else _] => destruct c eqn:?
         end.


Lemma wrap_add_l (w a b : Z) : wrap w (wrap w a + b) = wrap w (a + b).
Proof. unfold wrap. apply Zplus_mod_idemp_l. Qed.

Lemma wrap_small (w a : Z) : 0 <= a < 2 ^ w -> wrap w a = a.
Proof. intros H. unfold wrap. apply Z.mod_small. exact H. Qed.

Lemma to_uchar_range (x : Z) : 0 <= to_uchar x < 256.
Proof. unfold to_uchar, wrap. change (2 ^ 8) with 256. apply Z.mod_pos_bound. lia. Qed.

Lemma to_uint_range (x : Z) : 0 <= to_uint x < 65536.
Proof. unfold to_uint, wrap. change (2 ^ 16) with 65536. apply Z.mod_pos_bound. lia. Qed.

Section ReaderFacts.

Variable port : Port.
Variable addr_bits : Z.

Lemma read_iter_nbytes_irrelevant (n : Z) (s : Device) :
  read_iter port addr_bits (set_prog_nbytes n s)
  = (set_prog_nbytes n (fst (read_iter port addr_bits s)),
     snd (read_iter port addr_bits s)).
Proof.
  unfold read_iter. simpl.
  destruct (prog_state s =? PROG_STATE_READFLASH); reflexivity.
Qed.

Lemma read_loop_nbytes_irrelevant (n : Z) (k : nat) :
  forall s,
    read_loop port addr_bits k (set_prog_nbytes n s)
    = (set_prog_nbytes n (fst (read_loop port addr_bits k s)),
       snd (read_loop port addr_bits k s)).
Proof.
  induction k as [|k IH]; intros s; simpl.
  - reflexivity.
  - rewrite read_iter_nbytes_irrelevant.
    destruct (read_iter port addr_bits s) as [s1 b]. simpl.
    rewrite IH.
    destruct (read_loop port addr_bits k s1) as [s2 bs]. reflexivity.
Qed.

(** What one turn of the reader's loop leaves alone, and what it does to
    the address. *)
Lemma read_iter_frame (s : Device) :
  let s' := fst (read_iter port addr_bits s) in
  prog_state s' = prog_state s
  /\ prog_nbytes s' = prog_nbytes s
  /\ prog_address_newmode s' = prog_address_newmode s
  /\ prog_address s' = wrap addr_bits (prog_address s + 1).
Proof.
  unfold read_iter.
  destruct (prog_state s =? PROG_STATE_READFLASH); simpl; auto.
Qed.

Lemma wrap_range (a : Z) : 0 < 2 ^ addr_bits -> 0 <= wrap addr_bits a < 2 ^ addr_bits.
Proof. intros H. unfold wrap. apply Z.mod_pos_bound. exact H. Qed.

Lemma read_loop_frame (k : nat) :
  forall s,
    let r := read_loop port addr_bits k s in
    prog_state (fst r) = prog_state s
    /\ prog_nbytes (fst r) = prog_nbytes s
    /\ prog_address_newmode (fst r) = prog_address_newmode s
    /\ length (snd r) = k.
Proof.
  induction k as [|k IH]; intros s.
  - simpl. auto.
  - cbn [read_loop].
    destruct (read_iter_frame s) as (E1 & E2 & E3 & _).
    destruct (read_iter port addr_bits s) as [s1 b]. cbn [fst] in *.
    specialize (IH s1). cbv zeta in IH.
    destruct (read_loop port addr_bits k s1) as [s2 bs]. cbn [fst snd] in *.
    destruct IH as (F1 & F2 & F3 & F4).
    rewrite F1, F2, F3, E1, E2, E3. simpl. auto.
Qed.

Lemma read_loop_address (k : nat) :
  forall s,
    0 <= prog_address s < 2 ^ addr_bits ->
    prog_address (fst (read_loop port addr_bits k s))
    = wrap addr_bits (prog_address s + Z.of_nat k).
Proof.
  induction k as [|k IH]; intros s Hs.
  - simpl. rewrite Z.add_0_r, wrap_small by exact Hs. reflexivity.
  - cbn [read_loop].
    destruct (read_iter_frame s) as (_ & _ & _ & E4).
    destruct (read_iter port addr_bits s) as [s1 b]. cbn [fst] in *.
    assert (Hs1 : 0 <= prog_address s1 < 2 ^ addr_bits)
      by (rewrite E4; apply wrap_range; lia).
    specialize (IH s1 Hs1).
    destruct (read_loop port addr_bits k s1) as [s2 bs]. cbn [fst snd] in *.
    rewrite IH, E4, wrap_add_l. f_equal. lia.
Qed.

End ReaderFacts.

(** ** The callbacks refuse a call in the wrong state *)

(** C6: [usbFunctionRead] outside the two read states and
    [usbFunctionWrite] outside the two write states (so both of them in
    PROG_STATE_IDLE) return 0xff, call nothing of [isp.c], write no byte to
    [data] and leave every static variable as it was. *)
Theorem C6_wrong_state_returns_sentinel :
  forall (port : Port) (addr_bits : Z) (s : Device),
    (prog_state s <> PROG_STATE_READFLASH ->
     prog_state s <> PROG_STATE_READEEPROM ->
     forall len, usbFunctionRead port addr_bits s len = (s, 255, []))
    /\ (prog_state s <> PROG_STATE_WRITEFLASH ->
        prog_state s <> PROG_STATE_WRITEEEPROM ->
        forall data, usbFunctionWrite addr_bits s data = (s, 255))
    /\ (prog_state s = PROG_STATE_IDLE ->
        forall len data,
          usbFunctionRead port addr_bits s len = (s, 255, [])
          /\ usbFunctionWrite addr_bits s data = (s, 255)).
Proof.
  intros port addr_bits s. repeat split.
  - intros H1 H2 len. unfold usbFunctionRead, in_read_state.
    apply Z.eqb_neq in H1, H2. rewrite H1, H2. reflexivity.
  - intros H1 H2 data. unfold usbFunctionWrite, in_write_state.
    apply Z.eqb_neq in H1, H2. rewrite H1, H2. reflexivity.
  - unfold usbFunctionRead, in_read_state. rewrite H. reflexivity.
  - unfold usbFunctionWrite, in_write_state. rewrite H. reflexivity.
Qed.

Lemma C6_wrong_state_returns_sentinel_witness :
  usbFunctionRead quiet_port 32 (power_up sample_headers) 8
  = (power_up sample_headers, 255, [])
  /\ usbFunctionWrite 32 (power_up sample_headers) [1; 2; 3]
     = (power_up sample_headers, 255).
Proof.
  destruct (C6_wrong_state_returns_sentinel quiet_port 32
              (power_up sample_headers)) as (_ & _ & H).
  apply H. reflexivity.
Defined.

(** ** The reader *)

(** C7: a call of [usbFunctionRead] in a read state with [len < 8] leaves
    PROG_STATE_IDLE behind and returns [len], having produced [len] bytes,
    whatever [prog_nbytes] holds: the variable is neither changed nor looked
    at (another value in it changes nothing else of the outcome). *)
Theorem C7_short_read_ends_transfer :
  forall (port : Port) (addr_bits : Z) (s : Device) (len : Z),
    in_read_state s = true ->
    0 <= len < 8 ->
    let '(s', r, out) := usbFunctionRead port addr_bits s len in
    prog_state s' = PROG_STATE_IDLE
    /\ r = len
    /\ Z.of_nat (length out) = len
    /\ prog_nbytes s' = prog_nbytes s
    /\ forall n,
         usbFunctionRead port addr_bits (set_prog_nbytes n s) len
         = (set_prog_nbytes n s', r, out).
Proof.
  intros port addr_bits s len Hst Hlen.
  unfold usbFunctionRead.
  rewrite Hst. cbn [negb].
  destruct (read_loop_frame port addr_bits (Z.to_nat len) s)
    as (F1 & F2 & _ & F4).
  assert (Hn : forall n,
    read_loop port addr_bits (Z.to_nat len) (set_prog_nbytes n s)
    = (set_prog_nbytes n (fst (read_loop port addr_bits (Z.to_nat len) s)),
       snd (read_loop port addr_bits (Z.to_nat len) s)))
    by (intros n; apply read_loop_nbytes_irrelevant).
  destruct (read_loop port addr_bits (Z.to_nat len) s) as [s1 out].
  cbn [fst snd] in *.
  assert (Hlt : (len <? 8) = true) by (apply Z.ltb_lt; lia).
  rewrite Hlt. repeat split.
  - rewrite F4. lia.
  - exact F2.
  - intros n.
    change (in_read_state (set_prog_nbytes n s)) with (in_read_state s).
    rewrite Hst, Hn. reflexivity.
Qed.

Lemma C7_short_read_ends_transfer_witness :
  let '(s', r, out) :=
    usbFunctionRead quiet_port 32
      (armed (vendor_packet USBASP_FUNC_READFLASH 0 0 0 0 64 0)) 3 in
  prog_state s' = PROG_STATE_IDLE /\ r = 3 /\ prog_nbytes s' = 64.
Proof.
  pose proof (C7_short_read_ends_transfer quiet_port 32
    (armed (vendor_packet USBASP_FUNC_READFLASH 0 0 0 0 64 0)) 3
    eq_refl ltac:(lia)) as H.
  destruct (usbFunctionRead quiet_port 32
    (armed (vendor_packet USBASP_FUNC_READFLASH 0 0 0 0 64 0)) 3)
    as [[s' r] out].
  destruct H as (H1 & H2 & _ & H4 & _).
  repeat split; [exact H1 | exact H2 | rewrite H4; reflexivity].
Defined.

(** ** The writer, one byte at a time *)

Section WriterFacts.

Variable addr_bits : Z.

(** The first half of the loop body touches [prog_pagecounter] and the
    trace only. *)
Lemma write_store_frame (s : Device) (b : Z) :
  let s' := write_store s b in
  prog_state s' = prog_state s
  /\ prog_nbytes s' = prog_nbytes s
  /\ prog_address s' = prog_address s
  /\ prog_pagesize s' = prog_pagesize s
  /\ prog_blockflags s' = prog_blockflags s
  /\ prog_address_newmode s' = prog_address_newmode s.
Proof.
  unfold write_store. split_ifs; simpl; auto 10.
Qed.

(** One turn of the writer's loop, field by field. *)
Lemma write_iter_frame (sr : Device * Z) (b : Z) :
  let r := write_iter addr_bits sr b in
  let n' := to_uint (prog_nbytes (fst sr) - 1) in
  prog_nbytes (fst r) = n'
  /\ prog_address (fst r) = wrap addr_bits (prog_address (fst sr) + 1)
  /\ prog_state (fst r)
     = (if n' =? 0 then PROG_STATE_IDLE else prog_state (fst sr))
  /\ snd r = (if n' =? 0 then 1 else snd sr)
  /\ prog_pagesize (fst r) = prog_pagesize (fst sr)
  /\ prog_blockflags (fst r) = prog_blockflags (fst sr)
  /\ prog_address_newmode (fst r) = prog_address_newmode (fst sr).
Proof.
  destruct sr as [s ret]. cbn [fst snd]. unfold write_iter. cbn [fst snd].
  destruct (write_store_frame s b) as (E1 & E2 & E3 & E4 & E5 & E6).
  cbv zeta in *.
  unfold write_account.
  set (s0 := write_store s b) in *.
  cbn [prog_nbytes set_prog_nbytes]. rewrite E2.
  destruct (to_uint (prog_nbytes s - 1) =? 0) eqn:En.
  - destruct (flush_pending _); simpl; rewrite ?E1, ?E2, ?E3, ?E4, ?E5, ?E6;
      auto 10.
  - simpl. rewrite ?E1, ?E2, ?E3, ?E4, ?E5, ?E6. auto 10.
Qed.

End WriterFacts.

(** ** Who counts [prog_nbytes] down *)

(** C3, as amended: every byte [usbFunctionWrite] takes in while a write is
    in progress decrements [prog_nbytes] by one (as an [unsigned int]), and
    the state becomes PROG_STATE_IDLE on that byte exactly when the count
    has become 0.  [usbFunctionRead] leaves [prog_nbytes] alone: a read in
    progress ends exactly on a call with [len < 8]. *)
Theorem C3_writer_counts_down_reader_ends_on_short_chunk :
  forall (port : Port) (addr_bits : Z) (s : Device),
    (in_write_state s = true ->
     forall ret b,
       let s' := fst (write_iter addr_bits (s, ret) b) in
       prog_nbytes s' = to_uint (prog_nbytes s - 1)
       /\ (prog_state s' = PROG_STATE_IDLE <-> prog_nbytes s' = 0))
    /\ (in_read_state s = true ->
        forall len,
          let s' := fst (fst (usbFunctionRead port addr_bits s len)) in
          prog_nbytes s' = prog_nbytes s
          /\ (prog_state s' = PROG_STATE_IDLE <-> len < 8)).
Proof.
  intros port addr_bits s. split.
  - intros Hst ret b. cbv zeta.
    destruct (write_iter_frame addr_bits (s, ret) b) as (E1 & _ & E3 & _).
    cbn [fst snd] in *. rewrite E3, E1. split; [reflexivity|].
    unfold in_write_state in Hst.
    destruct (to_uint (prog_nbytes s - 1) =? 0) eqn:En.
    + apply Z.eqb_eq in En. tauto.
    + apply Z.eqb_neq in En. split; [|tauto].
      intros Hidle. rewrite Hidle in Hst. discriminate Hst.
  - intros Hst len. cbv zeta. unfold usbFunctionRead. rewrite Hst.
    cbn [negb].
    destruct (read_loop_frame port addr_bits (Z.to_nat len) s)
      as (F1 & F2 & _).
    destruct (read_loop port addr_bits (Z.to_nat len) s) as [s1 out].
    cbn [fst snd] in *.
    destruct (len <? 8) eqn:Hlt; cbn [fst prog_nbytes prog_state set_prog_state].
    + apply Z.ltb_lt in Hlt. tauto.
    + apply Z.ltb_ge in Hlt. rewrite F1, F2. split; [reflexivity|].
      unfold in_read_state in Hst. split; [|lia].
      intros Hidle. rewrite Hidle in Hst. discriminate Hst.
Qed.

(** C3 fails as stated: a READFLASH transfer of 16 bytes is armed and a full
    chunk of 8 is pulled; 8 bytes are served and [prog_nbytes] is still 16. *)
Lemma C3_reader_counterexample :
  ~ reader_counts_down quiet_port 32
      (armed (vendor_packet USBASP_FUNC_READFLASH 0 0 0 0 16 0)) 8.
Proof.
  unfold reader_counts_down. vm_compute. intros [H _]. discriminate H.
Qed.

(** ** The dispatcher *)

Section DispatcherFacts.

Variable hdr : Headers.
Variable port : Port.

Lemma hid_request_none (s : Device) (data : list Z) :
  hid_request hdr s data = None <-> class_request_served hdr data = false.
Proof.
  unfold hid_request, class_request_served.
  split_ifs; cbn; split; intros H; congruence.
Qed.


Lemma setup_dispatches (s : Device) (data : list Z) :
  hid_request hdr s data = None ->
  usbFunctionSetup hdr port s data
  = (set_usbMsgPtr PtrReplyBuffer (fst (dispatch hdr port s data)),
     snd (dispatch hdr port s data)).
Proof.
  intros H. unfold usbFunctionSetup. rewrite H.
  destruct (dispatch hdr port s data). reflexivity.
Qed.

Lemma load_legacy_address_frame (data : list Z) (s : Device) :
  let s' := load_legacy_address data s in
  prog_address s'
  = (if prog_address_newmode s =? 0 then legacy_address data
     else prog_address s)
  /\ prog_address_newmode s' = prog_address_newmode s
  /\ prog_pagecounter s' = prog_pagecounter s
  /\ prog_blockflags s' = prog_blockflags s
  /\ prog_pagesize s' = prog_pagesize s
  /\ trace s' = trace s.
Proof.
  unfold load_legacy_address.
  destruct (prog_address_newmode s =? 0); cbn; auto 10.
Qed.

(** What WRITEFLASH leaves in the session. *)
Lemma dispatch_writeflash (s : Device) (data : list Z) :
  byte_at data 1 = USBASP_FUNC_WRITEFLASH ->
  let s' := fst (dispatch hdr port s data) in
  let size :=
    to_uint (to_uint (byte_at data 4)
             + Z.shiftl (Z.land (to_uint (byte_at data 5)) 240) 4) in
  let flags := to_uchar (Z.land (byte_at data 5) 15) in
  prog_pagesize s' = size
  /\ prog_blockflags s' = flags
  /\ prog_pagecounter s'
     = (if Z.land flags PROG_BLOCKFLAG_FIRST =? 0 then prog_pagecounter s
        else to_uchar size)
  /\ prog_nbytes s'
     = to_uint (int_of_bytes (byte_at data 7) (byte_at data 6))
  /\ prog_state s' = PROG_STATE_WRITEFLASH
  /\ prog_address s'
     = (if prog_address_newmode s =? 0 then legacy_address data
        else prog_address s)
  /\ prog_address_newmode s' = prog_address_newmode s
  /\ trace s' = trace s.
Proof.
  intros H. unfold dispatch. rewrite H.
  cbn [Z.eqb USBASP_FUNC_WRITEFLASH USBASP_FUNC_CONNECT
       USBASP_FUNC_DISCONNECT USBASP_FUNC_TRANSMIT USBASP_FUNC_READFLASH
       USBASP_FUNC_READEEPROM USBASP_FUNC_ENABLEPROG Pos.eqb fst].
  destruct (load_legacy_address_frame data s) as (A1 & A2 & A3 & A4 & A5 & A6).
  cbv zeta in *.
  set (s1 := load_legacy_address data s) in *.
  cbn [prog_pagesize prog_blockflags set_prog_pagesize set_prog_blockflags].
  match goal with
  | |- context [if ?c then _ else _] => destruct c
  end; cbn; rewrite ?A1, ?A2, ?A3, ?A6; auto 10.
Qed.

End DispatcherFacts.

(** ** Bytes and bits *)

(** A property of one byte is decided by trying the 256 of them. *)
Lemma forall_bytes (P : Z -> bool) :
  forallb P (map Z.of_nat (seq 0 256)) = true ->
  forall b, 0 <= b < 256 -> P b = true.
Proof.
  intros H b Hb. rewrite forallb_forall in H. apply H.
  apply in_map_iff. exists (Z.to_nat b). split; [lia|].
  apply in_seq. lia.
Qed.

Lemma high_nibble_in_place (b : Z) :
  0 <= b < 256 -> Z.land b 240 = 16 * (b / 16).
Proof.
  intros Hb. apply Z.eqb_eq.
  apply (forall_bytes (fun b => Z.land b 240 =? 16 * (b / 16)));
    [vm_compute; reflexivity | exact Hb].
Qed.

Lemma low_nibble (b : Z) : 0 <= b < 256 -> Z.land b 15 = b mod 16.
Proof.
  intros Hb. apply Z.eqb_eq.
  apply (forall_bytes (fun b => Z.land b 15 =? b mod 16));
    [vm_compute; reflexivity | exact Hb].
Qed.

Lemma flag_first_bit (b : Z) :
  0 <= b < 256 ->
  (Z.land (Z.land b 15) PROG_BLOCKFLAG_FIRST =? 0) = negb (Z.testbit b 0).
Proof.
  intros Hb. apply Bool.eqb_prop.
  apply (forall_bytes (fun b =>
    Bool.eqb (Z.land (Z.land b 15) PROG_BLOCKFLAG_FIRST =? 0)
      (negb (Z.testbit b 0))));
    [vm_compute; reflexivity | exact Hb].
Qed.

Lemma flag_last_bit (b : Z) :
  0 <= b < 256 ->
  (Z.land (Z.land b 15) PROG_BLOCKFLAG_LAST =? 0) = negb (Z.testbit b 1).
Proof.
  intros Hb. apply Bool.eqb_prop.
  apply (forall_bytes (fun b =>
    Bool.eqb (Z.land (Z.land b 15) PROG_BLOCKFLAG_LAST =? 0)
      (negb (Z.testbit b 1))));
    [vm_compute; reflexivity | exact Hb].
Qed.

Lemma packet_byte (data : list Z) (i : nat) :
  is_packet data -> 0 <= byte_at data i < 256.
Proof.
  intros [_ H]. unfold byte_at.
  destruct (Nat.lt_ge_cases i (length data)) as [Hi|Hi].
  - rewrite Forall_forall in H. apply H. apply nth_In. exact Hi.
  - rewrite nth_overflow by exact Hi. lia.
Qed.

(** [prog_pagesize] as WRITEFLASH computes it never leaves 12 bits. *)
Lemma pagesize_decoded (b4 b5 : Z) :
  0 <= b4 < 256 -> 0 <= b5 < 256 ->
  to_uint (to_uint b4 + Z.shiftl (Z.land (to_uint b5) 240) 4)
  = b4 + 256 * (b5 / 16)
  /\ 0 <= b4 + 256 * (b5 / 16) <= 4095.
Proof.
  intros H4 H5.
  assert (Hq : 0 <= b5 / 16 < 16)
    by (split; [apply Z.div_pos; lia | apply Z.div_lt_upper_bound; lia]).
  unfold to_uint.
  rewrite (wrap_small 16 b4) by (change (2 ^ 16) with 65536; lia).
  rewrite (wrap_small 16 b5) by (change (2 ^ 16) with 65536; lia).
  rewrite high_nibble_in_place by exact H5.
  rewrite Z.shiftl_mul_pow2 by lia. change (2 ^ 4) with 16.
  rewrite wrap_small by (change (2 ^ 16) with 65536; lia).
  lia.
Qed.

(** ** Decoding the page size and the block flags *)

(** C8: a WRITEFLASH command leaves in [prog_pagesize] the byte [data[4]]
    plus the high nibble of [data[5]] (taken in place, [data[5] & 0xF0])
    shifted left by 4, a value between 0 and 4095, each of which some pair
    of bytes reaches; [prog_blockflags] is the low nibble of [data[5]], whose
    bit 0 is PROG_BLOCKFLAG_FIRST and bit 1 PROG_BLOCKFLAG_LAST. *)
Theorem C8_pagesize_and_blockflags_decoding :
  forall (hdr : Headers) (port : Port) (s : Device) (data : list Z),
    is_packet data ->
    class_request_served hdr data = false ->
    byte_at data 1 = USBASP_FUNC_WRITEFLASH ->
    let s' := fst (usbFunctionSetup hdr port s data) in
    let b4 := byte_at data 4 in
    let b5 := byte_at data 5 in
    prog_pagesize s' = b4 + Z.shiftl (Z.land b5 240) 4
    /\ prog_pagesize s' = b4 + 256 * (b5 / 16)
    /\ 0 <= prog_pagesize s' <= 4095
    /\ (forall p, 0 <= p <= 4095 ->
        exists c4 c5,
          0 <= c4 < 256 /\ 0 <= c5 < 256
          /\ prog_pagesize
               (fst (usbFunctionSetup hdr port s
                       (store 4 c4 (store 5 c5 data)))) = p)
    /\ prog_blockflags s' = Z.land b5 15
    /\ prog_blockflags s' = b5 mod 16
    /\ (Z.land (prog_blockflags s') PROG_BLOCKFLAG_FIRST <> 0
        <-> Z.testbit b5 0 = true)
    /\ (Z.land (prog_blockflags s') PROG_BLOCKFLAG_LAST <> 0
        <-> Z.testbit b5 1 = true).
Proof.
  intros hdr port s data Hpk Hhid Hreq. cbv zeta.
  apply (hid_request_none hdr s data) in Hhid.
  rewrite setup_dispatches by exact Hhid.
  cbn [fst prog_pagesize prog_blockflags set_usbMsgPtr].
  destruct (dispatch_writeflash hdr port s data Hreq) as (P1 & P2 & _).
  cbv zeta in P1, P2. rewrite P1, P2.
  pose proof (packet_byte data 4 Hpk) as H4.
  pose proof (packet_byte data 5 Hpk) as H5.
  destruct (pagesize_decoded _ _ H4 H5) as [Q1 Q2]. rewrite Q1.
  assert (Hfl : to_uchar (Z.land (byte_at data 5) 15)
                = Z.land (byte_at data 5) 15).
  { rewrite low_nibble by exact H5. apply wrap_small.
    pose proof (Z.mod_pos_bound (byte_at data 5) 16 ltac:(lia)).
    change (2 ^ 8) with 256. lia. }
  rewrite Hfl.
  split; [|split; [|split; [|split; [|split; [|split; [|split]]]]]].
  - rewrite high_nibble_in_place by exact H5.
    rewrite Z.shiftl_mul_pow2 by lia. change (2 ^ 4) with 16. lia.
  - reflexivity.
  - exact Q2.
  - intros p Hp. exists (p mod 256), (16 * (p / 256)).
    assert (Hq : 0 <= p / 256 < 16)
      by (split; [apply Z.div_pos; lia | apply Z.div_lt_upper_bound; lia]).
    pose proof (Z.mod_pos_bound p 256 ltac:(lia)) as Hm.
    split; [lia|]. split; [lia|].
    destruct Hpk as [Hlen Hall].
    destruct data as [|d0 [|d1 [|d2 [|d3 [|d4 [|d5 [|d6 [|d7 [|]]]]]]]]];
      try discriminate Hlen.
    cbn [store].
    rewrite setup_dispatches
      by (apply hid_request_none; apply hid_request_none in Hhid;
          exact Hhid).
    cbn [fst prog_pagesize set_usbMsgPtr].
    match goal with
    | |- prog_pagesize (fst (dispatch _ _ _ ?d)) = _ =>
        destruct (dispatch_writeflash hdr port s d Hreq) as (R1 & _)
    end.
    cbv zeta in R1. rewrite R1.
    change (byte_at [d0; d1; d2; d3; p mod 256; 16 * (p / 256); d6; d7] 4)
      with (p mod 256).
    change (byte_at [d0; d1; d2; d3; p mod 256; 16 * (p / 256); d6; d7] 5)
      with (16 * (p / 256)).
    destruct (pagesize_decoded (p mod 256) (16 * (p / 256))) as [S1 _];
      [lia | lia |].
    rewrite S1.
    replace (16 * (p / 256) / 16) with (p / 256)
      by (rewrite Z.mul_comm, Z.div_mul; lia).
    pose proof (Z.div_mod p 256 ltac:(lia)). lia.
  - reflexivity.
  - apply low_nibble. exact H5.
  - pose proof (flag_first_bit _ H5) as Hb.
    destruct (Z.testbit (byte_at data 5) 0); cbn [negb] in Hb.
    + apply Z.eqb_neq in Hb. tauto.
    + apply Z.eqb_eq in Hb. split; [tauto | discriminate].
  - pose proof (flag_last_bit _ H5) as Hb.
    destruct (Z.testbit (byte_at data 5) 1); cbn [negb] in Hb.
    + apply Z.eqb_neq in Hb. tauto.
    + apply Z.eqb_eq in Hb. split; [tauto | discriminate].
Qed.

Lemma C8_pagesize_and_blockflags_decoding_witness :
  let s' := armed (vendor_packet USBASP_FUNC_WRITEFLASH 0 0 128 19 0 1) in
  prog_pagesize s' = 384 /\ prog_blockflags s' = 3.
Proof.
  assert (Hpk : is_packet (vendor_packet USBASP_FUNC_WRITEFLASH 0 0 128 19 0 1))
    by (split; [reflexivity
                | repeat (apply Forall_cons; [cbv; split; congruence|]);
                  apply Forall_nil]).
  pose proof (C8_pagesize_and_blockflags_decoding sample_headers quiet_port
                (power_up sample_headers) _ Hpk eq_refl eq_refl) as H.
  cbv zeta in H. destruct H as (_ & H2 & _ & _ & H5 & _).
  cbv zeta. unfold armed. rewrite H2, H5. split; reflexivity.
Defined.

(** ** Address modes *)

Lemma lor_shiftl_add (a b n : Z) :
  0 <= n -> 0 <= a < 2 ^ n -> Z.lor a (Z.shiftl b n) = a + b * 2 ^ n.
Proof.
  intros Hn Ha.
  rewrite <- Z.shiftl_mul_pow2 by exact Hn.
  rewrite <- Z.add_lor_land.
  assert (H0 : Z.land a (Z.shiftl b n) = 0).
  { apply Z.bits_inj'. intros i Hi.
    rewrite Z.land_spec, Z.bits_0.
    destruct (Z.lt_ge_cases i n) as [Hlt|Hge].
    - rewrite Z.shiftl_spec_low by exact Hlt. apply andb_false_r.
    - rewrite <- (Z.mod_small a (2 ^ n)) by exact Ha.
      rewrite Z.mod_pow2_bits_high by lia. reflexivity. }
  rewrite H0. lia.
Qed.


(** [(hi << 8) | lo] in 16-bit [int] arithmetic: the high byte counts as a
    signed one. *)
Lemma int_of_bytes_value (hi lo : Z) :
  0 <= hi < 256 -> 0 <= lo < 256 ->
  int_of_bytes hi lo = lo + 256 * (if hi <? 128 then hi else hi - 256).
Proof.
  intros Hh Hl. unfold int_of_bytes.
  assert (E : to_int (Z.shiftl hi 8)
              = Z.shiftl (if hi <? 128 then hi else hi - 256) 8).
  { unfold to_int. rewrite !Z.shiftl_mul_pow2 by lia.
    change (2 ^ 8) with 256.
    rewrite (wrap_small 16) by (change (2 ^ 16) with 65536; lia).
    change (2 ^ 15) with 32768. change (2 ^ 16) with 65536.
    destruct (hi <? 128) eqn:Hlt.
    - apply Z.ltb_lt in Hlt.
      replace (hi * 256 <? 32768) with true
        by (symmetry; apply Z.ltb_lt; lia).
      reflexivity.
    - apply Z.ltb_ge in Hlt.
      replace (hi * 256 <? 32768) with false
        by (symmetry; apply Z.ltb_ge; lia).
      lia. }
  rewrite E, Z.lor_comm.
  rewrite lor_shiftl_add by (change (2 ^ 8) with 256; lia).
  change (2 ^ 8) with 256. lia.
Qed.

(** The legacy address: the 16-bit value of [data[2..3]] while it fits a
    positive [int]; from 0x8000 on the [int] is negative and its conversion
    to [unsigned long] sets the upper 16 bits. *)
Lemma legacy_address_value (data : list Z) :
  is_packet data ->
  legacy_address data
  = (if byte_at data 3 <? 128
     then byte_at data 2 + 256 * byte_at data 3
     else 2 ^ 32 - 2 ^ 16 + (byte_at data 2 + 256 * byte_at data 3)).
Proof.
  intros Hpk.
  pose proof (packet_byte data 2 Hpk) as H2.
  pose proof (packet_byte data 3 Hpk) as H3.
  unfold legacy_address. rewrite int_of_bytes_value by assumption.
  set (b2 := byte_at data 2) in *. set (b3 := byte_at data 3) in *.
  unfold to_ulong, wrap.
  change (2 ^ 32) with 4294967296. change (2 ^ 16) with 65536.
  destruct (b3 <? 128) eqn:Hlt.
  - apply Z.ltb_lt in Hlt. rewrite Z.mod_small; lia.
  - apply Z.ltb_ge in Hlt.
    rewrite <- (Z_mod_plus_full _ 1 4294967296).
    rewrite Z.mod_small; lia.
Qed.

Section AddressMode.

Variable hdr : Headers.
Variable port : Port.
Variable addr_bits : Z.

Ltac clash :=
  repeat match goal with
         | H : (_ =? _) = true |- _ => apply Z.eqb_eq in H
         end;
  unfold USBASP_FUNC_CONNECT, USBASP_FUNC_DISCONNECT, USBASP_FUNC_TRANSMIT,
    USBASP_FUNC_READFLASH, USBASP_FUNC_ENABLEPROG, USBASP_FUNC_WRITEFLASH,
    USBASP_FUNC_READEEPROM, USBASP_FUNC_WRITEEEPROM,
    USBASP_FUNC_SETLONGADDRESS, USBASP_FUNC_SETISPSCK in *;
  lia.

(** CONNECT clears [prog_address_newmode], SETLONGADDRESS sets it, and no
    other command touches it. *)
Lemma dispatch_newmode (s : Device) (data : list Z) :
  prog_address_newmode (fst (dispatch hdr port s data))
  = (if byte_at data 1 =? USBASP_FUNC_CONNECT then 0
     else if byte_at data 1 =? USBASP_FUNC_SETLONGADDRESS then 1
     else prog_address_newmode s).
Proof.
  unfold dispatch, load_nbytes, load_legacy_address.
  split_ifs; cbn; try reflexivity; exfalso; clash.
Qed.

(** The four arming commands take the address from their legacy field in
    the old mode, and leave it alone in the new one. *)
Lemma dispatch_arming_address (s : Device) (data : list Z) :
  is_arming data = true ->
  prog_address (fst (dispatch hdr port s data))
  = (if prog_address_newmode s =? 0 then legacy_address data
     else prog_address s).
Proof.
  unfold is_arming, dispatch, load_nbytes, load_legacy_address.
  intros H. split_ifs; cbn; try reflexivity; cbn in H; try discriminate H;
    exfalso; clash.
Qed.

Lemma write_loop_frame (data : list Z) :
  forall sr,
    let r := write_loop addr_bits sr data in
    prog_address_newmode (fst r) = prog_address_newmode (fst sr)
    /\ prog_pagesize (fst r) = prog_pagesize (fst sr)
    /\ prog_blockflags (fst r) = prog_blockflags (fst sr).
Proof.
  induction data as [|b data IH]; intros sr; cbn [write_loop fold_left].
  - auto.
  - destruct (write_iter_frame addr_bits sr b) as (_ & _ & _ & _ & E5 & E6 & E7).
    cbv zeta in *.
    destruct (IH (write_iter addr_bits sr b)) as (F1 & F2 & F3).
    unfold write_loop in *. rewrite F1, F2, F3. auto.
Qed.



End AddressMode.


(** A command that reaches the dispatcher: its address and mode are those
    [dispatch] leaves. *)
Lemma setup_address_mode (hdr : Headers) (port : Port) (s : Device)
  (data : list Z) :
  class_request_served hdr data = false ->
  prog_address (fst (usbFunctionSetup hdr port s data))
  = prog_address (fst (dispatch hdr port s data))
  /\ prog_address_newmode (fst (usbFunctionSetup hdr port s data))
     = prog_address_newmode (fst (dispatch hdr port s data)).
Proof.
  intros H. apply (hid_request_none hdr s data) in H.
  rewrite setup_dispatches by exact H. split; reflexivity.
Qed.


(** ** The page countdown *)

Lemma succ_mod (j p : Z) :
  0 < p -> 0 <= j ->
  (j + 1) mod p = (if j mod p + 1 =? p then 0 else j mod p + 1).
Proof.
  intros Hp Hj.
  pose proof (Z.div_mod j p ltac:(lia)) as Hdm.
  pose proof (Z.mod_pos_bound j p Hp) as Hr.
  destruct (j mod p + 1 =? p) eqn:E; symmetry.
  - apply Z.eqb_eq in E.
    apply Z.mod_unique_pos with (q := j / p + 1); lia.
  - apply Z.eqb_neq in E.
    apply Z.mod_unique_pos with (q := j / p); lia.
Qed.

Lemma period_range (P : Z) : 1 <= period P <= 256.
Proof.
  unfold period. pose proof (Z.mod_pos_bound (P - 1) 256 ltac:(lia)). lia.
Qed.

Lemma period_small (P : Z) : 1 <= P <= 256 -> period P = P.
Proof.
  intros H. unfold period. rewrite Z.mod_small; lia.
Qed.

(** The period is the low byte of the page size, 0 standing for 256. *)
Lemma period_low_byte (P : Z) :
  1 <= P ->
  period P = (if P mod 256 =? 0 then 256 else P mod 256).
Proof.
  intros HP. unfold period.
  pose proof (Z.div_mod P 256 ltac:(lia)) as Hdm.
  pose proof (Z.mod_pos_bound P 256 ltac:(lia)) as Hr.
  destruct (P mod 256 =? 0) eqn:E.
  - apply Z.eqb_eq in E.
    rewrite <- (Z.mod_unique_pos (P - 1) 256 (P / 256 - 1) 255); lia.
  - apply Z.eqb_neq in E.
    rewrite <- (Z.mod_unique_pos (P - 1) 256 (P / 256) (P mod 256 - 1)); lia.
Qed.

(** The countdown [k] bytes after a reload, as the byte it is kept in. *)
Lemma countdown_value (P r : Z) :
  1 <= P -> 0 <= r < period P ->
  to_uchar (P - r) = (if r =? 0 then P mod 256 else period P - r).
Proof.
  intros HP Hr. unfold to_uchar, wrap. change (2 ^ 8) with 256.
  destruct (r =? 0) eqn:E.
  - apply Z.eqb_eq in E. subst r. rewrite Z.sub_0_r. reflexivity.
  - apply Z.eqb_neq in E. unfold period in *.
    pose proof (Z.div_mod (P - 1) 256 ltac:(lia)) as Hdm.
    pose proof (Z.mod_pos_bound (P - 1) 256 ltac:(lia)) as Hb.
    symmetry. apply Z.mod_unique_pos with (q := (P - 1) / 256); lia.
Qed.

(** One decrement of the countdown: it reaches 0 exactly at the end of a
    period, and is reloaded there. *)
Lemma countdown_step (P j : Z) :
  1 <= P -> 0 <= j ->
  let p := period P in
  let c' := to_uchar (to_uchar (P - j mod p) - 1) in
  (c' =? 0) = ((j + 1) mod p =? 0)
  /\ ((j + 1) mod p <> 0 -> c' = to_uchar (P - (j + 1) mod p)).
Proof.
  intros HP Hj p c'.
  pose proof (period_range P) as Hp. fold p in Hp.
  pose proof (Z.mod_pos_bound j p ltac:(lia)) as Hr.
  assert (Hc : c' = p - 1 - j mod p).
  { unfold c', to_uchar, wrap. rewrite Zminus_mod_idemp_l.
    change (2 ^ 8) with 256. unfold p, period in *.
    pose proof (Z.div_mod (P - 1) 256 ltac:(lia)) as Hdm.
    pose proof (Z.mod_pos_bound (P - 1) 256 ltac:(lia)) as Hb.
    symmetry. apply Z.mod_unique_pos with (q := (P - 1) / 256); lia. }
  rewrite (succ_mod j p) by lia.
  destruct (j mod p + 1 =? p) eqn:E.
  - apply Z.eqb_eq in E. split.
    + rewrite Hc. apply Z.eqb_eq. lia.
    + intros H. exfalso. apply H. reflexivity.
  - apply Z.eqb_neq in E. split.
    + rewrite Hc.
      destruct (p - 1 - j mod p =? 0) eqn:E1;
        destruct (j mod p + 1 =? 0) eqn:E2; try reflexivity;
        [apply Z.eqb_eq in E1 | apply Z.eqb_eq in E2]; lia.
    + intros _. rewrite Hc.
      rewrite (countdown_value P (j mod p + 1)) by (fold p; lia).
      fold p. replace (j mod p + 1 =? 0) with false
        by (symmetry; apply Z.eqb_neq; lia).
      lia.
Qed.

(** ** The paged writer, byte by byte *)

Section PagedWriter.

Variable addr_bits : Z.
Variables a0 P n flags : Z.
Hypothesis P_positive : 1 <= P.
Hypothesis n_fits : n < 65536.

Let p := period P.

(** The first half of the loop body makes the calls of the policy and
    keeps the countdown in step. *)
Lemma paged_store (j : nat) (s : Device) (b : Z) :
  paging addr_bits a0 P n flags j s ->
  let s1 := write_store s b in
  trace s1 = trace s ++ paged_byte_calls addr_bits a0 P j b
  /\ prog_pagecounter s1 = to_uchar (P - (Z.of_nat j + 1) mod p).
Proof.
  intros (Hst & Hps & Hfl & Hnb & Had & Hpc).
  destruct (countdown_step P (Z.of_nat j) P_positive ltac:(lia)) as [C1 C2].
  cbv zeta in C1, C2. fold p in C1, C2.
  unfold write_store, paged_byte_calls. rewrite Hst, Z.eqb_refl, Hps.
  replace (P =? 0) with false by (symmetry; apply Z.eqb_neq; lia).
  cbn [prog_pagecounter emit set_prog_pagecounter]. rewrite Hpc. fold p.
  rewrite C1, Had.
  destruct ((Z.of_nat j + 1) mod p =? 0) eqn:E; cbn.
  - apply Z.eqb_eq in E. rewrite Hps, E, Z.sub_0_r, <- app_assoc.
    split; reflexivity.
  - apply Z.eqb_neq in E. split; [reflexivity | apply C2; exact E].
Qed.

(** A byte that is not the last of the transfer. *)
Lemma paged_iter_running (j : nat) (s : Device) (r b : Z) :
  paging addr_bits a0 P n flags j s ->
  Z.of_nat j + 1 < n ->
  let sr := write_iter addr_bits (s, r) b in
  snd sr = r
  /\ paging addr_bits a0 P n flags (S j) (fst sr)
  /\ trace (fst sr) = trace s ++ paged_byte_calls addr_bits a0 P j b.
Proof.
  intros Hinv Hj.
  destruct (paged_store j s b Hinv) as [T1 T2]. cbv zeta in T1, T2.
  destruct Hinv as (Hst & Hps & Hfl & Hnb & Had & Hpc).
  destruct (write_store_frame s b) as (E1 & E2 & E3 & E4 & E5 & _).
  cbv zeta in *.
  unfold write_iter, write_account. cbn [fst snd].
  set (s1 := write_store s b) in *. clearbody s1.
  cbn [prog_nbytes set_prog_nbytes]. rewrite E2, Hnb.
  assert (Hn : to_uint (n - Z.of_nat j - 1) = n - (Z.of_nat j + 1)).
  { unfold to_uint. rewrite wrap_small; [|change (2 ^ 16) with 65536]; lia. }
  rewrite Hn.
  replace (n - (Z.of_nat j + 1) =? 0) with false
    by (symmetry; apply Z.eqb_neq; lia).
  unfold paging.
  replace (Z.of_nat (S j)) with (Z.of_nat j + 1) by lia.
  cbn [fst snd prog_state prog_pagesize prog_blockflags prog_nbytes
       prog_address prog_pagecounter trace set_prog_address set_prog_nbytes].
  rewrite E1, E3, E4, E5, Hst, Hps, Hfl, Had, T1, T2, wrap_add_l. fold p.
  rewrite <- Z.add_assoc. auto 10.
Qed.

(** The last byte of the transfer: the session goes idle, the call will
    return 1, and the page is flushed once more when PROG_BLOCKFLAG_LAST is
    set and the countdown differs from the page size. *)
Lemma paged_iter_final (j : nat) (s : Device) (r b : Z) :
  paging addr_bits a0 P n flags j s ->
  Z.of_nat j + 1 = n ->
  let sr := write_iter addr_bits (s, r) b in
  let c := to_uchar (P - n mod p) in
  snd sr = 1
  /\ prog_state (fst sr) = PROG_STATE_IDLE
  /\ prog_nbytes (fst sr) = 0
  /\ prog_pagecounter (fst sr) = c
  /\ trace (fst sr)
     = trace s ++ paged_byte_calls addr_bits a0 P j b
       ++ (if negb (Z.land flags PROG_BLOCKFLAG_LAST =? 0) && negb (c =? P)
           then [CallFlushPage (wrap addr_bits (a0 + Z.of_nat j)) b]
           else []).
Proof.
  intros Hinv Hj.
  destruct (paged_store j s b Hinv) as [T1 T2]. cbv zeta in T1, T2.
  destruct Hinv as (Hst & Hps & Hfl & Hnb & Had & Hpc).
  destruct (write_store_frame s b) as (E1 & E2 & E3 & E4 & E5 & _).
  cbv zeta in *.
  unfold write_iter, write_account. cbn [fst snd].
  set (s1 := write_store s b) in *. clearbody s1.
  cbn [prog_nbytes set_prog_nbytes]. rewrite E2, Hnb.
  replace (n - Z.of_nat j - 1) with 0 by lia.
  change (to_uint 0 =? 0) with true. cbv iota.
  unfold flush_pending.
  cbn [prog_blockflags prog_pagecounter prog_pagesize prog_address
       set_prog_state set_prog_nbytes].
  rewrite Hj in T2.
  rewrite E5, E4, E3, Hfl, Hps, Had, T2.
  destruct (negb (Z.land flags PROG_BLOCKFLAG_LAST =? 0)
            && negb (to_uchar (P - n mod p) =? P));
    cbn [fst snd prog_state prog_nbytes prog_pagecounter trace emit
         set_prog_address set_prog_state set_prog_nbytes];
    rewrite T1, ?T2, <- ?app_assoc, ?app_nil_r; auto 10.
Qed.

(** The countdown at the end differs from the page size when the last page
    is not full, and always when the page size does not fit a byte. *)
Lemma countdown_differs (m : Z) :
  0 <= m ->
  negb (to_uchar (P - m mod p) =? P)
  = ((256 <=? P) || negb (m mod p =? 0)).
Proof.
  intros Hm.
  pose proof (period_range P) as Hp. fold p in Hp.
  pose proof (Z.mod_pos_bound m p ltac:(lia)) as Hr.
  pose proof (to_uchar_range (P - m mod p)) as Hc.
  destruct (256 <=? P) eqn:E.
  - apply Z.leb_le in E. cbn [orb].
    replace (to_uchar (P - m mod p) =? P) with false
      by (symmetry; apply Z.eqb_neq; lia).
    reflexivity.
  - apply Z.leb_gt in E. cbn [orb].
    rewrite (countdown_value P (m mod p)) by (fold p; lia). fold p.
    assert (Hpp : p = P) by (apply period_small; lia).
    destruct (m mod p =? 0) eqn:E0; cbn [negb].
    + rewrite Z.mod_small by lia. rewrite Z.eqb_refl. reflexivity.
    + apply Z.eqb_neq in E0.
      replace (p - m mod p =? P) with false
        by (symmetry; apply Z.eqb_neq; lia).
      reflexivity.
Qed.

End PagedWriter.

(** ** The paged writer over a run of bytes *)

Lemma paged_calls_app (addr_bits a0 P : Z) (l1 l2 : list Z) :
  forall j,
    paged_calls addr_bits a0 P j (l1 ++ l2)
    = paged_calls addr_bits a0 P j l1
      ++ paged_calls addr_bits a0 P (j + length l1) l2.
Proof.
  induction l1 as [|b l1 IH]; intros j; cbn [paged_calls app length].
  - rewrite Nat.add_0_r. reflexivity.
  - rewrite IH, <- app_assoc.
    replace (S j + length l1)%nat with (j + S (length l1))%nat by lia.
    reflexivity.
Qed.

(** The flushes among the calls of the policy, by offset. *)
Lemma flushes_paged_calls (addr_bits a0 P : Z) (data : list Z) :
  forall j,
    flushes (paged_calls addr_bits a0 P j data)
    = map (fun i => CallFlushPage (wrap addr_bits (a0 + Z.of_nat i))
                      (nth (i - j) data 0))
        (flush_offsets P j (length data)).
Proof.
  induction data as [|b data IH]; intros j.
  - reflexivity.
  - cbn [paged_calls length]. unfold flushes, flush_offsets in *.
    rewrite filter_app. cbn [seq filter]. rewrite IH.
    unfold paged_byte_calls. cbn [filter is_flush].
    assert (Hrest :
      map (fun i => CallFlushPage (wrap addr_bits (a0 + Z.of_nat i))
                      (nth (i - S j) data 0))
        (filter (fun i => (Z.of_nat i + 1) mod period P =? 0)
           (seq (S j) (length data)))
      = map (fun i => CallFlushPage (wrap addr_bits (a0 + Z.of_nat i))
                        (nth (i - j) (b :: data) 0))
          (filter (fun i => (Z.of_nat i + 1) mod period P =? 0)
             (seq (S j) (length data)))).
    { apply map_ext_in. intros i Hi.
      apply filter_In in Hi. destruct Hi as [Hi _].
      apply in_seq in Hi.
      replace (i - j)%nat with (S (i - S j)) by lia. reflexivity. }
    rewrite Hrest.
    destruct ((Z.of_nat j + 1) mod period P =? 0); cbn [filter is_flush app map].
    + rewrite Nat.sub_diag. reflexivity.
    + reflexivity.
Qed.

Section PagedTransfer.

Variable addr_bits : Z.
Variables a0 P n flags : Z.
Hypothesis P_positive : 1 <= P.
Hypothesis n_fits : n < 65536.

(** While the transfer is not over, the loop keeps the session in step
    with the policy and makes its calls. *)
Lemma paged_loop_running (data : list Z) :
  forall (j : nat) (s : Device) (r : Z),
    paging addr_bits a0 P n flags j s ->
    Z.of_nat (j + length data) < n ->
    let sr := write_loop addr_bits (s, r) data in
    snd sr = r
    /\ paging addr_bits a0 P n flags (j + length data) (fst sr)
    /\ trace (fst sr) = trace s ++ paged_calls addr_bits a0 P j data.
Proof.
  induction data as [|b data IH]; intros j s r Hinv Hlen;
    cbn [write_loop fold_left length paged_calls].
  - rewrite Nat.add_0_r, app_nil_r. auto.
  - cbn [length] in Hlen.
    destruct (paged_iter_running addr_bits a0 P n flags P_positive n_fits
                j s r b Hinv ltac:(lia)) as (R1 & R2 & R3).
    cbv zeta in R1, R2, R3.
    destruct (write_iter addr_bits (s, r) b) as [s1 r1]. cbn [fst snd] in *.
    subst r1.
    destruct (IH (S j) s1 r R2 ltac:(lia)) as (Q1 & Q2 & Q3).
    unfold write_loop in *.
    replace (j + S (length data))%nat with (S j + length data)%nat by lia.
    rewrite Q3, R3, <- app_assoc. auto.
Qed.

(** The whole transfer in one run: the calls of the policy, then the
    forced flush. *)
Lemma paged_loop_complete (data : list Z) (s : Device) (r : Z) :
  paging addr_bits a0 P n flags 0 s ->
  1 <= n ->
  Z.of_nat (length data) = n ->
  let sr := write_loop addr_bits (s, r) data in
  snd sr = 1
  /\ prog_state (fst sr) = PROG_STATE_IDLE
  /\ prog_nbytes (fst sr) = 0
  /\ prog_pagecounter (fst sr) = to_uchar (P - n mod period P)
  /\ trace (fst sr)
     = trace s ++ paged_calls addr_bits a0 P 0 data
       ++ forced_flush addr_bits a0 P
            (negb (Z.land flags PROG_BLOCKFLAG_LAST =? 0)) data.
Proof.
  intros Hinv Hn1 Hlen.
  assert (Hne : data <> []) by (intros ->; cbn in Hlen; lia).
  destruct (exists_last Hne) as (init & b & ->).
  rewrite length_app in Hlen. cbn [length] in Hlen.
  cbv zeta. unfold write_loop. rewrite fold_left_app. cbn [fold_left].
  destruct (paged_loop_running init 0 s r Hinv ltac:(cbn; lia))
    as (R1 & R2 & R3).
  cbv zeta in R1, R2, R3. unfold write_loop in R1, R2, R3.
  destruct (fold_left (write_iter addr_bits) init (s, r)) as [s1 r1].
  cbn [fst snd plus] in *.
  destruct (paged_iter_final addr_bits a0 P n flags P_positive
              (length init) s1 r1 b R2 ltac:(lia)) as (F1 & F2 & F3 & F4 & F5).
  cbv zeta in F1, F2, F3, F4, F5.
  repeat (split; [assumption|]).
  rewrite F5, R3, paged_calls_app, <- !app_assoc. cbn [paged_calls plus].
  rewrite app_nil_r. do 3 f_equal.
  unfold forced_flush, flush_at. rewrite length_app. cbn [length].
  rewrite (countdown_differs P P_positive n) by lia.
  replace (Z.of_nat (length init + 1)) with n by lia.
  replace (length init + 1 - 1)%nat with (length init) by lia.
  rewrite app_nth2, Nat.sub_diag by lia. reflexivity.
Qed.

End PagedTransfer.

(** ** Chunks *)

Section Chunks.

Variable addr_bits : Z.

(** A run of bytes shorter than what remains leaves the transfer open. *)
Lemma write_loop_running (data : list Z) :
  forall (s : Device) (r : Z),
    prog_nbytes s < 65536 ->
    Z.of_nat (length data) < prog_nbytes s ->
    let sr := write_loop addr_bits (s, r) data in
    snd sr = r
    /\ prog_state (fst sr) = prog_state s
    /\ prog_nbytes (fst sr) = prog_nbytes s - Z.of_nat (length data).
Proof.
  induction data as [|b data IH]; intros s r Hn Hlen;
    cbn [write_loop fold_left length] in *.
  - rewrite Z.sub_0_r. auto.
  - destruct (write_iter_frame addr_bits (s, r) b) as (E1 & _ & E3 & E4 & _).
    cbv zeta in E1, E3, E4. cbn [fst snd] in E1, E3, E4.
    assert (Hn1 : to_uint (prog_nbytes s - 1) = prog_nbytes s - 1).
    { unfold to_uint. rewrite wrap_small; [|change (2 ^ 16) with 65536]; lia. }
    rewrite Hn1 in E1, E3, E4.
    replace (prog_nbytes s - 1 =? 0) with false in E3, E4
      by (symmetry; apply Z.eqb_neq; lia).
    destruct (write_iter addr_bits (s, r) b) as [s1 r1]. cbn [fst snd] in *.
    subst r1.
    destruct (IH s1 r ltac:(lia) ltac:(lia)) as (Q1 & Q2 & Q3).
    unfold write_loop in *. rewrite Q1, Q2, Q3, E1, E3. repeat split. lia.
Qed.

(** Calls with no byte change nothing. *)
Lemma push_nothing (chunks : list (list Z)) :
  forall s, concat chunks = [] -> fst (push_chunks addr_bits s chunks) = s.
Proof.
  induction chunks as [|c chunks IH]; intros s Hc; cbn [push_chunks].
  - reflexivity.
  - cbn [concat] in Hc. apply app_eq_nil in Hc. destruct Hc as [-> Hc].
    assert (E : fst (usbFunctionWrite addr_bits s []) = s)
      by (unfold usbFunctionWrite; destruct (negb (in_write_state s));
          reflexivity).
    destruct (usbFunctionWrite addr_bits s []) as [s1 r1]. cbn [fst] in E.
    subst s1. specialize (IH s Hc).
    destruct (push_chunks addr_bits s chunks) as [s2 rs]. exact IH.
Qed.

(** However a write transfer is cut into chunks, as long as the chunks
    carry no more than what remains, the session ends where one run over all
    the bytes would leave it. *)
Lemma push_chunks_concat (chunks : list (list Z)) :
  forall s,
    in_write_state s = true ->
    prog_nbytes s < 65536 ->
    Z.of_nat (length (concat chunks)) <= prog_nbytes s ->
    fst (push_chunks addr_bits s chunks)
    = fst (write_loop addr_bits (s, 0) (concat chunks)).
Proof.
  induction chunks as [|c chunks IH]; intros s Hst Hn Hlen;
    cbn [push_chunks concat].
  - reflexivity.
  - cbn [concat] in Hlen. rewrite length_app in Hlen.
    unfold usbFunctionWrite. rewrite Hst. cbn [negb].
    unfold write_loop in *. rewrite fold_left_app.
    destruct (Z.eq_dec (Z.of_nat (length c)) (prog_nbytes s)) as [Heq|Hne].
    + assert (Hrest : concat chunks = [])
        by (apply length_zero_iff_nil; lia).
      rewrite Hrest. cbn [fold_left].
      pose proof (push_nothing chunks
                    (fst (fold_left (write_iter addr_bits) c (s, 0))) Hrest)
        as Hp.
      destruct (fold_left (write_iter addr_bits) c (s, 0)) as [s1 r1].
      cbn [fst] in *.
      destruct (push_chunks addr_bits s1 chunks) as [s2 rs]. exact Hp.
    + destruct (write_loop_running c s 0 Hn ltac:(lia)) as (R1 & R2 & R3).
      cbv zeta in R1, R2, R3. unfold write_loop in R1, R2, R3.
      destruct (fold_left (write_iter addr_bits) c (s, 0)) as [s1 r1].
      cbn [fst snd] in *. subst r1.
      assert (Hst1 : in_write_state s1 = true)
        by (unfold in_write_state in *; rewrite R2; exact Hst).
      specialize (IH s1 Hst1 ltac:(lia) ltac:(lia)).
      destruct (push_chunks addr_bits s1 chunks) as [s2 rs]. exact IH.
Qed.

End Chunks.

(** ** Arming a paged write *)

Lemma int_of_bytes_uint (hi lo : Z) :
  0 <= hi < 256 -> 0 <= lo < 256 ->
  to_uint (int_of_bytes hi lo) = lo + 256 * hi.
Proof.
  intros Hh Hl. rewrite int_of_bytes_value by assumption.
  unfold to_uint, wrap. change (2 ^ 16) with 65536.
  destruct (hi <? 128) eqn:Hlt.
  - apply Z.ltb_lt in Hlt. rewrite Z.mod_small; lia.
  - apply Z.ltb_ge in Hlt.
    rewrite <- (Z_mod_plus_full _ 1 65536).
    rewrite Z.mod_small; lia.
Qed.

Lemma legacy_address_range (data : list Z) :
  0 <= legacy_address data < 2 ^ 32.
Proof.
  unfold legacy_address, to_ulong, wrap. apply Z.mod_pos_bound. lia.
Qed.

(** The session a WRITEFLASH command leaves behind. *)
Lemma setup_arms (hdr : Headers) (port : Port) (s : Device) (cmd : list Z)
  (P n : Z) (first last : bool) :
  arms_paged_write cmd P n first last ->
  class_request_served hdr cmd = false ->
  0 <= prog_address s < 2 ^ 32 ->
  let s0 := fst (usbFunctionSetup hdr port s cmd) in
  prog_state s0 = PROG_STATE_WRITEFLASH
  /\ prog_pagesize s0 = P
  /\ prog_nbytes s0 = n
  /\ (Z.land (prog_blockflags s0) PROG_BLOCKFLAG_LAST =? 0) = negb last
  /\ prog_pagecounter s0
     = (if first then to_uchar P else prog_pagecounter s)
  /\ trace s0 = trace s
  /\ 0 <= prog_address s0 < 2 ^ 32
  /\ 0 <= P <= 4095 /\ 0 <= n < 65536.
Proof.
  intros (Hpk & Hk & HP & Hf & Hl & Hn) Hv Ha. cbv zeta.
  apply (hid_request_none hdr s cmd) in Hv.
  rewrite setup_dispatches by exact Hv.
  cbn [fst prog_state prog_pagesize prog_nbytes prog_blockflags
       prog_pagecounter trace prog_address set_usbMsgPtr].
  destruct (dispatch_writeflash hdr port s cmd Hk)
    as (D1 & D2 & D3 & D4 & D5 & D6 & _ & D8).
  cbv zeta in D1, D2, D3, D4, D5, D6, D8.
  pose proof (packet_byte cmd 4 Hpk) as H4.
  pose proof (packet_byte cmd 5 Hpk) as H5.
  pose proof (packet_byte cmd 6 Hpk) as H6.
  pose proof (packet_byte cmd 7 Hpk) as H7.
  destruct (pagesize_decoded _ _ H4 H5) as [Q1 Q2].
  assert (Hfl : to_uchar (Z.land (byte_at cmd 5) 15)
                = Z.land (byte_at cmd 5) 15).
  { rewrite low_nibble by exact H5. apply wrap_small.
    pose proof (Z.mod_pos_bound (byte_at cmd 5) 16 ltac:(lia)).
    change (2 ^ 8) with 256. lia. }
  rewrite Q1, HP in D1. rewrite Hfl in D2, D3.
  rewrite flag_first_bit, Hf, Q1, HP in D3 by exact H5.
  rewrite int_of_bytes_uint, Hn in D4 by assumption.
  rewrite D1, D2, D3, D4, D5, D6, D8.
  rewrite flag_last_bit, Hl by exact H5.
  repeat split; try lia.
  - destruct first; reflexivity.
  - destruct (prog_address_newmode s =? 0);
      [apply legacy_address_range | lia].
  - destruct (prog_address_newmode s =? 0);
      [apply legacy_address_range | lia].
Qed.

(** ** A paged transfer, chunk by chunk *)

Lemma calls_since_app (s0 s' : Device) (calls : list isp_call) :
  trace s' = trace s0 ++ calls -> calls_since s0 s' = calls.
Proof.
  intros H. unfold calls_since. rewrite H, skipn_app, skipn_all, Nat.sub_diag.
  reflexivity.
Qed.

Lemma flushes_policy (addr_bits a0 P : Z) (last : bool) (data : list Z) :
  flushes (paged_calls addr_bits a0 P 0 data
           ++ forced_flush addr_bits a0 P last data)
  = map (flush_at addr_bits a0 data) (flush_offsets P 0 (length data))
    ++ forced_flush addr_bits a0 P last data.
Proof.
  unfold flushes. rewrite filter_app. fold (flushes (paged_calls addr_bits a0 P 0 data)).
  rewrite flushes_paged_calls. f_equal.
  - apply map_ext. intros i. rewrite Nat.sub_0_r. reflexivity.
  - unfold forced_flush. destruct (_ && _); reflexivity.
Qed.

Section PagedChunks.

Variable addr_bits : Z.
Variable s0 : Device.
Variables P n : Z.
Variable last : bool.

Hypothesis state_armed : prog_state s0 = PROG_STATE_WRITEFLASH.
Hypothesis pagesize_armed : prog_pagesize s0 = P.
Hypothesis nbytes_armed : prog_nbytes s0 = n.
Hypothesis countdown_armed : prog_pagecounter s0 = to_uchar P.
Hypothesis last_armed :
  (Z.land (prog_blockflags s0) PROG_BLOCKFLAG_LAST =? 0) = negb last.
Hypothesis address_armed : 0 <= prog_address s0 < 2 ^ addr_bits.
Hypothesis P_positive : 1 <= P.
Hypothesis n_range : 1 <= n < 65536.

Lemma armed_is_paging :
  paging addr_bits (prog_address s0) P n (prog_blockflags s0) 0 s0.
Proof.
  unfold paging. cbn [Z.of_nat].
  pose proof (period_range P) as Hp.
  rewrite Z.mod_0_l, !Z.sub_0_r, Z.add_0_r, wrap_small by lia.
  auto 10.
Qed.

Lemma armed_in_write_state : in_write_state s0 = true.
Proof. unfold in_write_state. rewrite state_armed. reflexivity. Qed.

(** Chunks that stop short of the announced count: the calls of the policy
    for their bytes, and the countdown where the policy has it. *)
Lemma paged_prefix (chunks : list (list Z)) :
  Z.of_nat (length (concat chunks)) < n ->
  let s' := fst (push_chunks addr_bits s0 chunks) in
  calls_since s0 s'
  = paged_calls addr_bits (prog_address s0) P 0 (concat chunks)
  /\ prog_state s' = PROG_STATE_WRITEFLASH
  /\ prog_pagecounter s'
     = to_uchar (P - Z.of_nat (length (concat chunks)) mod period P).
Proof.
  intros Hlen. cbv zeta.
  rewrite push_chunks_concat
    by (try apply armed_in_write_state; rewrite nbytes_armed; lia).
  destruct (paged_loop_running addr_bits (prog_address s0) P n
              (prog_blockflags s0) P_positive ltac:(lia)
              (concat chunks) 0 s0 0 armed_is_paging Hlen)
    as (_ & R2 & R3).
  cbv zeta in R2, R3. cbn [plus] in R2.
  destruct R2 as (Q1 & _ & _ & _ & _ & Q6).
  split; [apply calls_since_app; exact R3|]. split; assumption.
Qed.

(** Chunks that carry the announced count: the calls of the policy, then
    the forced flush; the session is idle. *)
Lemma paged_transfer (chunks : list (list Z)) :
  Z.of_nat (length (concat chunks)) = n ->
  let s' := fst (push_chunks addr_bits s0 chunks) in
  calls_since s0 s'
  = paged_calls addr_bits (prog_address s0) P 0 (concat chunks)
    ++ forced_flush addr_bits (prog_address s0) P last (concat chunks)
  /\ prog_state s' = PROG_STATE_IDLE
  /\ prog_pagecounter s' = to_uchar (P - n mod period P).
Proof.
  intros Hlen. cbv zeta.
  rewrite push_chunks_concat
    by (try apply armed_in_write_state; rewrite nbytes_armed; lia).
  destruct (paged_loop_complete addr_bits (prog_address s0) P n
              (prog_blockflags s0) P_positive ltac:(lia)
              (concat chunks) s0 0 armed_is_paging ltac:(lia) Hlen)
    as (_ & R2 & _ & R4 & R5).
  cbv zeta in R2, R4, R5.
  rewrite last_armed, negb_involutive in R5.
  split; [apply calls_since_app; exact R5|]. split; assumption.
Qed.

End PagedChunks.

(** The second half of the loop body calls nothing but the forced flush,
    and that only under its three conditions, with the address and the
    byte of the turn. *)
Lemma write_iter_forced_flush (addr_bits : Z) (s : Device) (r b : Z) :
  let s1 := write_store s b in
  trace (fst (write_iter addr_bits (s, r) b))
  = trace s1
    ++ (if (to_uint (prog_nbytes s - 1) =? 0)
           && negb (Z.land (prog_blockflags s) PROG_BLOCKFLAG_LAST =? 0)
           && negb (prog_pagecounter s1 =? prog_pagesize s)
        then [CallFlushPage (prog_address s) b] else []).
Proof.
  destruct (write_store_frame s b) as (E1 & E2 & E3 & E4 & E5 & _).
  cbv zeta in *. unfold write_iter, write_account, flush_pending.
  cbn [fst snd]. set (s1 := write_store s b) in *. clearbody s1.
  cbn [prog_nbytes prog_blockflags prog_pagecounter prog_pagesize
       prog_address set_prog_nbytes set_prog_state].
  rewrite E2, E3, E4, E5.
  destruct (to_uint (prog_nbytes s - 1) =? 0); cbn [andb].
  - destruct (negb (Z.land (prog_blockflags s) PROG_BLOCKFLAG_LAST =? 0)
              && negb (prog_pagecounter s1 =? prog_pagesize s));
      cbn; rewrite ?app_nil_r; reflexivity.
  - cbn. rewrite app_nil_r. reflexivity.
Qed.

(** A turn of the loop that flushes a full page reloads the countdown with
    the page size, cut to a byte, before anything else. *)
Lemma store_flush_reloads (t : Device) (b : Z) :
  flushes (calls_since t (write_store t b)) <> [] ->
  prog_pagecounter (write_store t b) = to_uchar (prog_pagesize t).
Proof.
  unfold write_store.
  destruct (prog_state t =? PROG_STATE_WRITEFLASH);
    [destruct (prog_pagesize t =? 0);
     [|cbn [prog_pagecounter emit set_prog_pagecounter];
       destruct (to_uchar (prog_pagecounter t - 1) =? 0)]|];
    (erewrite calls_since_app
       by (cbn [trace emit set_prog_pagecounter]; rewrite <- ?app_assoc;
           reflexivity));
    cbn; intros H; try reflexivity; exfalso; apply H; reflexivity.
Qed.

(** ** Page flushes of a whole transfer *)

(** C1: a WRITEFLASH command announces pages of 64 bytes, 256 bytes and
    PROG_BLOCKFLAG_FIRST; the 256 bytes then arrive in any chunks.
    [ispFlushPage] is called exactly four times, for the bytes at offsets
    63, 127, 191 and 255 (with the address and the value of that byte).  If
    the calls stop right after any of those bytes, however the bytes up to
    it were cut into chunks, [prog_pagecounter] equals [prog_pagesize]; and
    inside the loop, a turn on this page size that flushes a full page has
    already made the two equal when its first half is done. *)
Theorem C1_four_flushes_for_four_pages :
  forall (hdr : Headers) (port : Port) (s : Device) (cmd : list Z)
         (last : bool) (chunks : list (list Z)),
    arms_paged_write cmd 64 256 true last ->
    class_request_served hdr cmd = false ->
    0 <= prog_address s < 2 ^ 32 ->
    length (concat chunks) = 256%nat ->
    let s0 := fst (usbFunctionSetup hdr port s cmd) in
    let bytes := concat chunks in
    let s' := fst (push_chunks 32 s0 chunks) in
    let flush := flush_at 32 (prog_address s0) bytes in
    flushes (calls_since s0 s')
    = [flush 63%nat; flush 127%nat; flush 191%nat; flush 255%nat]
    /\ (forall (k : nat) (pre : list (list Z)),
        In k [63; 127; 191; 255]%nat ->
        concat pre = firstn (S k) bytes ->
        prog_pagecounter (fst (push_chunks 32 s0 pre)) = prog_pagesize s0)
    /\ (forall (t : Device) (b : Z),
         prog_pagesize t = prog_pagesize s0 ->
         flushes (calls_since t (write_store t b)) <> [] ->
         prog_pagecounter (write_store t b) = prog_pagesize t).
Proof.
  intros hdr port s cmd last chunks Harm Hv Ha Hlen. cbv zeta.
  destruct (setup_arms hdr port s cmd 64 256 true last Harm Hv Ha)
    as (A1 & A2 & A3 & A4 & A5 & _ & A7 & _).
  cbv zeta in A1, A2, A3, A4, A5, A7.
  set (s0 := fst (usbFunctionSetup hdr port s cmd)) in *. clearbody s0.
  split; [|split].
  3: { intros t b Ht Hfl. rewrite (store_flush_reloads t b Hfl), Ht, A2.
       reflexivity. }
  - destruct (paged_transfer 32 s0 64 256 last A1 A2 A3 A5 A4 A7
                ltac:(lia) ltac:(lia) chunks ltac:(lia)) as (T1 & _).
    cbv zeta in T1. rewrite T1, flushes_policy.
    unfold forced_flush. rewrite Hlen.
    replace (flush_offsets 64 0 256) with [63; 127; 191; 255]%nat
      by (vm_compute; reflexivity).
    replace ((256 <=? 64) || negb (Z.of_nat 256 mod period 64 =? 0))
      with false by (vm_compute; reflexivity).
    rewrite andb_false_r. reflexivity.
  - intros k pre Hk Hpre. rewrite A2.
    assert (Hl : length (concat pre) = S k).
    { rewrite Hpre, length_firstn, Hlen.
      cbn [In] in Hk. lia. }
    destruct (Nat.eq_dec k 255) as [->|Hne].
    + destruct (paged_transfer 32 s0 64 256 last A1 A2 A3 A5 A4 A7
                  ltac:(lia) ltac:(lia) pre ltac:(lia)) as (_ & _ & T3).
      cbv zeta in T3. rewrite T3. vm_compute. reflexivity.
    + destruct (paged_prefix 32 s0 64 256 A1 A2 A3 A5 A7
                  ltac:(lia) ltac:(lia) pre)
        as (_ & _ & T3).
      { cbn [In] in Hk. lia. }
      cbv zeta in T3. rewrite T3, Hl.
      cbn [In] in Hk.
      destruct Hk as [<-|[<-|[<-|[<-|[]]]]]; vm_compute; reflexivity.
Qed.

Lemma sample_arms (P_lo flags n_lo n_hi : Z) (P n : Z) (first last : bool) :
  is_packet (vendor_packet USBASP_FUNC_WRITEFLASH 0 0 P_lo flags n_lo n_hi) ->
  P_lo + 256 * (flags / 16) = P ->
  Z.testbit flags 0 = first ->
  Z.testbit flags 1 = last ->
  n_lo + 256 * n_hi = n ->
  arms_paged_write
    (vendor_packet USBASP_FUNC_WRITEFLASH 0 0 P_lo flags n_lo n_hi)
    P n first last.
Proof.
  intros. unfold arms_paged_write, byte_at, vendor_packet. cbn [nth].
  auto 10.
Qed.

Lemma sample_is_packet (k a b c d e f : Z) :
  forallb (fun x => (0 <=? x) && (x <? 256)) [k; a; b; c; d; e; f] = true ->
  is_packet (vendor_packet k a b c d e f).
Proof.
  intros H. split; [reflexivity|]. unfold vendor_packet.
  apply Forall_cons; [lia|].
  rewrite forallb_forall in H. apply Forall_forall. intros x Hx.
  specialize (H x Hx). apply andb_true_iff in H. destruct H as [H1 H2].
  apply Z.leb_le in H1. apply Z.ltb_lt in H2. lia.
Qed.

Lemma C1_four_flushes_for_four_pages_witness :
  let s0 := armed (vendor_packet USBASP_FUNC_WRITEFLASH 0 0 64 1 0 1) in
  let s' := fst (push_chunks 32 s0 (repeat [1; 2; 3; 4; 5; 6; 7; 8] 32)) in
  flushes (calls_since s0 s')
  = [CallFlushPage 63 8; CallFlushPage 127 8; CallFlushPage 191 8;
     CallFlushPage 255 8].
Proof.
  pose proof (C1_four_flushes_for_four_pages sample_headers quiet_port
                (power_up sample_headers)
                (vendor_packet USBASP_FUNC_WRITEFLASH 0 0 64 1 0 1) false
                (repeat [1; 2; 3; 4; 5; 6; 7; 8] 32)
                (sample_arms 64 1 0 1 64 256 true false
                   (sample_is_packet USBASP_FUNC_WRITEFLASH 0 0 64 1 0 1 eq_refl)
                   eq_refl eq_refl eq_refl eq_refl)
                eq_refl ltac:(cbn; lia) eq_refl) as H.
  cbv zeta in H. destruct H as (H & _ & _).
  cbv zeta. unfold armed. rewrite H. reflexivity.
Defined.

(** C2: a WRITEFLASH command announces pages of 64 bytes, 200 bytes and both
    block flags; the 200 bytes then arrive in any chunks.  The calls are
    those of the paging policy, with the three flushes of full pages after
    the bytes at offsets 63, 127 and 191, followed by one more
    [ispFlushPage], for the byte at offset 199, the countdown (56 then)
    differing from the page size.  In any turn of the writer's loop the
    second flush is made when, and only when, [prog_nbytes] has just become
    0, PROG_BLOCKFLAG_LAST is set and [prog_pagecounter] differs from
    [prog_pagesize]; it is given the address and the byte of that turn. *)
Theorem C2_forced_flush_of_partial_page :
  forall (hdr : Headers) (port : Port) (s : Device) (cmd : list Z)
         (chunks : list (list Z)),
    arms_paged_write cmd 64 200 true true ->
    class_request_served hdr cmd = false ->
    0 <= prog_address s < 2 ^ 32 ->
    length (concat chunks) = 200%nat ->
    let s0 := fst (usbFunctionSetup hdr port s cmd) in
    let bytes := concat chunks in
    let s' := fst (push_chunks 32 s0 chunks) in
    let flush := flush_at 32 (prog_address s0) bytes in
    calls_since s0 s'
    = paged_calls 32 (prog_address s0) 64 0 bytes ++ [flush 199%nat]
    /\ flushes (paged_calls 32 (prog_address s0) 64 0 bytes)
       = [flush 63%nat; flush 127%nat; flush 191%nat]
    /\ flushes (calls_since s0 s')
       = [flush 63%nat; flush 127%nat; flush 191%nat; flush 199%nat]
    /\ prog_pagecounter s' = 56
    /\ prog_pagesize s' = 64
    /\ forall (addr_bits : Z) (t : Device) (r b : Z),
        trace (fst (write_iter addr_bits (t, r) b))
        = trace (write_store t b)
          ++ (if (to_uint (prog_nbytes t - 1) =? 0)
                 && negb (Z.land (prog_blockflags t) PROG_BLOCKFLAG_LAST =? 0)
                 && negb (prog_pagecounter (write_store t b)
                          =? prog_pagesize t)
              then [CallFlushPage (prog_address t) b] else []).
Proof.
  intros hdr port s cmd chunks Harm Hv Ha Hlen. cbv zeta.
  destruct (setup_arms hdr port s cmd 64 200 true true Harm Hv Ha)
    as (A1 & A2 & A3 & A4 & A5 & _ & A7 & _).
  cbv zeta in A1, A2, A3, A4, A5, A7.
  set (s0 := fst (usbFunctionSetup hdr port s cmd)) in *. clearbody s0.
  destruct (paged_transfer 32 s0 64 200 true A1 A2 A3 A5 A4 A7
              ltac:(lia) ltac:(lia) chunks ltac:(lia)) as (T1 & _ & T3).
  cbv zeta in T1, T3.
  assert (Hforced : forced_flush 32 (prog_address s0) 64 true (concat chunks)
                    = [flush_at 32 (prog_address s0) (concat chunks) 199]).
  { unfold forced_flush. rewrite Hlen. reflexivity. }
  assert (Hnat : flushes (paged_calls 32 (prog_address s0) 64 0
                            (concat chunks))
                 = [flush_at 32 (prog_address s0) (concat chunks) 63;
                    flush_at 32 (prog_address s0) (concat chunks) 127;
                    flush_at 32 (prog_address s0) (concat chunks) 191]).
  { pose proof (flushes_policy 32 (prog_address s0) 64 false (concat chunks))
      as Hp.
    unfold forced_flush in Hp. cbn [andb] in Hp. rewrite !app_nil_r in Hp.
    rewrite Hp, Hlen. reflexivity. }
  rewrite Hforced in T1.
  split; [exact T1|]. split; [exact Hnat|]. split.
  - rewrite T1. unfold flushes in *. rewrite filter_app, Hnat. reflexivity.
  - split; [rewrite T3; reflexivity|]. split.
    + rewrite push_chunks_concat
        by (unfold in_write_state; rewrite ?A1, ?A3; cbn; lia).
      destruct (write_loop_frame 32 (concat chunks) (s0, 0)) as (_ & F2 & _).
      cbn [fst] in F2. rewrite F2. exact A2.
    + intros addr_bits t r b. apply write_iter_forced_flush.
Qed.

Lemma C2_forced_flush_of_partial_page_witness :
  let s0 := armed (vendor_packet USBASP_FUNC_WRITEFLASH 0 0 64 3 200 0) in
  let s' := fst (push_chunks 32 s0 (repeat [1; 2; 3; 4; 5; 6; 7; 8] 25)) in
  flushes (calls_since s0 s')
  = [CallFlushPage 63 8; CallFlushPage 127 8; CallFlushPage 191 8;
     CallFlushPage 199 8]
  /\ prog_pagecounter s' = 56.
Proof.
  pose proof (C2_forced_flush_of_partial_page sample_headers quiet_port
                (power_up sample_headers)
                (vendor_packet USBASP_FUNC_WRITEFLASH 0 0 64 3 200 0)
                (repeat [1; 2; 3; 4; 5; 6; 7; 8] 25)
                (sample_arms 64 3 200 0 64 200 true true
                   (sample_is_packet USBASP_FUNC_WRITEFLASH 0 0 64 3 200 0
                      eq_refl)
                   eq_refl eq_refl eq_refl eq_refl)
                eq_refl ltac:(cbn; lia) eq_refl) as H.
  cbv zeta in H. destruct H as (_ & _ & H3 & H4 & _).
  cbv zeta. unfold armed. rewrite H3, H4. split; reflexivity.
Defined.

(** ** The countdown is a byte *)

(** C10: [prog_pagecounter] is a [uchar] and [prog_pagesize] an
    [unsigned int].  With a page size of 256 or more (WRITEFLASH can
    announce up to 4095), arming with PROG_BLOCKFLAG_FIRST leaves the low
    byte of the page size in the countdown, and so does every reload: full
    pages are flushed every [period] bytes, the low byte of the page size,
    256 when that byte is 0 (so every 256 bytes for a page size of 256).
    The countdown can then never equal the page size: with
    PROG_BLOCKFLAG_LAST set, the transfer ends with one more flush for its
    last byte, whether that byte filled a page or not. *)
Theorem C10_countdown_truncates_large_page_sizes :
  forall (hdr : Headers) (port : Port) (s : Device) (cmd : list Z)
         (P n : Z) (chunks : list (list Z)),
    arms_paged_write cmd P n true true ->
    256 <= P ->
    1 <= n ->
    class_request_served hdr cmd = false ->
    0 <= prog_address s < 2 ^ 32 ->
    Z.of_nat (length (concat chunks)) = n ->
    let s0 := fst (usbFunctionSetup hdr port s cmd) in
    let bytes := concat chunks in
    let s' := fst (push_chunks 32 s0 chunks) in
    let flush := flush_at 32 (prog_address s0) bytes in
    prog_pagesize s0 = P
    /\ prog_pagecounter s0 = P mod 256
    /\ period P = (if P mod 256 =? 0 then 256 else P mod 256)
    /\ flushes (calls_since s0 s')
       = map flush (flush_offsets P 0 (length bytes))
         ++ [flush (length bytes - 1)%nat]
    /\ (forall i,
         In i (flush_offsets P 0 (length bytes))
         <-> (i < length bytes)%nat /\ (Z.of_nat i + 1) mod period P = 0)
    /\ (forall t,
         prog_pagesize t = P ->
         0 <= prog_pagecounter t < 256 ->
         Z.land (prog_blockflags t) PROG_BLOCKFLAG_LAST <> 0 ->
         flush_pending t = true).
Proof.
  intros hdr port s cmd P n chunks Harm HP Hn Hv Ha Hlen. cbv zeta.
  destruct (setup_arms hdr port s cmd P n true true Harm Hv Ha)
    as (A1 & A2 & A3 & A4 & A5 & _ & A7 & A8 & A9).
  cbv zeta in A1, A2, A3, A4, A5, A7.
  set (s0 := fst (usbFunctionSetup hdr port s cmd)) in *. clearbody s0.
  split; [exact A2|]. split; [exact A5|].
  split; [apply period_low_byte; lia|]. split; [|split].
  - destruct (paged_transfer 32 s0 P n true A1 A2 A3 A5 A4 A7
                ltac:(lia) ltac:(lia) chunks Hlen) as (T1 & _).
    cbv zeta in T1. rewrite T1, flushes_policy.
    unfold forced_flush.
    replace (256 <=? P) with true by (symmetry; apply Z.leb_le; exact HP).
    reflexivity.
  - intros i. unfold flush_offsets. rewrite filter_In, in_seq, Z.eqb_eq.
    split; intros [H1 H2]; (split; [lia | exact H2]).
  - intros t Hps Hpc Hl. unfold flush_pending. rewrite Hps.
    apply andb_true_iff. split.
    + apply negb_true_iff. apply Z.eqb_neq. exact Hl.
    + apply negb_true_iff. apply Z.eqb_neq. lia.
Qed.

Lemma C10_countdown_truncates_large_page_sizes_witness :
  let s0 := armed (vendor_packet USBASP_FUNC_WRITEFLASH 0 0 0 19 0 2) in
  let s' := fst (push_chunks 32 s0 (repeat [1; 2; 3; 4; 5; 6; 7; 8] 64)) in
  prog_pagesize s0 = 256
  /\ prog_pagecounter s0 = 0
  /\ flushes (calls_since s0 s')
     = [CallFlushPage 255 8; CallFlushPage 511 8; CallFlushPage 511 8].
Proof.
  pose proof (C10_countdown_truncates_large_page_sizes sample_headers
                quiet_port (power_up sample_headers)
                (vendor_packet USBASP_FUNC_WRITEFLASH 0 0 0 19 0 2)
                256 512 (repeat [1; 2; 3; 4; 5; 6; 7; 8] 64)
                (sample_arms 0 19 0 2 256 512 true true
                   (sample_is_packet USBASP_FUNC_WRITEFLASH 0 0 0 19 0 2
                      eq_refl)
                   eq_refl eq_refl eq_refl eq_refl)
                ltac:(lia) ltac:(lia) eq_refl ltac:(cbn; lia) eq_refl) as H.
  cbv zeta in H. destruct H as (H1 & H2 & _ & H4 & _).
  cbv zeta. unfold armed. rewrite H1, H2, H4. repeat split; reflexivity.
Defined.

(** ** The address moves with the bytes *)

Section AddressContinuity.

Variable port : Port.
Variable addr_bits : Z.

Lemma write_loop_address (data : list Z) :
  forall (s : Device) (r : Z),
    0 <= prog_address s < 2 ^ addr_bits ->
    prog_address (fst (write_loop addr_bits (s, r) data))
    = wrap addr_bits (prog_address s + Z.of_nat (length data)).
Proof.
  induction data as [|b data IH]; intros s r Hs;
    cbn [write_loop fold_left length].
  - rewrite Z.add_0_r, wrap_small by exact Hs. reflexivity.
  - destruct (write_iter_frame addr_bits (s, r) b) as (_ & E2 & _).
    cbv zeta in E2. cbn [fst] in E2.
    destruct (write_iter addr_bits (s, r) b) as [s1 r1]. cbn [fst] in *.
    assert (Hs1 : 0 <= prog_address s1 < 2 ^ addr_bits)
      by (rewrite E2; apply wrap_range; lia).
    specialize (IH s1 r1 Hs1). unfold write_loop in IH.
    rewrite IH, E2, wrap_add_l. f_equal. lia.
Qed.

(** The value [usbFunctionWrite] returns when it takes the chunk in is its
    [retVal], 0 or 1. *)
Lemma write_loop_ret (data : list Z) :
  forall (s : Device) (r : Z),
    snd (write_loop addr_bits (s, r) data) = r
    \/ snd (write_loop addr_bits (s, r) data) = 1.
Proof.
  induction data as [|b data IH]; intros s r; cbn [write_loop fold_left].
  - left. reflexivity.
  - destruct (write_iter_frame addr_bits (s, r) b) as (_ & _ & _ & E4 & _).
    cbv zeta in E4. cbn [fst snd] in E4.
    destruct (write_iter addr_bits (s, r) b) as [s1 r1]. cbn [snd] in *.
    specialize (IH s1 r1). unfold write_loop in IH.
    destruct (to_uint (prog_nbytes s - 1) =? 0); subst r1; tauto.
Qed.

Lemma read_call_address (s : Device) (len : Z) :
  0 <= prog_address s < 2 ^ addr_bits ->
  let '(s', _, out) := usbFunctionRead port addr_bits s len in
  prog_address s'
  = wrap addr_bits (prog_address s + Z.of_nat (length out)).
Proof.
  intros Hs. unfold usbFunctionRead.
  destruct (negb (in_read_state s)).
  - cbn [length]. rewrite Z.add_0_r, wrap_small by exact Hs. reflexivity.
  - pose proof (read_loop_address port addr_bits (Z.to_nat len) s Hs) as E.
    destruct (read_loop_frame port addr_bits (Z.to_nat len) s)
      as (_ & _ & _ & F).
    destruct (read_loop port addr_bits (Z.to_nat len) s) as [s1 out].
    cbn [fst snd] in *. rewrite F.
    destruct (len <? 8); exact E.
Qed.

Lemma write_call_address (s : Device) (data : list Z) :
  0 <= prog_address s < 2 ^ addr_bits ->
  let (s', r) := usbFunctionWrite addr_bits s data in
  prog_address s'
  = wrap addr_bits
      (prog_address s
       + Z.of_nat (if r =? 255 then 0 else length data)).
Proof.
  intros Hs. unfold usbFunctionWrite.
  destruct (negb (in_write_state s)).
  - cbn. rewrite Z.add_0_r, wrap_small by exact Hs. reflexivity.
  - pose proof (write_loop_address data s 0 Hs) as E.
    pose proof (write_loop_ret data s 0) as R.
    destruct (write_loop addr_bits (s, 0) data) as [s1 r1].
    cbn [fst snd] in *.
    replace (r1 =? 255) with false
      by (symmetry; apply Z.eqb_neq; lia).
    exact E.
Qed.

Lemma pull_chunks_address (lens : list Z) :
  forall s,
    0 <= prog_address s < 2 ^ addr_bits ->
    let (s', outs) := pull_chunks port addr_bits s lens in
    prog_address s'
    = wrap addr_bits (prog_address s + Z.of_nat (length (concat outs))).
Proof.
  induction lens as [|len lens IH]; intros s Hs; cbn [pull_chunks].
  - cbn. rewrite Z.add_0_r, wrap_small by exact Hs. reflexivity.
  - pose proof (read_call_address s len Hs) as E.
    destruct (usbFunctionRead port addr_bits s len) as [[s1 r1] out].
    assert (Hs1 : 0 <= prog_address s1 < 2 ^ addr_bits)
      by (rewrite E; apply wrap_range; lia).
    specialize (IH s1 Hs1).
    destruct (pull_chunks port addr_bits s1 lens) as [s2 outs].
    cbn [concat]. rewrite length_app, IH, E, wrap_add_l. f_equal. lia.
Qed.

Lemma push_chunks_address (chunks : list (list Z)) :
  forall s,
    0 <= prog_address s < 2 ^ addr_bits ->
    let (s', rets) := push_chunks addr_bits s chunks in
    prog_address s'
    = wrap addr_bits
        (prog_address s + Z.of_nat (accepted_bytes chunks rets)).
Proof.
  induction chunks as [|c chunks IH]; intros s Hs; cbn [push_chunks].
  - cbn. rewrite Z.add_0_r, wrap_small by exact Hs. reflexivity.
  - pose proof (write_call_address s c Hs) as E.
    destruct (usbFunctionWrite addr_bits s c) as [s1 r1].
    assert (Hs1 : 0 <= prog_address s1 < 2 ^ addr_bits)
      by (rewrite E; apply wrap_range; lia).
    specialize (IH s1 Hs1).
    destruct (push_chunks addr_bits s1 chunks) as [s2 rets].
    cbn [accepted_bytes]. rewrite IH, E, wrap_add_l. f_equal. lia.
Qed.

(** A run of bytes shorter than what is left of a write leaves it in
    progress, a count of 0 included. *)
Lemma write_loop_in_progress (data : list Z) (s : Device) (r : Z) :
  0 <= prog_nbytes s < 65536 ->
  Z.of_nat (length data) < bytes_left s ->
  let sr := write_loop addr_bits (s, r) data in
  snd sr = r
  /\ prog_state (fst sr) = prog_state s
  /\ 0 <= prog_nbytes (fst sr) < 65536
  /\ bytes_left (fst sr) = bytes_left s - Z.of_nat (length data).
Proof.
  intros Hn Hlen. cbv zeta. unfold bytes_left in *.
  destruct data as [|b rest].
  - cbn. repeat split; try lia.
  - destruct (prog_nbytes s =? 0) eqn:Hz.
    + apply Z.eqb_eq in Hz.
      cbn [write_loop fold_left length] in *.
      destruct (write_iter_frame addr_bits (s, r) b)
        as (E1 & _ & E3 & E4 & _).
      cbv zeta in E1, E3, E4. cbn [fst snd] in E1, E3, E4.
      rewrite Hz in E1, E3, E4.
      change (to_uint (0 - 1)) with 65535 in E1, E3, E4.
      cbn [Z.eqb] in E3, E4.
      destruct (write_iter addr_bits (s, r) b) as [s1 r1].
      cbn [fst snd] in *. subst r1.
      destruct (write_loop_running addr_bits rest s1 r ltac:(lia) ltac:(lia))
        as (R1 & R2 & R3).
      cbv zeta in R1, R2, R3. unfold write_loop in *.
      destruct (fold_left (write_iter addr_bits) rest (s1, r)) as [s' ret].
      cbn [fst snd] in *.
      replace (prog_nbytes s' =? 0) with false
        by (symmetry; apply Z.eqb_neq; lia).
      repeat split; try congruence; lia.
    + apply Z.eqb_neq in Hz.
      destruct (write_loop_running addr_bits (b :: rest) s r
                  ltac:(lia) Hlen) as (R1 & R2 & R3).
      cbv zeta in R1, R2, R3.
      destruct (write_loop addr_bits (s, r) (b :: rest)) as [s' ret].
      cbn [fst snd] in *.
      replace (prog_nbytes s' =? 0) with false
        by (symmetry; apply Z.eqb_neq; lia).
      repeat split; try assumption; lia.
Qed.

(** A call in a write state takes the chunk in and moves the address by
    its length. *)
Lemma write_call_accepts (s : Device) (data : list Z) :
  in_write_state s = true ->
  0 <= prog_address s < 2 ^ addr_bits ->
  let (s', ret) := usbFunctionWrite addr_bits s data in
  ret <> 255
  /\ prog_address s'
     = wrap addr_bits (prog_address s + Z.of_nat (length data)).
Proof.
  intros Hst Hs. unfold usbFunctionWrite. rewrite Hst. cbn [negb].
  pose proof (write_loop_address data s 0 Hs) as E.
  pose proof (write_loop_ret data s 0) as R.
  destruct (write_loop addr_bits (s, 0) data) as [s1 r1].
  cbn [fst snd] in *. split; [lia | exact E].
Qed.

(** A call in a read state serves [len] bytes and moves the address by
    [len]. *)
Lemma read_call_serves (s : Device) (len : Z) :
  in_read_state s = true ->
  0 <= prog_address s < 2 ^ addr_bits ->
  0 <= len ->
  let '(s', ret, out) := usbFunctionRead port addr_bits s len in
  ret = len
  /\ Z.of_nat (length out) = len
  /\ prog_address s' = wrap addr_bits (prog_address s + len)
  /\ prog_state s'
     = (if len <? 8 then PROG_STATE_IDLE else prog_state s).
Proof.
  intros Hst Hs Hlen. unfold usbFunctionRead. rewrite Hst. cbn [negb].
  pose proof (read_loop_address port addr_bits (Z.to_nat len) s Hs) as E.
  destruct (read_loop_frame port addr_bits (Z.to_nat len) s)
    as (F1 & _ & _ & F4).
  destruct (read_loop port addr_bits (Z.to_nat len) s) as [s1 out].
  cbn [fst snd] in *. rewrite Z2Nat.id in E by exact Hlen.
  rewrite F4, Z2Nat.id by exact Hlen.
  destruct (len <? 8); cbn [prog_address prog_state set_prog_state]; auto.
Qed.

Lemma accepted_nothing (chunks : list (list Z)) :
  forall rets, concat chunks = [] -> accepted_bytes chunks rets = 0%nat.
Proof.
  induction chunks as [|c chunks IH]; intros rets Hc; [reflexivity|].
  cbn [concat] in Hc. apply app_eq_nil in Hc. destruct Hc as [-> Hc].
  destruct rets as [|r rets]; [reflexivity|].
  cbn [accepted_bytes length]. rewrite (IH rets Hc).
  destruct (r =? 255); reflexivity.
Qed.

(** Chunks that carry no more than what is left of a write in progress are
    all taken in, however the bytes are cut. *)
Lemma push_chunks_accepted (chunks : list (list Z)) :
  forall s,
    in_write_state s = true ->
    0 <= prog_address s < 2 ^ addr_bits ->
    0 <= prog_nbytes s < 65536 ->
    Z.of_nat (length (concat chunks)) <= bytes_left s ->
    accepted_bytes chunks (snd (push_chunks addr_bits s chunks))
    = length (concat chunks).
Proof.
  induction chunks as [|c chunks IH]; intros s Hst Ha Hn Hlen;
    cbn [push_chunks concat].
  - reflexivity.
  - cbn [concat] in Hlen. rewrite length_app in *.
    pose proof (write_call_accepts s c Hst Ha) as Hacc.
    pose proof (write_loop_in_progress c s 0 Hn) as Hrun.
    unfold usbFunctionWrite in *. rewrite Hst in *. cbn [negb] in *.
    destruct (write_loop addr_bits (s, 0) c) as [s1 r1].
    cbn [fst snd] in Hrun. destruct Hacc as [Hr Hadr].
    destruct (Z.eq_dec (Z.of_nat (length c)) (bytes_left s)) as [Heq|Hne].
    + assert (Hrest : concat chunks = [])
        by (apply length_zero_iff_nil; lia).
      destruct (push_chunks addr_bits s1 chunks) as [s2 rs].
      cbn [snd accepted_bytes].
      rewrite (accepted_nothing chunks rs Hrest), Hrest.
      replace (r1 =? 255) with false by (symmetry; apply Z.eqb_neq; exact Hr).
      reflexivity.
    + destruct (Hrun ltac:(lia)) as (_ & R2 & R3 & R4).
      assert (Hst1 : in_write_state s1 = true)
        by (unfold in_write_state in *; rewrite R2; exact Hst).
      assert (Ha1 : 0 <= prog_address s1 < 2 ^ addr_bits)
        by (rewrite Hadr; apply wrap_range; lia).
      specialize (IH s1 Hst1 Ha1 R3 ltac:(lia)).
      destruct (push_chunks addr_bits s1 chunks) as [s2 rs].
      cbn [snd accepted_bytes] in *. rewrite IH.
      replace (r1 =? 255) with false by (symmetry; apply Z.eqb_neq; exact Hr).
      reflexivity.
Qed.

(** Chunks of a read in progress, all of them but the last of 8 bytes or
    more, are all served. *)
Lemma pull_chunks_served (fulls : list Z) :
  forall (s : Device) (last : Z),
    in_read_state s = true ->
    0 <= prog_address s < 2 ^ addr_bits ->
    Forall (fun len => 8 <= len) fulls ->
    0 <= last ->
    Z.of_nat
      (length (concat (snd (pull_chunks port addr_bits s (fulls ++ [last])))))
    = fold_right Z.add 0 (fulls ++ [last]).
Proof.
  induction fulls as [|len fulls IH]; intros s last Hst Ha Hfull Hlast;
    cbn [app fold_right pull_chunks].
  - pose proof (read_call_serves s last Hst Ha Hlast) as H.
    destruct (usbFunctionRead port addr_bits s last) as [[s1 r1] out].
    destruct H as (_ & H & _). cbn [snd concat].
    rewrite app_nil_r. lia.
  - inversion Hfull as [|? ? Hlen Hrest]; subst.
    pose proof (read_call_serves s len Hst Ha ltac:(lia)) as H.
    destruct (usbFunctionRead port addr_bits s len) as [[s1 r1] out].
    destruct H as (_ & H2 & H3 & H4).
    replace (len <? 8) with false in H4 by (symmetry; apply Z.ltb_ge; lia).
    assert (Hst1 : in_read_state s1 = true)
      by (unfold in_read_state in *; rewrite H4; exact Hst).
    assert (Ha1 : 0 <= prog_address s1 < 2 ^ addr_bits)
      by (rewrite H3; apply wrap_range; lia).
    specialize (IH s1 last Hst1 Ha1 Hrest Hlast).
    destruct (pull_chunks port addr_bits s1 (fulls ++ [last])) as [s2 outs].
    cbn [snd concat] in *. rewrite length_app. lia.
Qed.

End AddressContinuity.

(** C5: in a session whose address is a value of its type, a turn of the
    reader's loop and a turn of the writer's loop, whatever the state and
    the page size (flash unpaged, flash paged, EEPROM), move [prog_address]
    one up; after any run of calls of [usbFunctionRead], or of
    [usbFunctionWrite], it is the address before the run plus the number of
    bytes served, or taken in, by those calls, in the arithmetic of its
    type, and exactly that sum when the sum fits the type.  While a
    transfer is in progress the bytes are indeed served and taken in: a call
    of the reader in a read state yields the [len] bytes asked for and moves
    the address by [len]; a call of the writer in a write state takes the
    whole chunk in and moves the address by its length; and over a transfer
    cut into chunks in any way (for a read, every chunk but the last of 8
    bytes or more; for a write, no more bytes than are left of it) the
    address ends at the address before the transfer plus the number of bytes
    asked for, or pushed. *)
Theorem C5_address_continuity :
  forall (port : Port) (addr_bits : Z) (s : Device),
    0 <= prog_address s < 2 ^ addr_bits ->
    prog_address (fst (read_iter port addr_bits s))
    = wrap addr_bits (prog_address s + 1)
    /\ (forall r b,
         prog_address (fst (write_iter addr_bits (s, r) b))
         = wrap addr_bits (prog_address s + 1))
    /\ (forall lens,
         let (s', outs) := pull_chunks port addr_bits s lens in
         let N := Z.of_nat (length (concat outs)) in
         prog_address s' = wrap addr_bits (prog_address s + N)
         /\ (prog_address s + N < 2 ^ addr_bits ->
             prog_address s' = prog_address s + N))
    /\ (forall chunks,
         let (s', rets) := push_chunks addr_bits s chunks in
         let N := Z.of_nat (accepted_bytes chunks rets) in
         prog_address s' = wrap addr_bits (prog_address s + N)
         /\ (prog_address s + N < 2 ^ addr_bits ->
             prog_address s' = prog_address s + N))
    /\ (in_read_state s = true ->
        forall len,
          0 <= len ->
          let '(s', ret, out) := usbFunctionRead port addr_bits s len in
          ret = len
          /\ Z.of_nat (length out) = len
          /\ prog_address s' = wrap addr_bits (prog_address s + len))
    /\ (in_write_state s = true ->
        forall data,
          let (s', ret) := usbFunctionWrite addr_bits s data in
          ret <> 255
          /\ prog_address s'
             = wrap addr_bits (prog_address s + Z.of_nat (length data)))
    /\ (in_read_state s = true ->
        forall fulls last,
          Forall (fun len => 8 <= len) fulls ->
          0 <= last ->
          let N := fold_right Z.add 0 (fulls ++ [last]) in
          let s' := fst (pull_chunks port addr_bits s (fulls ++ [last])) in
          prog_address s' = wrap addr_bits (prog_address s + N)
          /\ (prog_address s + N < 2 ^ addr_bits ->
              prog_address s' = prog_address s + N))
    /\ (in_write_state s = true ->
        0 <= prog_nbytes s < 65536 ->
        forall chunks,
          let N := Z.of_nat (length (concat chunks)) in
          N <= bytes_left s ->
          let s' := fst (push_chunks addr_bits s chunks) in
          prog_address s' = wrap addr_bits (prog_address s + N)
          /\ (prog_address s + N < 2 ^ addr_bits ->
              prog_address s' = prog_address s + N)).
Proof.
  intros port addr_bits s Hs.
  split; [|split; [|split; [|split; [|split; [|split; [|split]]]]]].
  - apply read_iter_frame.
  - intros r b.
    destruct (write_iter_frame addr_bits (s, r) b) as (_ & E & _).
    exact E.
  - intros lens. pose proof (pull_chunks_address port addr_bits lens s Hs) as E.
    destruct (pull_chunks port addr_bits s lens) as [s' outs]. cbv zeta.
    split; [exact E|]. intros Hfit. rewrite E. apply wrap_small. lia.
  - intros chunks. pose proof (push_chunks_address addr_bits chunks s Hs) as E.
    destruct (push_chunks addr_bits s chunks) as [s' rets]. cbv zeta.
    split; [exact E|]. intros Hfit. rewrite E. apply wrap_small. lia.
  - intros Hst len Hlen.
    pose proof (read_call_serves port addr_bits s len Hst Hs Hlen) as H.
    destruct (usbFunctionRead port addr_bits s len) as [[s' ret] out].
    tauto.
  - intros Hst data. apply write_call_accepts; assumption.
  - intros Hst fulls last Hfull Hlast. cbv zeta.
    pose proof (pull_chunks_address port addr_bits (fulls ++ [last]) s Hs)
      as E.
    pose proof (pull_chunks_served port addr_bits fulls s last Hst Hs Hfull
                  Hlast) as N.
    destruct (pull_chunks port addr_bits s (fulls ++ [last])) as [s' outs].
    cbn [fst snd] in *. rewrite N in E.
    split; [exact E|]. intros Hfit. rewrite E. apply wrap_small.
    assert (0 <= fold_right Z.add 0 (fulls ++ [last])) by lia. lia.
  - intros Hst Hn chunks. cbv zeta. intros Hlen.
    pose proof (push_chunks_address addr_bits chunks s Hs) as E.
    pose proof (push_chunks_accepted addr_bits chunks s Hst Hs Hn Hlen) as N.
    destruct (push_chunks addr_bits s chunks) as [s' rets].
    cbn [fst snd] in *. rewrite N in E.
    split; [exact E|]. intros Hfit. rewrite E. apply wrap_small. lia.
Qed.

Lemma C5_address_continuity_witness :
  let r0 := armed (vendor_packet USBASP_FUNC_READFLASH 0 1 0 0 19 0) in
  let w0 := armed (vendor_packet USBASP_FUNC_WRITEFLASH 0 1 32 1 5 0) in
  prog_address r0 = 256
  /\ prog_address (fst (pull_chunks quiet_port 32 r0 [8; 8; 3])) = 256 + 19
  /\ prog_address w0 = 256
  /\ prog_address (fst (push_chunks 32 w0 [[1; 2; 3]; [4; 5]])) = 256 + 5.
Proof.
  cbv zeta.
  destruct (C5_address_continuity quiet_port 32
              (armed (vendor_packet USBASP_FUNC_READFLASH 0 1 0 0 19 0))
              ltac:(vm_compute; split; congruence))
    as (_ & _ & _ & _ & _ & _ & Hr & _).
  destruct (C5_address_continuity quiet_port 32
              (armed (vendor_packet USBASP_FUNC_WRITEFLASH 0 1 32 1 5 0))
              ltac:(vm_compute; split; congruence))
    as (_ & _ & _ & _ & _ & _ & _ & Hw).
  specialize (Hr eq_refl [8; 8] 3
                ltac:(repeat (apply Forall_cons; [lia|]); apply Forall_nil)
                ltac:(lia)).
  specialize (Hw eq_refl ltac:(vm_compute; split; congruence)
                [[1; 2; 3]; [4; 5]]).
  cbv zeta in Hr, Hw.
  specialize (Hw ltac:(vm_compute; congruence)).
  destruct Hr as [_ Hr]. destruct Hw as [_ Hw].
  split; [reflexivity|]. split; [|split; [reflexivity|]].
  - apply Hr. vm_compute. reflexivity.
  - apply Hw. vm_compute. reflexivity.
Defined.

(** ** A chunk longer than what remains *)

Section Overrun.

Variable addr_bits : Z.

(** A turn of the loop in the state PROG_STATE_WRITEFLASH calls
    [ispWriteFlash] and [ispFlushPage] only. *)
Lemma flash_iter_calls (s : Device) (r b : Z) :
  prog_state s = PROG_STATE_WRITEFLASH ->
  exists calls,
    trace (fst (write_iter addr_bits (s, r) b)) = trace s ++ calls
    /\ existsb is_eeprom_write calls = false.
Proof.
  intros Hst. rewrite write_iter_forced_flush. cbv zeta.
  unfold write_store. rewrite Hst, Z.eqb_refl.
  destruct (prog_pagesize s =? 0);
    [|cbn [prog_pagecounter emit set_prog_pagecounter];
      destruct (to_uchar (prog_pagecounter s - 1) =? 0)];
    cbn [trace emit set_prog_pagecounter]; rewrite <- ?app_assoc;
    eexists; (split; [reflexivity|]);
    destruct (_ && _ && _); reflexivity.
Qed.

(** As long as the chunk carries no more than what remains of a flash
    write, no byte goes to the EEPROM. *)
Lemma flash_loop_calls (data : list Z) :
  forall (s : Device) (r : Z),
    prog_state s = PROG_STATE_WRITEFLASH ->
    prog_nbytes s < 65536 ->
    Z.of_nat (length data) <= prog_nbytes s ->
    exists calls,
      trace (fst (write_loop addr_bits (s, r) data)) = trace s ++ calls
      /\ existsb is_eeprom_write calls = false.
Proof.
  induction data as [|b data IH]; intros s r Hst Hn Hlen;
    cbn [write_loop fold_left length] in *.
  - exists []. rewrite app_nil_r. split; reflexivity.
  - destruct (flash_iter_calls s r b Hst) as (c1 & T1 & X1).
    destruct (write_iter_frame addr_bits (s, r) b) as (E1 & _ & E3 & _).
    cbv zeta in E1, E3. cbn [fst] in E1, E3.
    assert (Hn1 : to_uint (prog_nbytes s - 1) = prog_nbytes s - 1).
    { unfold to_uint. rewrite wrap_small; [|change (2 ^ 16) with 65536]; lia. }
    rewrite Hn1 in E1, E3.
    destruct (write_iter addr_bits (s, r) b) as [s1 r1]. cbn [fst] in *.
    destruct data as [|b' data].
    + cbn [fold_left fst]. exists c1. split; assumption.
    + cbn [length] in Hlen.
      replace (prog_nbytes s - 1 =? 0) with false in E3
        by (symmetry; apply Z.eqb_neq; lia).
      destruct (IH s1 r1 ltac:(congruence) ltac:(lia)
                  ltac:(cbn [length]; lia)) as (c2 & T2 & X2).
      exists (c1 ++ c2). unfold write_loop in T2.
      rewrite T2, T1, <- app_assoc, existsb_app, X1, X2.
      split; reflexivity.
Qed.

(** Once the session is idle, the loop goes on: every further byte of the
    chunk is written to the EEPROM, and [prog_nbytes] counts down from 0
    through 65535. *)
Lemma idle_loop (a : Z) (data : list Z) :
  forall (j : nat) (s : Device) (r : Z),
    prog_state s = PROG_STATE_IDLE ->
    prog_nbytes s = to_uint (- Z.of_nat j) ->
    prog_address s = wrap addr_bits (a + Z.of_nat j) ->
    Z.of_nat (j + length data) < 65536 ->
    let sr := write_loop addr_bits (s, r) data in
    snd sr = r
    /\ prog_state (fst sr) = PROG_STATE_IDLE
    /\ prog_nbytes (fst sr) = to_uint (- Z.of_nat (j + length data))
    /\ trace (fst sr) = trace s ++ eeprom_calls addr_bits a j data.
Proof.
  induction data as [|b data IH]; intros j s r Hst Hn Ha Hlen;
    cbn [write_loop fold_left length eeprom_calls] in *.
  - rewrite Nat.add_0_r, app_nil_r. auto.
  - destruct (write_iter_frame addr_bits (s, r) b)
      as (E1 & E2 & E3 & E4 & _).
    cbv zeta in E1, E2, E3, E4. cbn [fst snd] in E1, E2, E3, E4.
    pose proof (write_iter_forced_flush addr_bits s r b) as T.
    cbv zeta in T.
    assert (Hn1 : to_uint (prog_nbytes s - 1) = to_uint (- Z.of_nat (S j))).
    { rewrite Hn. unfold to_uint, wrap. rewrite Zminus_mod_idemp_l.
      f_equal. lia. }
    assert (Hnz : to_uint (- Z.of_nat (S j)) <> 0).
    { unfold to_uint, wrap. change (2 ^ 16) with 65536.
      rewrite <- (Z_mod_plus_full _ 1 65536).
      rewrite Z.mod_small; lia. }
    rewrite Hn1 in E1, E3, E4, T.
    replace (to_uint (- Z.of_nat (S j)) =? 0) with false in E3, E4, T
      by (symmetry; apply Z.eqb_neq; exact Hnz).
    cbn [andb] in T. rewrite app_nil_r in T.
    assert (Ts : trace (write_store s b)
                 = trace s ++ [CallWriteEEPROM (prog_address s) b]).
    { unfold write_store. rewrite Hst. reflexivity. }
    rewrite Ts, Ha in T.
    destruct (write_iter addr_bits (s, r) b) as [s1 r1]. cbn [fst snd] in *.
    subst r1.
    destruct (IH (S j) s1 r ltac:(congruence) E1
                ltac:(rewrite E2, Ha, wrap_add_l; f_equal; lia)
                ltac:(lia)) as (Q1 & Q2 & Q3 & Q4).
    unfold write_loop in *.
    replace (j + S (length data))%nat with (S j + length data)%nat by lia.
    rewrite Q4, T, <- app_assoc. auto.
Qed.

End Overrun.

(** A run of exactly the bytes that remain closes the transfer. *)
Lemma write_loop_complete (addr_bits : Z) (data : list Z) (s : Device)
  (r : Z) :
  1 <= prog_nbytes s < 65536 ->
  Z.of_nat (length data) = prog_nbytes s ->
  let sr := write_loop addr_bits (s, r) data in
  snd sr = 1
  /\ prog_state (fst sr) = PROG_STATE_IDLE
  /\ prog_nbytes (fst sr) = 0.
Proof.
  intros Hn Hlen.
  assert (Hne : data <> []) by (intros ->; cbn in Hlen; lia).
  destruct (exists_last Hne) as (init & b & ->).
  rewrite length_app in Hlen. cbn [length] in Hlen.
  cbv zeta. unfold write_loop. rewrite fold_left_app. cbn [fold_left].
  destruct (write_loop_running addr_bits init s r ltac:(lia) ltac:(lia))
    as (_ & R2 & R3).
  cbv zeta in R2, R3. unfold write_loop in R2, R3.
  destruct (fold_left (write_iter addr_bits) init (s, r)) as [s1 r1].
  cbn [fst snd] in *.
  destruct (write_iter_frame addr_bits (s1, r1) b) as (E1 & _ & E3 & E4 & _).
  cbv zeta in E1, E3, E4. cbn [fst snd] in E1, E3, E4.
  replace (prog_nbytes s1 - 1) with 0 in E1, E3, E4 by lia.
  change (to_uint 0) with 0 in E1, E3, E4. cbn in E3, E4. auto.
Qed.

(** A flash write whose count is 0 at the entry of the call: the first
    byte takes the count to 65535, and the chunk (at most 255 bytes) cannot
    take it down to 0. *)
Lemma flash_loop_wraps (addr_bits : Z) (data : list Z) (s : Device)
  (r : Z) :
  prog_state s = PROG_STATE_WRITEFLASH ->
  prog_nbytes s = 0 ->
  data <> [] ->
  (length data <= 255)%nat ->
  let sr := write_loop addr_bits (s, r) data in
  snd sr = r
  /\ prog_state (fst sr) = PROG_STATE_WRITEFLASH
  /\ prog_nbytes (fst sr) = 65536 - Z.of_nat (length data)
  /\ exists calls,
       trace (fst sr) = trace s ++ calls
       /\ existsb is_eeprom_write calls = false.
Proof.
  intros Hst Hn Hne Hlen. cbv zeta.
  destruct data as [|b rest]; [congruence|].
  cbn [write_loop fold_left length] in *.
  destruct (flash_iter_calls addr_bits s r b Hst) as (c1 & T1 & X1).
  destruct (write_iter_frame addr_bits (s, r) b) as (E1 & _ & E3 & E4 & _).
  cbv zeta in E1, E3, E4. cbn [fst snd] in E1, E3, E4.
  rewrite Hn in E1, E3, E4.
  change (to_uint (0 - 1)) with 65535 in E1, E3, E4.
  cbn [Z.eqb] in E3, E4.
  destruct (write_iter addr_bits (s, r) b) as [s1 r1].
  cbn [fst snd] in *. subst r1.
  destruct (write_loop_running addr_bits rest s1 r ltac:(lia) ltac:(lia))
    as (R1 & R2 & R3).
  destruct (flash_loop_calls addr_bits rest s1 r ltac:(congruence)
              ltac:(lia) ltac:(lia)) as (c2 & T2 & X2).
  cbv zeta in R1, R2, R3. unfold write_loop in *.
  destruct (fold_left (write_iter addr_bits) rest (s1, r)) as [s' ret].
  cbn [fst snd] in *.
  split; [exact R1|]. split; [congruence|]. split; [lia|].
  exists (c1 ++ c2). rewrite T2, T1, <- app_assoc, existsb_app, X1, X2.
  split; reflexivity.
Qed.

(** C9, as amended: [usbFunctionWrite] keeps a flash write within the
    announced count only when the chunk is no longer than what remains:
    then no byte is written to the EEPROM.  With a chunk longer than a
    count that is not 0, the bytes that remained are handled as in a call
    that ends there (the session goes idle, [prog_nbytes] is 0), and the
    loop goes on: every further byte of the chunk is passed to
    [ispWriteEEPROM] at the next address, [prog_nbytes] wraps round below 0
    as a 16-bit value, and the call returns 1.  With a count of 0 at the
    entry of the call, every chunk with a byte in it is longer than the
    count, and none of this happens: the count is decremented to 65535
    before it is tested, no byte goes to the EEPROM, the session stays in
    PROG_STATE_WRITEFLASH, [prog_nbytes] ends at 65536 less the length of
    the chunk and the call returns 0. *)
Theorem C9_overlong_chunk_spills_into_eeprom :
  forall (addr_bits : Z) (s : Device),
    prog_state s = PROG_STATE_WRITEFLASH ->
    0 <= prog_nbytes s < 65536 ->
    0 <= prog_address s < 2 ^ addr_bits ->
    (forall data,
        Z.of_nat (length data) <= prog_nbytes s ->
        existsb is_eeprom_write
          (calls_since s (fst (usbFunctionWrite addr_bits s data))) = false)
    /\ (1 <= prog_nbytes s ->
        forall pre post,
          Z.of_nat (length pre) = prog_nbytes s ->
          post <> [] ->
          (length (pre ++ post) <= 255)%nat ->
          let mid := fst (usbFunctionWrite addr_bits s pre) in
          let (s', ret) := usbFunctionWrite addr_bits s (pre ++ post) in
          prog_state mid = PROG_STATE_IDLE
          /\ prog_nbytes mid = 0
          /\ calls_since mid s'
             = eeprom_calls addr_bits (prog_address s + prog_nbytes s) 0 post
          /\ prog_nbytes s' = 65536 - Z.of_nat (length post)
          /\ prog_state s' = PROG_STATE_IDLE
          /\ ret = 1)
    /\ (prog_nbytes s = 0 ->
        forall data,
          data <> [] ->
          (length data <= 255)%nat ->
          let (s', ret) := usbFunctionWrite addr_bits s data in
          existsb is_eeprom_write (calls_since s s') = false
          /\ prog_nbytes s' = 65536 - Z.of_nat (length data)
          /\ prog_state s' = PROG_STATE_WRITEFLASH
          /\ ret = 0).
Proof.
  intros addr_bits s Hst Hn Ha.
  assert (Hw : in_write_state s = true)
    by (unfold in_write_state; rewrite Hst; reflexivity).
  split; [|split].
  - intros data Hlen. unfold usbFunctionWrite. rewrite Hw. cbn [negb].
    destruct (flash_loop_calls addr_bits data s 0 Hst ltac:(lia) Hlen)
      as (calls & T & X).
    rewrite (calls_since_app _ _ _ T). exact X.
  - intros Hn1 pre post Hpre Hpost Hlen. cbv zeta.
    unfold usbFunctionWrite. rewrite Hw. cbn [negb].
    destruct (write_loop_complete addr_bits pre s 0 ltac:(lia) Hpre)
      as (C1 & C2 & C3).
    cbv zeta in C1, C2, C3.
    pose proof (write_loop_address addr_bits pre s 0 Ha) as C4.
    unfold write_loop in *. rewrite fold_left_app.
    destruct (fold_left (write_iter addr_bits) pre (s, 0)) as [mid r1].
    cbn [fst snd] in *. subst r1.
    rewrite length_app in Hlen.
    destruct (idle_loop addr_bits (prog_address s + prog_nbytes s) post
                0 mid 1 C2 ltac:(rewrite C3; reflexivity)
                ltac:(rewrite C4, Hpre; f_equal; cbn; lia)
                ltac:(cbn [plus]; lia)) as (Q1 & Q2 & Q3 & Q4).
    cbv zeta in Q1, Q2, Q3, Q4. cbn [plus] in Q3. unfold write_loop in *.
    destruct (fold_left (write_iter addr_bits) post (mid, 1)) as [s' ret].
    cbn [fst snd] in *.
    assert (Hpl : (1 <= length post)%nat)
      by (destruct post; [congruence | cbn; lia]).
    repeat split; try assumption.
    + apply calls_since_app. exact Q4.
    + rewrite Q3. unfold to_uint, wrap. change (2 ^ 16) with 65536.
      rewrite <- (Z_mod_plus_full _ 1 65536).
      rewrite Z.mod_small; lia.
  - intros Hz data Hne Hlen.
    unfold usbFunctionWrite. rewrite Hw. cbn [negb].
    destruct (flash_loop_wraps addr_bits data s 0 Hst Hz Hne Hlen)
      as (W1 & W2 & W3 & calls & T & X).
    cbv zeta in W1, W2, W3, T.
    destruct (write_loop addr_bits (s, 0) data) as [s' ret].
    cbn [fst snd] in *.
    rewrite (calls_since_app _ _ _ T). auto.
Qed.

(** C9 fails as stated: a WRITEFLASH command announcing 0 bytes is served
    and a chunk of 8 bytes is pushed.  The chunk is longer than the count,
    yet the session stays in PROG_STATE_WRITEFLASH, the 8 bytes go to the
    flash, none to the EEPROM, and the call returns 0. *)
Lemma C9_zero_count_counterexample :
  ~ overrun_spills 32
      (armed (vendor_packet USBASP_FUNC_WRITEFLASH 0 0 0 0 0 0))
      [1; 2; 3; 4; 5; 6; 7; 8].
Proof.
  unfold overrun_spills. vm_compute. intros H.
  destruct (H eq_refl eq_refl) as [H1 _]. discriminate H1.
Qed.

Lemma C9_overlong_chunk_spills_into_eeprom_witness :
  let s0 := armed (vendor_packet USBASP_FUNC_WRITEFLASH 0 0 0 1 4 0) in
  let z0 := armed (vendor_packet USBASP_FUNC_WRITEFLASH 0 0 0 1 0 0) in
  let (s', ret) := usbFunctionWrite 32 s0 [1; 2; 3; 4; 5; 6; 7; 8] in
  let (z', zret) := usbFunctionWrite 32 z0 [1; 2; 3; 4; 5; 6; 7; 8] in
  calls_since s0 s'
  = [CallWriteFlash 0 1 1; CallWriteFlash 1 2 1; CallWriteFlash 2 3 1;
     CallWriteFlash 3 4 1; CallWriteEEPROM 4 5; CallWriteEEPROM 5 6;
     CallWriteEEPROM 6 7; CallWriteEEPROM 7 8]
  /\ prog_nbytes s' = 65532
  /\ prog_state s' = PROG_STATE_IDLE
  /\ ret = 1
  /\ prog_nbytes z' = 65528
  /\ prog_state z' = PROG_STATE_WRITEFLASH
  /\ zret = 0.
Proof.
  cbv zeta.
  destruct (C9_overlong_chunk_spills_into_eeprom 32
              (armed (vendor_packet USBASP_FUNC_WRITEFLASH 0 0 0 1 4 0))
              eq_refl ltac:(vm_compute; split; congruence)
              ltac:(vm_compute; split; congruence)) as (_ & H & _).
  destruct (C9_overlong_chunk_spills_into_eeprom 32
              (armed (vendor_packet USBASP_FUNC_WRITEFLASH 0 0 0 1 0 0))
              eq_refl ltac:(vm_compute; split; congruence)
              ltac:(vm_compute; split; congruence)) as (_ & _ & Z).
  specialize (H ltac:(vm_compute; congruence)
                [1; 2; 3; 4] [5; 6; 7; 8] eq_refl ltac:(discriminate)
                ltac:(cbn; lia)).
  specialize (Z eq_refl [1; 2; 3; 4; 5; 6; 7; 8] ltac:(discriminate)
                ltac:(cbn; lia)).
  cbv zeta in H. cbn [app] in H.
  destruct (usbFunctionWrite 32
              (armed (vendor_packet USBASP_FUNC_WRITEFLASH 0 0 0 1 4 0))
              [1; 2; 3; 4; 5; 6; 7; 8]) as [s' ret] eqn:E.
  destruct (usbFunctionWrite 32
              (armed (vendor_packet USBASP_FUNC_WRITEFLASH 0 0 0 1 0 0))
              [1; 2; 3; 4; 5; 6; 7; 8]) as [z' zret].
  destruct H as (_ & _ & _ & H4 & H5 & H6).
  destruct Z as (_ & Z2 & Z3 & Z4).
  split; [|split; [exact H4 | split; [exact H5 | split; [exact H6|]]]].
  - vm_compute in E. injection E as <- _. reflexivity.
  - split; [exact Z2 | split; [exact Z3 | exact Z4]].
Defined.


Lemma C3_writer_counts_down_reader_ends_on_short_chunk_witness :
  let w := armed (vendor_packet USBASP_FUNC_WRITEEEPROM 0 0 0 0 2 0) in
  let r := armed (vendor_packet USBASP_FUNC_READEEPROM 0 0 0 0 16 0) in
  prog_nbytes (fst (write_iter 32 (w, 0) 7)) = 1
  /\ prog_nbytes (fst (fst (usbFunctionRead quiet_port 32 r 8))) = 16.
Proof.
  cbv zeta.
  destruct (C3_writer_counts_down_reader_ends_on_short_chunk quiet_port 32
              (armed (vendor_packet USBASP_FUNC_WRITEEEPROM 0 0 0 0 2 0)))
    as (Hw & _).
  destruct (C3_writer_counts_down_reader_ends_on_short_chunk quiet_port 32
              (armed (vendor_packet USBASP_FUNC_READEEPROM 0 0 0 0 16 0)))
    as (_ & Hr).
  destruct (Hw eq_refl 0 7) as [Hw1 _].
  destruct (Hr eq_refl 8) as [Hr1 _].
  cbv zeta in Hw1, Hr1. rewrite Hw1, Hr1. split; reflexivity.
Defined.

(** ** Plain write transfers: unpaged flash and EEPROM *)

Lemma write_iter_pagecounter (addr_bits : Z) (s : Device) (r b : Z) :
  prog_pagecounter (fst (write_iter addr_bits (s, r) b))
  = prog_pagecounter (write_store s b).
Proof.
  unfold write_iter, write_account. cbn [fst snd].
  set (s1 := write_store s b). clearbody s1.
  cbn [prog_nbytes set_prog_nbytes].
  destruct (to_uint (prog_nbytes s1 - 1) =? 0); [|reflexivity].
  destruct (flush_pending _); reflexivity.
Qed.

Lemma eeprom_calls_byte_calls (addr_bits a : Z) (data : list Z) :
  forall j,
    eeprom_calls addr_bits a j data
    = byte_calls CallWriteEEPROM addr_bits a j data.
Proof.
  induction data as [|b data IH]; intros j; cbn; [|rewrite IH]; reflexivity.
Qed.

Lemma byte_calls_app (call : Z -> Z -> isp_call) (addr_bits a : Z)
  (l1 l2 : list Z) :
  forall j,
    byte_calls call addr_bits a j (l1 ++ l2)
    = byte_calls call addr_bits a j l1
      ++ byte_calls call addr_bits a (j + length l1) l2.
Proof.
  induction l1 as [|b l1 IH]; intros j; cbn [byte_calls app length].
  - rewrite Nat.add_0_r. reflexivity.
  - rewrite IH.
    replace (S j + length l1)%nat with (j + S (length l1))%nat by lia.
    reflexivity.
Qed.

Section PlainWriter.

Variable addr_bits : Z.
Variable call : Z -> Z -> isp_call.
Variables st ps a : Z.

(** In the state [st] with the page size [ps], the first half of the loop
    body makes one call, [call], and nothing else. *)
Hypothesis plain_store :
  forall t b,
    prog_state t = st -> prog_pagesize t = ps ->
    write_store t b = emit (call (prog_address t) b) t.

Lemma plain_loop_running (data : list Z) :
  forall (j : nat) (s : Device) (r : Z),
    prog_state s = st ->
    prog_pagesize s = ps ->
    prog_nbytes s < 65536 ->
    Z.of_nat (length data) < prog_nbytes s ->
    prog_address s = wrap addr_bits (a + Z.of_nat j) ->
    let sr := write_loop addr_bits (s, r) data in
    snd sr = r
    /\ prog_state (fst sr) = st
    /\ prog_pagesize (fst sr) = ps
    /\ prog_nbytes (fst sr) = prog_nbytes s - Z.of_nat (length data)
    /\ prog_address (fst sr)
       = wrap addr_bits (a + Z.of_nat (j + length data))
    /\ prog_blockflags (fst sr) = prog_blockflags s
    /\ prog_pagecounter (fst sr) = prog_pagecounter s
    /\ trace (fst sr) = trace s ++ byte_calls call addr_bits a j data.
Proof.
  induction data as [|b data IH]; intros j s r Hst Hps Hn Hlen Ha;
    cbn [write_loop fold_left length byte_calls] in *.
  - rewrite Nat.add_0_r, Z.sub_0_r, app_nil_r. auto 10.
  - destruct (write_iter_frame addr_bits (s, r) b)
      as (E1 & E2 & E3 & E4 & E5 & E6 & _).
    cbv zeta in E1, E2, E3, E4, E5, E6. cbn [fst snd] in E1, E2, E3, E4, E5, E6.
    pose proof (write_iter_forced_flush addr_bits s r b) as T.
    pose proof (write_iter_pagecounter addr_bits s r b) as C.
    cbv zeta in T.
    assert (Hn1 : to_uint (prog_nbytes s - 1) = prog_nbytes s - 1).
    { unfold to_uint. rewrite wrap_small; [|change (2 ^ 16) with 65536]; lia. }
    rewrite Hn1 in E1, E3, E4, T.
    replace (prog_nbytes s - 1 =? 0) with false in E3, E4, T
      by (symmetry; apply Z.eqb_neq; lia).
    cbn [andb] in T. rewrite app_nil_r in T.
    rewrite (plain_store s b Hst Hps) in T, C. cbn [trace emit] in T.
    cbn [prog_pagecounter emit] in C. rewrite Ha in T.
    destruct (write_iter addr_bits (s, r) b) as [s1 r1]. cbn [fst snd] in *.
    subst r1.
    destruct (IH (S j) s1 r ltac:(congruence) ltac:(congruence) ltac:(lia)
                ltac:(lia)
                ltac:(rewrite E2, Ha, wrap_add_l; f_equal; lia))
      as (Q1 & Q2 & Q3 & Q4 & Q5 & Q6 & Q7 & Q8).
    unfold write_loop in *.
    replace (j + S (length data))%nat with (S j + length data)%nat by lia.
    rewrite Q4, Q6, Q7, Q8, T, E1, E6, C, <- app_assoc.
    repeat split; try assumption. lia.
Qed.

(** The whole transfer in one run: one call per byte, then the forced
    flush if PROG_BLOCKFLAG_LAST is set and the countdown is not the page
    size. *)
Lemma plain_loop_complete (data : list Z) (s : Device) (r : Z) :
  prog_state s = st ->
  prog_pagesize s = ps ->
  1 <= prog_nbytes s < 65536 ->
  Z.of_nat (length data) = prog_nbytes s ->
  prog_address s = wrap addr_bits a ->
  let sr := write_loop addr_bits (s, r) data in
  snd sr = 1
  /\ prog_state (fst sr) = PROG_STATE_IDLE
  /\ trace (fst sr)
     = trace s ++ byte_calls call addr_bits a 0 data
       ++ (if negb (Z.land (prog_blockflags s) PROG_BLOCKFLAG_LAST =? 0)
              && negb (prog_pagecounter s =? ps)
           then [flush_at addr_bits a data (length data - 1)] else []).
Proof.
  intros Hst Hps Hn Hlen Ha.
  assert (Hne : data <> []) by (intros ->; cbn in Hlen; lia).
  destruct (exists_last Hne) as (init & b & ->).
  rewrite length_app in *. cbn [length] in *.
  cbv zeta. unfold write_loop. rewrite fold_left_app. cbn [fold_left].
  destruct (plain_loop_running init 0 s r Hst Hps ltac:(lia) ltac:(lia)
              ltac:(rewrite Ha; f_equal; cbn; lia))
    as (_ & R2 & R3 & R4 & R5 & R6 & R7 & R8).
  cbv zeta in R2, R3, R4, R5, R6, R7, R8. unfold write_loop in *.
  destruct (fold_left (write_iter addr_bits) init (s, r)) as [s1 r1].
  cbn [fst snd plus] in *.
  destruct (write_iter_frame addr_bits (s1, r1) b) as (E1 & _ & E3 & E4 & _).
  cbv zeta in E1, E3, E4. cbn [fst snd] in E1, E3, E4.
  pose proof (write_iter_forced_flush addr_bits s1 r1 b) as T.
  cbv zeta in T.
  replace (prog_nbytes s1 - 1) with 0 in E1, E3, E4, T by lia.
  change (to_uint 0 =? 0) with true in E3, E4, T. cbv iota in E3, E4.
  cbn [andb] in T.
  rewrite (plain_store s1 b R2 R3) in T.
  cbn [trace emit prog_pagecounter] in T.
  rewrite R3, R5, R6, R7, R8 in T.
  split; [exact E4|]. split; [exact E3|].
  rewrite T, byte_calls_app, <- !app_assoc. cbn [byte_calls plus app].
  unfold flush_at.
  replace (length init + 1 - 1)%nat with (length init) by lia.
  rewrite app_nth2, Nat.sub_diag by lia. reflexivity.
Qed.

End PlainWriter.

Lemma unpaged_store (t : Device) (b : Z) :
  prog_state t = PROG_STATE_WRITEFLASH ->
  prog_pagesize t = 0 ->
  write_store t b = emit (write_flash_now (prog_address t) b) t.
Proof.
  intros Hst Hps. unfold write_store. rewrite Hst, Hps. reflexivity.
Qed.

Lemma eeprom_store (ps : Z) (t : Device) (b : Z) :
  prog_state t = PROG_STATE_WRITEEEPROM ->
  prog_pagesize t = ps ->
  write_store t b = emit (CallWriteEEPROM (prog_address t) b) t.
Proof.
  intros Hst _. unfold write_store. rewrite Hst. reflexivity.
Qed.

(** X1: a WRITEFLASH command with page size 0 makes the writer commit
    every byte on its own.  When it announces [n] bytes, 1 or more, then
    whatever the chunks, the calls of the transfer are one [ispWriteFlash]
    in poll mode per byte, at consecutive addresses, and the session is idle
    at the end.  No page is flushed, except in one case: the command sets
    PROG_BLOCKFLAG_LAST without PROG_BLOCKFLAG_FIRST while the countdown left
    by earlier commands is not 0; then the last byte is followed by an
    [ispFlushPage].  When it announces 0 bytes, calls that bring no byte
    make no call of [isp.c] and change nothing: the session stays in
    PROG_STATE_WRITEFLASH, with no forced flush. *)
Theorem X1_unpaged_flash_write :
  forall (hdr : Headers) (port : Port) (s : Device) (cmd : list Z)
         (n : Z) (first last : bool) (chunks : list (list Z)),
    arms_paged_write cmd 0 n first last ->
    class_request_served hdr cmd = false ->
    0 <= prog_address s < 2 ^ 32 ->
    Z.of_nat (length (concat chunks)) = n ->
    let s0 := fst (usbFunctionSetup hdr port s cmd) in
    let bytes := concat chunks in
    let s' := fst (push_chunks 32 s0 chunks) in
    (1 <= n ->
     calls_since s0 s'
     = byte_calls write_flash_now 32 (prog_address s0) 0 bytes
       ++ (if last && negb first && negb (prog_pagecounter s =? 0)
           then [flush_at 32 (prog_address s0) bytes (length bytes - 1)]
           else [])
     /\ prog_state s' = PROG_STATE_IDLE)
    /\ (n = 0 ->
        s' = s0
        /\ calls_since s0 s' = []
        /\ prog_state s' = PROG_STATE_WRITEFLASH).
Proof.
  intros hdr port s cmd n first last chunks Harm Hv Ha Hlen. cbv zeta.
  destruct (setup_arms hdr port s cmd 0 n first last Harm Hv Ha)
    as (A1 & A2 & A3 & A4 & A5 & _ & A7 & _ & A9).
  cbv zeta in A1, A2, A3, A4, A5, A7.
  set (s0 := fst (usbFunctionSetup hdr port s cmd)) in *. clearbody s0.
  split.
  - intros Hn.
    rewrite push_chunks_concat
      by (unfold in_write_state; rewrite ?A1, ?A3; cbn; lia).
    destruct (plain_loop_complete 32 write_flash_now PROG_STATE_WRITEFLASH 0
                (prog_address s0) unpaged_store (concat chunks) s0 0 A1 A2
                ltac:(lia) ltac:(lia)
                ltac:(symmetry; apply wrap_small; exact A7))
      as (_ & R2 & R3).
    cbv zeta in R2, R3. split; [|exact R2].
    apply calls_since_app. rewrite R3, A4, A5. do 2 f_equal.
    destruct first, last; cbn; try reflexivity.
  - intros Hz.
    assert (Hnil : concat chunks = [])
      by (apply length_zero_iff_nil; lia).
    rewrite (push_nothing 32 chunks s0 Hnil).
    split; [reflexivity|]. split; [|exact A1].
    apply calls_since_app. rewrite app_nil_r. reflexivity.
Qed.

Lemma X1_unpaged_flash_write_witness :
  let s0 := armed (vendor_packet USBASP_FUNC_WRITEFLASH 0 0 0 3 5 0) in
  let s' := fst (push_chunks 32 s0 [[10; 11]; []; [12; 13; 14]]) in
  calls_since s0 s'
  = [CallWriteFlash 0 10 1; CallWriteFlash 1 11 1; CallWriteFlash 2 12 1;
     CallWriteFlash 3 13 1; CallWriteFlash 4 14 1].
Proof.
  pose proof (X1_unpaged_flash_write sample_headers quiet_port
                (power_up sample_headers)
                (vendor_packet USBASP_FUNC_WRITEFLASH 0 0 0 3 5 0)
                5 true true [[10; 11]; []; [12; 13; 14]]
                (sample_arms 0 3 5 0 0 5 true true
                   (sample_is_packet USBASP_FUNC_WRITEFLASH 0 0 0 3 5 0
                      eq_refl)
                   eq_refl eq_refl eq_refl eq_refl)
                eq_refl ltac:(cbn; lia) eq_refl) as H.
  cbv zeta in H. destruct H as [H _].
  destruct (H ltac:(lia)) as [H1 _].
  cbv zeta. unfold armed. rewrite H1. reflexivity.
Defined.

(** The session a WRITEEEPROM command leaves behind. *)
Lemma setup_arms_eeprom (hdr : Headers) (port : Port) (s : Device)
  (cmd : list Z) :
  is_packet cmd ->
  byte_at cmd 1 = USBASP_FUNC_WRITEEEPROM ->
  class_request_served hdr cmd = false ->
  0 <= prog_address s < 2 ^ 32 ->
  let s0 := fst (usbFunctionSetup hdr port s cmd) in
  prog_state s0 = PROG_STATE_WRITEEEPROM
  /\ prog_pagesize s0 = 0
  /\ prog_blockflags s0 = 0
  /\ prog_nbytes s0 = byte_at cmd 6 + 256 * byte_at cmd 7
  /\ prog_pagecounter s0 = prog_pagecounter s
  /\ trace s0 = trace s
  /\ 0 <= prog_address s0 < 2 ^ 32.
Proof.
  intros Hpk Hk Hv Ha. cbv zeta.
  apply (hid_request_none hdr s cmd) in Hv.
  rewrite setup_dispatches by exact Hv.
  pose proof (packet_byte cmd 6 Hpk) as H6.
  pose proof (packet_byte cmd 7 Hpk) as H7.
  unfold dispatch. rewrite Hk.
  cbn [Z.eqb USBASP_FUNC_WRITEEEPROM USBASP_FUNC_CONNECT
       USBASP_FUNC_DISCONNECT USBASP_FUNC_TRANSMIT USBASP_FUNC_READFLASH
       USBASP_FUNC_READEEPROM USBASP_FUNC_ENABLEPROG USBASP_FUNC_WRITEFLASH
       Pos.eqb fst].
  destruct (load_legacy_address_frame cmd s) as (L1 & _ & L3 & _ & _ & L6).
  cbv zeta in L1, L3, L6.
  unfold load_nbytes.
  cbn [prog_state prog_pagesize prog_blockflags prog_nbytes prog_pagecounter
       trace prog_address set_usbMsgPtr set_prog_state set_prog_nbytes
       set_prog_blockflags set_prog_pagesize].
  rewrite L1, L3, L6, int_of_bytes_uint by assumption.
  repeat split; try reflexivity;
    destruct (prog_address_newmode s =? 0);
    try apply legacy_address_range; lia.
Qed.

(** X2: after a WRITEEEPROM command announcing [n] bytes, whatever the
    chunks the [n] bytes arrive in, the calls of the transfer are one
    [ispWriteEEPROM] per byte, at consecutive addresses from the address of
    the command, and nothing else: the flash is neither written nor
    flushed.  The session is idle afterwards. *)
Theorem X2_eeprom_write_transfer :
  forall (hdr : Headers) (port : Port) (s : Device) (cmd : list Z)
         (chunks : list (list Z)),
    is_packet cmd ->
    byte_at cmd 1 = USBASP_FUNC_WRITEEEPROM ->
    class_request_served hdr cmd = false ->
    0 <= prog_address s < 2 ^ 32 ->
    1 <= byte_at cmd 6 + 256 * byte_at cmd 7 ->
    Z.of_nat (length (concat chunks)) = byte_at cmd 6 + 256 * byte_at cmd 7 ->
    let s0 := fst (usbFunctionSetup hdr port s cmd) in
    let s' := fst (push_chunks 32 s0 chunks) in
    calls_since s0 s'
    = byte_calls CallWriteEEPROM 32 (prog_address s0) 0 (concat chunks)
    /\ prog_state s' = PROG_STATE_IDLE.
Proof.
  intros hdr port s cmd chunks Hpk Hk Hv Ha Hn Hlen. cbv zeta.
  destruct (setup_arms_eeprom hdr port s cmd Hpk Hk Hv Ha)
    as (A1 & A2 & A3 & A4 & _ & _ & A7).
  cbv zeta in A1, A2, A3, A4, A7.
  pose proof (packet_byte cmd 6 Hpk) as H6.
  pose proof (packet_byte cmd 7 Hpk) as H7.
  set (s0 := fst (usbFunctionSetup hdr port s cmd)) in *. clearbody s0.
  rewrite push_chunks_concat
    by (unfold in_write_state; rewrite ?A1, ?A4; try reflexivity; lia).
  destruct (plain_loop_complete 32 CallWriteEEPROM PROG_STATE_WRITEEEPROM 0
              (prog_address s0) (eeprom_store 0) (concat chunks) s0 0 A1 A2
              ltac:(lia) ltac:(lia)
              ltac:(symmetry; apply wrap_small; exact A7))
    as (_ & R2 & R3).
  cbv zeta in R2, R3. split; [|exact R2].
  apply calls_since_app. rewrite R3, A3. cbn. rewrite app_nil_r. reflexivity.
Qed.

Lemma X2_eeprom_write_transfer_witness :
  let s0 := armed (vendor_packet USBASP_FUNC_WRITEEEPROM 32 0 0 0 3 0) in
  let s' := fst (push_chunks 32 s0 [[7]; [8; 9]]) in
  calls_since s0 s'
  = [CallWriteEEPROM 32 7; CallWriteEEPROM 33 8; CallWriteEEPROM 34 9]
  /\ prog_state s' = PROG_STATE_IDLE.
Proof.
  pose proof (X2_eeprom_write_transfer sample_headers quiet_port
                (power_up sample_headers)
                (vendor_packet USBASP_FUNC_WRITEEEPROM 32 0 0 0 3 0)
                [[7]; [8; 9]]
                (sample_is_packet USBASP_FUNC_WRITEEEPROM 32 0 0 0 3 0
                   eq_refl)
                eq_refl eq_refl ltac:(cbn; lia) ltac:(cbn; lia) eq_refl) as H.
  cbv zeta in H. destruct H as [H1 H2].
  cbv zeta. unfold armed. rewrite H1, H2. split; reflexivity.
Defined.

(** ** What the writer returns *)

(** X3: while a write is in progress with [n] bytes to come, every call of
    [usbFunctionWrite] that leaves some of them to come returns 0, the call
    that takes the last of them returns 1 and leaves the session idle, and
    any call after that returns 0xff and changes nothing. *)
Theorem X3_writer_return_values :
  forall (addr_bits : Z) (s : Device) (init : list (list Z))
         (c more : list Z),
    in_write_state s = true ->
    1 <= prog_nbytes s < 65536 ->
    c <> [] ->
    Z.of_nat (length (concat init) + length c) = prog_nbytes s ->
    let (s', rets) := push_chunks addr_bits s (init ++ [c]) in
    rets = repeat 0 (length init) ++ [1]
    /\ prog_state s' = PROG_STATE_IDLE
    /\ usbFunctionWrite addr_bits s' more = (s', 255).
Proof.
  intros addr_bits s init c more. revert s.
  induction init as [|c0 init IH]; intros s Hst Hn Hc Hlen;
    cbn [app push_chunks concat length repeat] in *.
  - unfold usbFunctionWrite at 1. rewrite Hst. cbn [negb].
    destruct (write_loop_complete addr_bits c s 0 Hn ltac:(lia))
      as (R1 & R2 & _).
    cbv zeta in R1, R2.
    destruct (write_loop addr_bits (s, 0) c) as [s1 r1]. cbn [fst snd] in *.
    subst r1. split; [reflexivity|]. split; [exact R2|].
    unfold usbFunctionWrite, in_write_state. rewrite R2. reflexivity.
  - rewrite length_app in Hlen.
    assert (Hc0 : Z.of_nat (length c0) < prog_nbytes s).
    { destruct c; [congruence | cbn [length] in Hlen; lia]. }
    unfold usbFunctionWrite at 1. rewrite Hst. cbn [negb].
    destruct (write_loop_running addr_bits c0 s 0 ltac:(lia) Hc0)
      as (R1 & R2 & R3).
    cbv zeta in R1, R2, R3.
    destruct (write_loop addr_bits (s, 0) c0) as [s1 r1]. cbn [fst snd] in *.
    subst r1.
    specialize (IH s1
      ltac:(unfold in_write_state in *; rewrite R2; exact Hst)
      ltac:(lia) Hc ltac:(lia)).
    destruct (push_chunks addr_bits s1 (init ++ [c])) as [s2 rets].
    destruct IH as (I1 & I2 & I3). rewrite I1. auto.
Qed.

Lemma X3_writer_return_values_witness :
  let s0 := armed (vendor_packet USBASP_FUNC_WRITEEEPROM 0 0 0 0 5 0) in
  let (s', rets) := push_chunks 32 s0 [[1; 2]; [3; 4]; [5]] in
  rets = [0; 0; 1] /\ usbFunctionWrite 32 s' [6] = (s', 255).
Proof.
  cbv zeta.
  pose proof (X3_writer_return_values 32
                (armed (vendor_packet USBASP_FUNC_WRITEEEPROM 0 0 0 0 5 0))
                [[1; 2]; [3; 4]] [5] [6] eq_refl
                ltac:(vm_compute; split; congruence)
                ltac:(discriminate) eq_refl) as H.
  cbn [app] in H.
  destruct (push_chunks 32
              (armed (vendor_packet USBASP_FUNC_WRITEEEPROM 0 0 0 0 5 0))
              [[1; 2]; [3; 4]; [5]]) as [s' rets].
  destruct H as (H1 & _ & H3). split; [exact H1 | exact H3].
Defined.

(** ** Read transfers *)

Section ReadTransfer.

Variable port : Port.
Variable addr_bits : Z.
Variable a : Z.

Lemma read_calls_app (call : Z -> isp_call) (j n m : nat) :
  read_calls call addr_bits a j (n + m)
  = read_calls call addr_bits a j n
    ++ read_calls call addr_bits a (j + n) m.
Proof. unfold read_calls. rewrite seq_app, map_app. reflexivity. Qed.

Lemma read_iter_trace (s : Device) :
  trace (fst (read_iter port addr_bits s))
  = trace s ++ [read_call_of (prog_state s) (prog_address s)].
Proof.
  unfold read_iter, read_call_of.
  destruct (prog_state s =? PROG_STATE_READFLASH); reflexivity.
Qed.

(** The loop of the reader calls the read primitive of its state once per
    byte, at consecutive addresses. *)
Lemma read_loop_trace (n : nat) :
  forall (j : nat) (s : Device),
    prog_address s = wrap addr_bits (a + Z.of_nat j) ->
    let s' := fst (read_loop port addr_bits n s) in
    trace s'
    = trace s ++ read_calls (read_call_of (prog_state s)) addr_bits a j n
    /\ prog_address s' = wrap addr_bits (a + Z.of_nat (j + n)).
Proof.
  induction n as [|n IH]; intros j s Ha; cbn [read_loop].
  - cbn. rewrite app_nil_r, Nat.add_0_r. auto.
  - pose proof (read_iter_trace s) as T.
    destruct (read_iter_frame port addr_bits s) as (E1 & _ & _ & E4).
    cbv zeta in E1, E4.
    destruct (read_iter port addr_bits s) as [s1 b]. cbn [fst] in *.
    destruct (IH (S j) s1
                ltac:(rewrite E4, Ha, wrap_add_l; f_equal; lia)) as [Q1 Q2].
    cbv zeta in Q1, Q2.
    destruct (read_loop port addr_bits n s1) as [s2 bs]. cbn [fst] in *.
    rewrite Q1, Q2, T, E1, Ha, <- app_assoc. split.
    + reflexivity.
    + f_equal. lia.
Qed.

Lemma read_loop_app (n m : nat) :
  forall s,
    read_loop port addr_bits (n + m) s
    = (fst (read_loop port addr_bits m
              (fst (read_loop port addr_bits n s))),
       snd (read_loop port addr_bits n s)
       ++ snd (read_loop port addr_bits m
                 (fst (read_loop port addr_bits n s)))).
Proof.
  induction n as [|n IH]; intros s; cbn [read_loop plus].
  - cbn. destruct (read_loop port addr_bits m s). reflexivity.
  - destruct (read_iter port addr_bits s) as [s1 b].
    rewrite IH.
    destruct (read_loop port addr_bits n s1) as [s2 bs]. cbn [fst snd].
    destruct (read_loop port addr_bits m s2) as [s3 cs]. reflexivity.
Qed.

(** Full chunks and then a short one, pulled one after the other. *)
Lemma pull_full_then_short (short : Z) (fulls : list Z) :
  forall (j : nat) (s : Device),
    in_read_state s = true ->
    prog_address s = wrap addr_bits (a + Z.of_nat j) ->
    Forall (fun len => 8 <= len) fulls ->
    0 <= short < 8 ->
    let n := Z.to_nat (fold_right Z.add 0 (fulls ++ [short])) in
    let (s', outs) := pull_chunks port addr_bits s (fulls ++ [short]) in
    prog_state s' = PROG_STATE_IDLE
    /\ trace s'
       = trace s ++ read_calls (read_call_of (prog_state s)) addr_bits a j n
    /\ prog_address s' = wrap addr_bits (a + Z.of_nat (j + n))
    /\ concat outs = snd (read_loop port addr_bits n s)
    /\ map (fun o => Z.of_nat (length o)) outs = fulls ++ [short].
Proof.
  induction fulls as [|len fulls IH]; intros j s Hst Ha Hfull Hshort;
    cbn [app fold_right pull_chunks].
  - rewrite Z.add_0_r. unfold usbFunctionRead. rewrite Hst. cbn [negb].
    destruct (read_loop_trace (Z.to_nat short) j s Ha) as [T1 T2].
    destruct (read_loop_frame port addr_bits (Z.to_nat short) s)
      as (_ & _ & _ & F4).
    cbv zeta in T1, T2.
    destruct (read_loop port addr_bits (Z.to_nat short) s) as [s1 out].
    cbn [fst snd] in *.
    replace (short <? 8) with true by (symmetry; apply Z.ltb_lt; lia).
    cbn [concat map prog_state trace prog_address set_prog_state].
    rewrite app_nil_r, F4, Z2Nat.id by lia. auto.
  - inversion Hfull as [|? ? Hlen Hrest]; subst.
    assert (Hsum : 0 <= fold_right Z.add 0 (fulls ++ [short])).
    { clear - Hrest Hshort. induction Hrest; cbn; lia. }
    unfold usbFunctionRead at 1. rewrite Hst. cbn [negb].
    destruct (read_loop_trace (Z.to_nat len) j s Ha) as [T1 T2].
    destruct (read_loop_frame port addr_bits (Z.to_nat len) s)
      as (F1 & _ & _ & F4).
    cbv zeta in T1, T2.
    rewrite Z2Nat.inj_add by lia. rewrite read_loop_app, read_calls_app.
    destruct (read_loop port addr_bits (Z.to_nat len) s) as [s1 out].
    cbn [fst snd] in *.
    replace (len <? 8) with false by (symmetry; apply Z.ltb_ge; lia).
    specialize (IH (j + Z.to_nat len)%nat s1
      ltac:(unfold in_read_state in *; rewrite F1; exact Hst)
      T2 Hrest Hshort).
    cbv zeta in IH.
    destruct (pull_chunks port addr_bits s1 (fulls ++ [short]))
      as [s2 outs].
    destruct IH as (I1 & I2 & I3 & I4 & I5).
    cbn [concat map]. rewrite I2, I3, I4, I5, T1, F1, F4, <- app_assoc.
    rewrite Z2Nat.id, Nat.add_assoc by lia. auto.
Qed.

End ReadTransfer.

(** X4: a read in progress pulled as any number of full chunks (8 bytes or
    more each) and then one short chunk: every call yields as many bytes as
    it is asked, the calls are one read per byte, of the flash in READFLASH
    and of the EEPROM in READEEPROM, at consecutive addresses from the
    address the session held, the bytes are those one uninterrupted pass of
    the loop would yield, and the session is idle at the end, so that a
    further call is refused with 0xff. *)
Theorem X4_read_transfer :
  forall (port : Port) (addr_bits : Z) (s : Device) (fulls : list Z)
         (short : Z),
    in_read_state s = true ->
    0 <= prog_address s < 2 ^ addr_bits ->
    Forall (fun len => 8 <= len) fulls ->
    0 <= short < 8 ->
    let n := Z.to_nat (fold_right Z.add 0 (fulls ++ [short])) in
    let (s', outs) := pull_chunks port addr_bits s (fulls ++ [short]) in
    map (fun o => Z.of_nat (length o)) outs = fulls ++ [short]
    /\ calls_since s s'
       = read_calls (read_call_of (prog_state s)) addr_bits
           (prog_address s) 0 n
    /\ concat outs = snd (read_loop port addr_bits n s)
    /\ prog_state s' = PROG_STATE_IDLE
    /\ forall len, usbFunctionRead port addr_bits s' len = (s', 255, []).
Proof.
  intros port addr_bits s fulls short Hst Ha Hfull Hshort. cbv zeta.
  pose proof (pull_full_then_short port addr_bits (prog_address s) short
                fulls 0 s Hst
                ltac:(cbn; rewrite Z.add_0_r, wrap_small by exact Ha;
                      reflexivity) Hfull Hshort) as H.
  cbv zeta in H.
  destruct (pull_chunks port addr_bits s (fulls ++ [short])) as [s' outs].
  destruct H as (H1 & H2 & _ & H4 & H5).
  split; [exact H5|]. split; [apply calls_since_app; exact H2|].
  split; [exact H4|]. split; [exact H1|].
  intros len. unfold usbFunctionRead, in_read_state. rewrite H1. reflexivity.
Qed.

Lemma X4_read_transfer_witness :
  let s0 := armed (vendor_packet USBASP_FUNC_READEEPROM 16 0 0 0 10 0) in
  let (s', outs) := pull_chunks quiet_port 32 s0 [8; 2] in
  calls_since s0 s'
  = [CallReadEEPROM 16; CallReadEEPROM 17; CallReadEEPROM 18;
     CallReadEEPROM 19; CallReadEEPROM 20; CallReadEEPROM 21;
     CallReadEEPROM 22; CallReadEEPROM 23; CallReadEEPROM 24;
     CallReadEEPROM 25]
  /\ prog_state s' = PROG_STATE_IDLE.
Proof.
  cbv zeta.
  pose proof (X4_read_transfer quiet_port 32
                (armed (vendor_packet USBASP_FUNC_READEEPROM 16 0 0 0 10 0))
                [8] 2 eq_refl ltac:(vm_compute; split; congruence)
                ltac:(repeat constructor; lia) ltac:(lia)) as H.
  cbv zeta in H. cbn [app] in H.
  destruct (pull_chunks quiet_port 32
              (armed (vendor_packet USBASP_FUNC_READEEPROM 16 0 0 0 10 0))
              [8; 2]) as [s' outs].
  destruct H as (_ & H2 & _ & H4 & _).
  split; [rewrite H2; reflexivity | exact H4].
Defined.

(** ** What the chunk callbacks leave alone *)

Section ChunkFrame.

Variable port : Port.
Variable addr_bits : Z.

Lemma read_iter_beyond (s : Device) :
  let s' := fst (read_iter port addr_bits s) in
  beyond_chunks s' = beyond_chunks s
  /\ prog_pagecounter s' = prog_pagecounter s.
Proof.
  unfold read_iter.
  destruct (prog_state s =? PROG_STATE_READFLASH); split; reflexivity.
Qed.

Lemma read_loop_beyond (n : nat) :
  forall s,
    let s' := fst (read_loop port addr_bits n s) in
    beyond_chunks s' = beyond_chunks s
    /\ prog_pagecounter s' = prog_pagecounter s.
Proof.
  induction n as [|n IH]; intros s; cbn [read_loop].
  - split; reflexivity.
  - destruct (read_iter_beyond s) as [E1 E2]. cbv zeta in E1, E2.
    destruct (read_iter port addr_bits s) as [s1 b]. cbn [fst] in *.
    destruct (IH s1) as [F1 F2]. cbv zeta in F1, F2.
    destruct (read_loop port addr_bits n s1) as [s2 bs]. cbn [fst] in *.
    split; congruence.
Qed.

Lemma write_iter_beyond (sr : Device * Z) (b : Z) :
  beyond_chunks (fst (write_iter addr_bits sr b)) = beyond_chunks (fst sr).
Proof.
  destruct sr as [s r]. unfold write_iter, write_account, write_store.
  cbn [fst snd]. split_ifs; reflexivity.
Qed.

Lemma write_loop_beyond (data : list Z) :
  forall sr,
    beyond_chunks (fst (write_loop addr_bits sr data))
    = beyond_chunks (fst sr).
Proof.
  induction data as [|b data IH]; intros sr; cbn [write_loop fold_left].
  - reflexivity.
  - unfold write_loop in IH. rewrite IH. apply write_iter_beyond.
Qed.

End ChunkFrame.

(** A call of the reader, and a call of the writer, on what they leave
    alone. *)
Lemma read_call_beyond (port : Port) (addr_bits : Z) (s : Device) (len : Z) :
  let r := fst (fst (usbFunctionRead port addr_bits s len)) in
  beyond_chunks r = beyond_chunks s
  /\ prog_nbytes r = prog_nbytes s
  /\ prog_pagecounter r = prog_pagecounter s.
Proof.
  cbv zeta. unfold usbFunctionRead.
  destruct (negb (in_read_state s)); cbn [fst]; [auto|].
  destruct (read_loop_beyond port addr_bits (Z.to_nat len) s) as [B1 B2].
  destruct (read_loop_frame port addr_bits (Z.to_nat len) s) as (_ & F2 & _).
  cbv zeta in B1, B2.
  destruct (read_loop port addr_bits (Z.to_nat len) s) as [s1 out].
  cbn [fst] in *.
  destruct (len <? 8); cbn [fst]; auto.
Qed.

Lemma write_call_beyond (addr_bits : Z) (s : Device) (data : list Z) :
  beyond_chunks (fst (usbFunctionWrite addr_bits s data)) = beyond_chunks s.
Proof.
  unfold usbFunctionWrite.
  destruct (negb (in_write_state s)); [reflexivity|].
  apply (write_loop_beyond addr_bits data (s, 0)).
Qed.

(** X5: [usbFunctionRead] writes [prog_address] and [prog_state] only,
    and [usbFunctionWrite] these two, [prog_nbytes] and [prog_pagecounter]:
    whatever the state, the length asked and the bytes, a call of either
    leaves the clock selector, the address mode, the page size, the block
    flags, the reply and report buffers, the idle rate, the last key and
    [usbMsgPtr] as they were, and the reader also [prog_nbytes] and
    [prog_pagecounter]. *)
Theorem X5_chunk_callbacks_frame :
  forall (port : Port) (addr_bits : Z) (s : Device) (len : Z)
         (data : list Z),
    let r := fst (fst (usbFunctionRead port addr_bits s len)) in
    let w := fst (usbFunctionWrite addr_bits s data) in
    beyond_chunks r = beyond_chunks s
    /\ prog_nbytes r = prog_nbytes s
    /\ prog_pagecounter r = prog_pagecounter s
    /\ beyond_chunks w = beyond_chunks s.
Proof.
  intros port addr_bits s len data. cbv zeta.
  destruct (read_call_beyond port addr_bits s len) as (R1 & R2 & R3).
  pose proof (write_call_beyond addr_bits s data) as W.
  auto.
Qed.

(** ** The single-shot commands *)

(** Two different command numbers for one packet. *)
Ltac kinds_differ :=
  repeat match goal with
         | H : (_ =? _) = true |- _ => apply Z.eqb_eq in H
         | H : (_ =? _) = false |- _ => apply Z.eqb_neq in H
         end;
  unfold USBASP_FUNC_CONNECT, USBASP_FUNC_DISCONNECT, USBASP_FUNC_TRANSMIT,
    USBASP_FUNC_READFLASH, USBASP_FUNC_ENABLEPROG, USBASP_FUNC_WRITEFLASH,
    USBASP_FUNC_READEEPROM, USBASP_FUNC_WRITEEEPROM,
    USBASP_FUNC_SETLONGADDRESS, USBASP_FUNC_SETISPSCK in *;
  lia.

Section Dispatcher.

Variable hdr : Headers.
Variable port : Port.

(** Only SETISPSCK writes the clock selector. *)
Lemma dispatch_sck (s : Device) (data : list Z) :
  prog_sck (fst (dispatch hdr port s data))
  = (if byte_at data 1 =? USBASP_FUNC_SETISPSCK then byte_at data 2
     else prog_sck s).
Proof.
  unfold dispatch, load_nbytes, load_legacy_address.
  split_ifs; cbn; try reflexivity; exfalso; kinds_differ.
Qed.

Lemma hid_request_beyond (s : Device) (data : list Z) (r : Device * Z) :
  hid_request hdr s data = Some r ->
  session (fst r) = session s
  /\ trace (fst r) = trace s
  /\ replyBuffer (fst r) = replyBuffer s.
Proof.
  unfold hid_request. split_ifs; intros H; inversion H; subst; cbn; auto.
Qed.

Lemma step_keeps_sck (addr_bits : Z) (s : Device) (a : action) :
  is_setispsck hdr a = false ->
  prog_sck (step hdr port addr_bits s a) = prog_sck s.
Proof.
  intros Hc. destruct a as [data | len | data]; cbn [step].
  - unfold usbFunctionSetup.
    destruct (hid_request hdr s data) as [r|] eqn:Hh.
    + destruct (hid_request_beyond s data r Hh) as (E & _).
      unfold session in E. congruence.
    + pose proof (dispatch_sck s data) as E.
      destruct (dispatch hdr port s data) as [s1 len]. cbn [fst] in *.
      change (prog_sck (set_usbMsgPtr PtrReplyBuffer s1)) with (prog_sck s1).
      rewrite E.
      apply (proj1 (hid_request_none hdr s data)) in Hh.
      cbn [is_setispsck] in Hc. rewrite Hh in Hc. cbn in Hc. rewrite Hc.
      reflexivity.
  - destruct (read_call_beyond port addr_bits s len) as [E _].
    unfold beyond_chunks in E. congruence.
  - pose proof (write_call_beyond addr_bits s data) as E.
    unfold beyond_chunks in E. congruence.
Qed.

End Dispatcher.

Lemma run_keeps_sck (hdr : Headers) (port : Port) (addr_bits : Z)
  (acts : list action) :
  forall s,
    Forall (fun a => is_setispsck hdr a = false) acts ->
    prog_sck (run hdr port addr_bits s acts) = prog_sck s.
Proof.
  induction acts as [|a acts IH]; intros s Hall; cbn [run fold_left].
  - reflexivity.
  - inversion Hall as [|? ? Ha Hrest]; subst.
    unfold run in IH. rewrite IH by exact Hrest.
    apply step_keeps_sck. exact Ha.
Qed.

Lemma setup_connect (hdr : Headers) (port : Port) (s : Device)
  (data : list Z) :
  byte_at data 1 = USBASP_FUNC_CONNECT ->
  class_request_served hdr data = false ->
  let r := usbFunctionSetup hdr port s data in
  snd r = 0
  /\ trace (fst r)
     = trace s
       ++ [CallSetSCKOption
             (if strap_low hdr port s then USBASP_ISP_SCK_8 hdr
              else prog_sck s);
           CallLedRedOn; CallConnect]
  /\ session (fst r)
     = [prog_state s; prog_sck s; 0; prog_address s; prog_nbytes s;
        prog_pagesize s; prog_blockflags s; prog_pagecounter s].
Proof.
  intros Hk Hv. cbv zeta.
  apply (hid_request_none hdr s data) in Hv.
  rewrite setup_dispatches by exact Hv.
  unfold dispatch, strap_low. rewrite Hk.
  cbn [Z.eqb USBASP_FUNC_CONNECT Pos.eqb].
  destruct (Z.land (PINC port (trace s)) (Z.shiftl 1 (PC2 hdr)) =? 0);
    cbn; rewrite <- !app_assoc; auto.
Qed.

(** X6: the clock selector makes a round trip from SETISPSCK to CONNECT.
    After a SETISPSCK command carrying [v] and any commands, reads and
    writes that are not a SETISPSCK, a CONNECT calls [ispSetSCKOption] with
    [v], unless the strap on PC2 reads low, when it calls it with
    USBASP_ISP_SCK_8; it then switches the LED on and calls [ispConnect],
    returns no reply, clears the address mode and leaves the rest of the
    session, a transfer in progress included, as it was.  Without any
    SETISPSCK since reset, the selector is USBASP_ISP_SCK_AUTO. *)
Theorem X6_clock_selector_round_trip :
  forall (hdr : Headers) (port : Port) (s : Device) (setsck conn : list Z)
         (acts : list action),
    byte_at setsck 1 = USBASP_FUNC_SETISPSCK ->
    class_request_served hdr setsck = false ->
    Forall (fun a => is_setispsck hdr a = false) acts ->
    byte_at conn 1 = USBASP_FUNC_CONNECT ->
    class_request_served hdr conn = false ->
    let s1 := fst (usbFunctionSetup hdr port s setsck) in
    let s2 := run hdr port 32 s1 acts in
    let (s3, len) := usbFunctionSetup hdr port s2 conn in
    len = 0
    /\ calls_since s2 s3
       = [CallSetSCKOption
            (if strap_low hdr port s2 then USBASP_ISP_SCK_8 hdr
             else byte_at setsck 2);
          CallLedRedOn; CallConnect]
    /\ session s3
       = [prog_state s2; byte_at setsck 2; 0; prog_address s2;
          prog_nbytes s2; prog_pagesize s2; prog_blockflags s2;
          prog_pagecounter s2]
    /\ prog_sck
         (run hdr port 32 (power_up hdr) acts) = USBASP_ISP_SCK_AUTO hdr.
Proof.
  intros hdr port s setsck conn acts Hk Hv Hacts Hc Hcv. cbv zeta.
  assert (H1 : prog_sck (fst (usbFunctionSetup hdr port s setsck))
               = byte_at setsck 2).
  { apply (hid_request_none hdr s setsck) in Hv.
    rewrite setup_dispatches by exact Hv.
    change (prog_sck (fst (dispatch hdr port s setsck)) = byte_at setsck 2).
    rewrite dispatch_sck, Hk. reflexivity. }
  pose proof (run_keeps_sck hdr port 32 acts
                (fst (usbFunctionSetup hdr port s setsck)) Hacts) as H2.
  rewrite H1 in H2.
  set (s2 := run hdr port 32 _ acts) in *.
  destruct (setup_connect hdr port s2 conn Hc Hcv) as (C1 & C2 & C3).
  cbv zeta in C1, C2, C3.
  destruct (usbFunctionSetup hdr port s2 conn) as [s3 len].
  cbn [fst snd] in *. rewrite H2 in C2, C3.
  split; [exact C1|]. split; [apply calls_since_app; exact C2|].
  split; [exact C3|].
  apply (run_keeps_sck hdr port 32 acts (power_up hdr) Hacts).
Qed.

Lemma X6_clock_selector_round_trip_witness :
  let s1 := armed (vendor_packet USBASP_FUNC_SETISPSCK 7 0 0 0 0 0) in
  let s2 :=
    run sample_headers quiet_port 32 s1
      [DoSetup (vendor_packet USBASP_FUNC_READFLASH 0 0 0 0 3 0); DoRead 3] in
  let (s3, len) :=
    usbFunctionSetup sample_headers quiet_port s2
      (vendor_packet USBASP_FUNC_CONNECT 0 0 0 0 0 0) in
  calls_since s2 s3 = [CallSetSCKOption 7; CallLedRedOn; CallConnect].
Proof.
  cbv zeta.
  pose proof (X6_clock_selector_round_trip sample_headers quiet_port
                (power_up sample_headers)
                (vendor_packet USBASP_FUNC_SETISPSCK 7 0 0 0 0 0)
                (vendor_packet USBASP_FUNC_CONNECT 0 0 0 0 0 0)
                [DoSetup (vendor_packet USBASP_FUNC_READFLASH 0 0 0 0 3 0);
                 DoRead 3]
                eq_refl eq_refl
                ltac:(repeat (apply Forall_cons; [reflexivity|]);
                      apply Forall_nil)
                eq_refl eq_refl) as H.
  cbv zeta in H. unfold armed.
  destruct (usbFunctionSetup sample_headers quiet_port _
              (vendor_packet USBASP_FUNC_CONNECT 0 0 0 0 0 0)) as [s3 len].
  destruct H as (_ & H & _). rewrite H. reflexivity.
Defined.

(** X7: a TRANSMIT command passes [data[2]] to [data[5]] to [ispTransmit]
    in that order, stores the four answers in [replyBuffer[0..3]] (the rest
    of the buffer keeps its bytes), returns 4 with [usbMsgPtr] on the reply
    buffer, and leaves the session as it was. *)
Theorem X7_transmit_relays_four_bytes :
  forall (hdr : Headers) (port : Port) (s : Device) (data : list Z),
    byte_at data 1 = USBASP_FUNC_TRANSMIT ->
    class_request_served hdr data = false ->
    length (replyBuffer s) = 8%nat ->
    let c2 := CallTransmit (byte_at data 2) in
    let c3 := CallTransmit (byte_at data 3) in
    let c4 := CallTransmit (byte_at data 4) in
    let c5 := CallTransmit (byte_at data 5) in
    let r0 := to_uchar (ispTransmit port (trace s) (byte_at data 2)) in
    let r1 :=
      to_uchar (ispTransmit port (trace s ++ [c2]) (byte_at data 3)) in
    let r2 :=
      to_uchar (ispTransmit port (trace s ++ [c2; c3]) (byte_at data 4)) in
    let r3 :=
      to_uchar (ispTransmit port (trace s ++ [c2; c3; c4]) (byte_at data 5)) in
    let (s', len) := usbFunctionSetup hdr port s data in
    len = 4
    /\ calls_since s s' = [c2; c3; c4; c5]
    /\ replyBuffer s' = r0 :: r1 :: r2 :: r3 :: skipn 4 (replyBuffer s)
    /\ usbMsgPtr s' = PtrReplyBuffer
    /\ session s' = session s.
Proof.
  intros hdr port s data Hk Hv Hrb. cbv zeta.
  apply (hid_request_none hdr s data) in Hv.
  rewrite setup_dispatches by exact Hv.
  unfold dispatch. rewrite Hk.
  cbn [Z.eqb USBASP_FUNC_TRANSMIT USBASP_FUNC_CONNECT USBASP_FUNC_DISCONNECT
       Pos.eqb fst snd].
  unfold transmit_into.
  cbn [trace replyBuffer emit set_replyBuffer set_usbMsgPtr usbMsgPtr].
  destruct (replyBuffer s)
    as [|x0 [|x1 [|x2 [|x3 [|x4 [|x5 [|x6 [|x7 [|]]]]]]]]];
    try discriminate Hrb.
  cbn [store skipn].
  rewrite <- !app_assoc. cbn [app].
  repeat split.
  apply calls_since_app. cbn [trace emit set_replyBuffer set_usbMsgPtr].
  rewrite <- !app_assoc. reflexivity.
Qed.

Lemma X7_transmit_relays_four_bytes_witness :
  let (s', len) :=
    usbFunctionSetup sample_headers quiet_port (power_up sample_headers)
      (vendor_packet USBASP_FUNC_TRANSMIT 172 83 0 0 0 0) in
  len = 4
  /\ calls_since (power_up sample_headers) s'
     = [CallTransmit 172; CallTransmit 83; CallTransmit 0; CallTransmit 0].
Proof.
  pose proof (X7_transmit_relays_four_bytes sample_headers quiet_port
                (power_up sample_headers)
                (vendor_packet USBASP_FUNC_TRANSMIT 172 83 0 0 0 0)
                eq_refl eq_refl eq_refl) as H.
  cbv zeta in H.
  destruct (usbFunctionSetup sample_headers quiet_port
              (power_up sample_headers)
              (vendor_packet USBASP_FUNC_TRANSMIT 172 83 0 0 0 0))
    as [s' len].
  destruct H as (H1 & H2 & _). split; [exact H1 | exact H2].
Defined.

Section DispatchTable.

Variable hdr : Headers.
Variable port : Port.

(** The state and the reply length the dispatcher leaves, by command. *)
Lemma dispatch_state_len (s : Device) (data : list Z) :
  let k := byte_at data 1 in
  let r := dispatch hdr port s data in
  prog_state (fst r)
  = (if k =? USBASP_FUNC_READFLASH then PROG_STATE_READFLASH
     else if k =? USBASP_FUNC_READEEPROM then PROG_STATE_READEEPROM
     else if k =? USBASP_FUNC_WRITEFLASH then PROG_STATE_WRITEFLASH
     else if k =? USBASP_FUNC_WRITEEEPROM then PROG_STATE_WRITEEEPROM
     else prog_state s)
  /\ snd r
     = (if is_arming data then 255
        else if k =? USBASP_FUNC_TRANSMIT then 4
        else if (k =? USBASP_FUNC_ENABLEPROG) || (k =? USBASP_FUNC_SETISPSCK)
             then 1
        else 0).
Proof.
  cbv zeta. unfold dispatch, is_arming, load_nbytes, load_legacy_address.
  split; split_ifs; cbn; try reflexivity; exfalso; kinds_differ.
Qed.

(** DISCONNECT, TRANSMIT, ENABLEPROG and the numbers that are no command
    leave the session alone. *)
Lemma dispatch_outside_session (s : Device) (data : list Z) :
  byte_at data 1 <> USBASP_FUNC_CONNECT ->
  is_arming data = false ->
  byte_at data 1 <> USBASP_FUNC_SETLONGADDRESS ->
  byte_at data 1 <> USBASP_FUNC_SETISPSCK ->
  session (fst (dispatch hdr port s data)) = session s.
Proof.
  unfold dispatch, is_arming. intros H1 H2 H3 H4.
  apply Z.eqb_neq in H1, H3, H4. rewrite H1, H3, H4.
  apply orb_false_iff in H2. destruct H2 as [H2 H8].
  apply orb_false_iff in H2. destruct H2 as [H2 H6].
  apply orb_false_iff in H2. destruct H2 as [H2 H7].
  rewrite H2, H6, H7, H8.
  split_ifs; reflexivity.
Qed.

Lemma dispatch_unknown (s : Device) (data : list Z) :
  byte_at data 1 < 1 \/ 10 < byte_at data 1 ->
  dispatch hdr port s data = (s, 0).
Proof.
  intros H. unfold dispatch. split_ifs; try reflexivity; exfalso;
    kinds_differ.
Qed.

End DispatchTable.

(** X8: the session is written by CONNECT, the four arming commands,
    SETLONGADDRESS and SETISPSCK only.  A class request answered by the
    keyboard code, a DISCONNECT, a TRANSMIT, an ENABLEPROG and a command
    number outside 1..10 leave the eight [prog_] variables as they were;
    a number outside 1..10 besides calls nothing and replies nothing: the
    call returns 0 and only [usbMsgPtr] is set. *)
Theorem X8_commands_outside_the_session :
  forall (hdr : Headers) (port : Port) (s : Device) (data : list Z),
    let k := byte_at data 1 in
    let r := usbFunctionSetup hdr port s data in
    (class_request_served hdr data = true
     \/ (k <> USBASP_FUNC_CONNECT /\ is_arming data = false
         /\ k <> USBASP_FUNC_SETLONGADDRESS /\ k <> USBASP_FUNC_SETISPSCK) ->
     session (fst r) = session s)
    /\ (class_request_served hdr data = false ->
        k < 1 \/ 10 < k ->
        r = (set_usbMsgPtr PtrReplyBuffer s, 0)).
Proof.
  intros hdr port s data. cbv zeta. split.
  - intros [Hserved | (H1 & H2 & H3 & H4)].
    + unfold usbFunctionSetup.
      destruct (hid_request hdr s data) as [r|] eqn:Hh.
      * apply (hid_request_beyond hdr s data r Hh).
      * apply (hid_request_none hdr s data) in Hh. congruence.
    + unfold usbFunctionSetup.
      destruct (hid_request hdr s data) as [r|] eqn:Hh.
      * apply (hid_request_beyond hdr s data r Hh).
      * pose proof (dispatch_outside_session hdr port s data H1 H2 H3 H4) as E.
        destruct (dispatch hdr port s data) as [s1 len]. exact E.
  - intros Hv Hk. apply (hid_request_none hdr s data) in Hv.
    rewrite setup_dispatches by exact Hv.
    rewrite dispatch_unknown by exact Hk. reflexivity.
Qed.

Lemma X8_commands_outside_the_session_witness :
  usbFunctionSetup sample_headers quiet_port (power_up sample_headers)
    (vendor_packet 11 1 2 3 4 5 6)
  = (set_usbMsgPtr PtrReplyBuffer (power_up sample_headers), 0).
Proof.
  destruct (X8_commands_outside_the_session sample_headers quiet_port
              (power_up sample_headers) (vendor_packet 11 1 2 3 4 5 6))
    as [_ H].
  apply H; [reflexivity | right; reflexivity].
Defined.

(** X9: [usbFunctionSetup] returns 0xff, which makes V-USB call the chunk
    callbacks, exactly for the four arming commands.  After READFLASH or
    READEEPROM the session is in a read state and [usbFunctionWrite]
    refuses every chunk; after WRITEFLASH or WRITEEEPROM it is in a write
    state and [usbFunctionRead] refuses every call.  No other command
    writes [prog_state]: none of them ends a transfer in progress. *)
Theorem X9_arming_declares_the_transfer :
  forall (hdr : Headers) (port : Port) (addr_bits : Z) (s : Device)
         (data : list Z),
    class_request_served hdr data = false ->
    let k := byte_at data 1 in
    let (s', len) := usbFunctionSetup hdr port s data in
    (len = 255 <-> is_arming data = true)
    /\ (is_arming data = false -> prog_state s' = prog_state s)
    /\ (k = USBASP_FUNC_READFLASH \/ k = USBASP_FUNC_READEEPROM ->
        in_read_state s' = true
        /\ forall chunk, usbFunctionWrite addr_bits s' chunk = (s', 255))
    /\ (k = USBASP_FUNC_WRITEFLASH \/ k = USBASP_FUNC_WRITEEEPROM ->
        in_write_state s' = true
        /\ forall n, usbFunctionRead port addr_bits s' n = (s', 255, [])).
Proof.
  intros hdr port addr_bits s data Hv. cbv zeta.
  apply (hid_request_none hdr s data) in Hv.
  rewrite setup_dispatches by exact Hv.
  destruct (dispatch_state_len hdr port s data) as [E1 E2].
  cbv zeta in E1, E2.
  destruct (dispatch hdr port s data) as [s1 len]. cbn [fst snd] in *.
  unfold usbFunctionWrite, usbFunctionRead, in_read_state, in_write_state.
  cbn [prog_state set_usbMsgPtr]. rewrite E1, E2. unfold is_arming.
  split; [|split; [|split]].
  - split_ifs; cbn; split; intros H; try reflexivity; try discriminate H;
      exfalso; kinds_differ.
  - intros H.
    apply orb_false_iff in H. destruct H as [H H8].
    apply orb_false_iff in H. destruct H as [H H6].
    apply orb_false_iff in H. destruct H as [H4 H7].
    rewrite H4, H6, H7, H8. reflexivity.
  - intros [H | H]; rewrite H; cbn; auto.
  - intros [H | H]; rewrite H; cbn; auto.
Qed.

Lemma X9_arming_declares_the_transfer_witness :
  let (s', len) :=
    usbFunctionSetup sample_headers quiet_port (power_up sample_headers)
      (vendor_packet USBASP_FUNC_READFLASH 0 0 0 0 8 0) in
  len = 255 /\ usbFunctionWrite 32 s' [1; 2] = (s', 255).
Proof.
  pose proof (X9_arming_declares_the_transfer sample_headers quiet_port 32
                (power_up sample_headers)
                (vendor_packet USBASP_FUNC_READFLASH 0 0 0 0 8 0)
                eq_refl) as H.
  cbv zeta in H.
  destruct (usbFunctionSetup sample_headers quiet_port
              (power_up sample_headers)
              (vendor_packet USBASP_FUNC_READFLASH 0 0 0 0 8 0))
    as [s' len].
  destruct H as (H1 & _ & H3 & _). split.
  - apply H1. reflexivity.
  - apply H3. left. reflexivity.
Defined.

(** ** The class requests of the keyboard interface *)

(** X10: a setup packet of class type.  GET_REPORT builds the report of
    the last key in [reportBuffer] ([0; 0], or [0; KEY_ENTER] when the key is
    down) and returns 2, without pointing [usbMsgPtr] at it; GET_IDLE
    returns 1 with [usbMsgPtr] on [idleRate]; SET_IDLE stores [data[3]] in
    [idleRate] and returns 1, so that a GET_IDLE after it finds that value.
    None of the three touches the session, the reply buffer or the target.
    A class request with any other number is not refused: it goes through
    the programmer's dispatcher like a vendor request. *)
Theorem X10_class_requests :
  forall (hdr : Headers) (port : Port) (s : Device) (data : list Z),
    Z.land (byte_at data 0) (USBRQ_TYPE_MASK hdr) = USBRQ_TYPE_CLASS hdr ->
    let k := byte_at data 1 in
    let (s', len) := usbFunctionSetup hdr port s data in
    (k = USBRQ_HID_GET_REPORT hdr ->
     len = 2
     /\ reportBuffer s' = nth (Z.to_nat (lastKey s)) keyReport [0; 0]
     /\ (lastKey s = 0 -> reportBuffer s' = [0; 0])
     /\ (lastKey s = 1 -> reportBuffer s' = [0; KEY_ENTER])
     /\ usbMsgPtr s' = usbMsgPtr s)
    /\ (k <> USBRQ_HID_GET_REPORT hdr -> k = USBRQ_HID_GET_IDLE hdr ->
        len = 1 /\ usbMsgPtr s' = PtrIdleRate /\ idleRate s' = idleRate s)
    /\ (k <> USBRQ_HID_GET_REPORT hdr -> k <> USBRQ_HID_GET_IDLE hdr ->
        k = USBRQ_HID_SET_IDLE hdr ->
        len = 1
        /\ idleRate s' = byte_at data 3
        /\ forall get,
            Z.land (byte_at get 0) (USBRQ_TYPE_MASK hdr)
            = USBRQ_TYPE_CLASS hdr ->
            byte_at get 1 = USBRQ_HID_GET_IDLE hdr ->
            byte_at get 1 <> USBRQ_HID_GET_REPORT hdr ->
            let (s'', len') := usbFunctionSetup hdr port s' get in
            len' = 1 /\ usbMsgPtr s'' = PtrIdleRate
            /\ idleRate s'' = byte_at data 3)
    /\ (class_request_served hdr data = true ->
        session s' = session s /\ trace s' = trace s
        /\ replyBuffer s' = replyBuffer s)
    /\ (class_request_served hdr data = false ->
        (s', len)
        = (set_usbMsgPtr PtrReplyBuffer (fst (dispatch hdr port s data)),
           snd (dispatch hdr port s data))).
Proof.
  intros hdr port s data Hclass. cbv zeta.
  destruct (usbFunctionSetup hdr port s data) as [s' len] eqn:E.
  split; [|split; [|split; [|split]]].
  - intros Hk. unfold usbFunctionSetup, hid_request in E.
    rewrite Hclass, Z.eqb_refl, Hk, Z.eqb_refl in E.
    inversion E; subst. cbn.
    repeat split; try reflexivity; intros ->; reflexivity.
  - intros Hn Hk. unfold usbFunctionSetup, hid_request in E.
    rewrite Hclass, Z.eqb_refl in E.
    apply Z.eqb_neq in Hn. rewrite Hn in E. rewrite Hk, Z.eqb_refl in E.
    inversion E; subst. cbn. auto.
  - intros Hn1 Hn2 Hk. unfold usbFunctionSetup, hid_request in E.
    rewrite Hclass, Z.eqb_refl in E.
    apply Z.eqb_neq in Hn1, Hn2. rewrite Hn1, Hn2 in E.
    rewrite Hk, Z.eqb_refl in E.
    inversion E; subst. cbn [fst snd idleRate set_idleRate].
    split; [reflexivity|]. split; [reflexivity|].
    intros get Hgc Hgk Hgn.
    unfold usbFunctionSetup, hid_request.
    rewrite Hgc, Z.eqb_refl.
    apply Z.eqb_neq in Hgn. rewrite Hgn. rewrite Hgk, Z.eqb_refl.
    cbn. auto.
  - intros Hs. unfold usbFunctionSetup in E.
    destruct (hid_request hdr s data) as [r|] eqn:Hh.
    + subst r. apply (hid_request_beyond hdr s data _ Hh).
    + apply (hid_request_none hdr s data) in Hh. congruence.
  - intros Hs. apply (hid_request_none hdr s data) in Hs.
    rewrite setup_dispatches in E by exact Hs. symmetry. exact E.
Qed.

Lemma X10_class_requests_witness :
  let set_idle := [33; 10; 0; 125; 0; 0; 0; 0] in
  let get_idle := [161; 2; 0; 0; 0; 0; 1; 0] in
  let (s', len) :=
    usbFunctionSetup sample_headers quiet_port (power_up sample_headers)
      set_idle in
  let (s'', len') := usbFunctionSetup sample_headers quiet_port s' get_idle in
  len = 1 /\ len' = 1 /\ usbMsgPtr s'' = PtrIdleRate /\ idleRate s'' = 125.
Proof.
  cbv zeta.
  pose proof (X10_class_requests sample_headers quiet_port
                (power_up sample_headers) [33; 10; 0; 125; 0; 0; 0; 0]
                eq_refl) as H.
  cbv zeta in H.
  destruct (usbFunctionSetup sample_headers quiet_port
              (power_up sample_headers) [33; 10; 0; 125; 0; 0; 0; 0])
    as [s' len].
  destruct H as (_ & _ & H & _).
  destruct (H ltac:(cbn; lia) ltac:(cbn; lia) eq_refl) as (H1 & _ & H3).
  specialize (H3 [161; 2; 0; 0; 0; 0; 1; 0] eq_refl eq_refl
                ltac:(cbn; lia)).
  destruct (usbFunctionSetup sample_headers quiet_port s'
              [161; 2; 0; 0; 0; 0; 1; 0]) as [s'' len'].
  destruct H3 as (G1 & G2 & G3). auto.
Defined.

(** ** The keyboard polling *)

Section Keyboard.

Variables pind5 tov2 : Z.

Lemma keyPressed_bit (pind : Z) :
  keyPressed pind5 pind = 0 \/ keyPressed pind5 pind = 1.
Proof.
  unfold keyPressed. destruct (_ =? 0); auto.
Qed.

Lemma overflows_app (tifr : Z) (n m : nat) :
  forall sk,
    overflows tov2 tifr (n + m) sk
    = overflows tov2 tifr m (overflows tov2 tifr n sk).
Proof.
  induction n as [|n IH]; intros sk; cbn [overflows plus].
  - reflexivity.
  - apply IH.
Qed.

(** While the idle counter is above 4, an overflow takes 5 off it. *)
Lemma overflows_count_down (tifr : Z) (i : nat) :
  forall (s : Device) (k : Keys),
    Z.land tifr (Z.shiftl 1 tov2) <> 0 ->
    idleRate s <> 0 ->
    idleCounter k < 256 ->
    5 * Z.of_nat i <= idleCounter k ->
    overflows tov2 tifr i (s, k)
    = (s, mkKeys (key k) (keyChanged k) (idleCounter k - 5 * Z.of_nat i)).
Proof.
  induction i as [|i IH]; intros s k Hov Hrate Hc Hi; cbn [overflows].
  - rewrite Z.sub_0_r. destruct k. reflexivity.
  - unfold timerPoll at 1.
    apply Z.eqb_neq in Hov, Hrate. rewrite Hov, Hrate.
    replace (4 <? idleCounter k) with true
      by (symmetry; apply Z.ltb_lt; lia).
    cbn [fst].
    assert (Hu : to_uchar (idleCounter k - 5) = idleCounter k - 5).
    { unfold to_uchar. apply wrap_small. change (2 ^ 8) with 256. lia. }
    rewrite Hu.
    apply Z.eqb_neq in Hov, Hrate.
    rewrite IH by (cbn [idleCounter]; try assumption; lia).
    cbn [key keyChanged idleCounter]. do 2 f_equal. lia.
Qed.

End Keyboard.

(** X11: the idle timer of the keyboard.  With a non-zero idle rate, each
    timer overflow that [timerPoll] sees takes 5 off [idleCounter] as long
    as it is above 4; the overflow after that reloads it with the idle rate
    and sets [keyChanged], which makes [sendKey] repeat the report: from a
    counter [c] that is after [c / 5 + 1] overflows.  With an idle rate of
    0, or while the overflow flag is clear, [timerPoll] changes nothing. *)
Theorem X11_idle_timer_period :
  forall (tov2 tifr : Z) (s : Device) (k : Keys),
    Z.land tifr (Z.shiftl 1 tov2) <> 0 ->
    0 <= idleCounter k < 256 ->
    let q := Z.to_nat (idleCounter k / 5) in
    (idleRate s <> 0 ->
     (forall i,
         (i <= q)%nat ->
         overflows tov2 tifr i (s, k)
         = (s, mkKeys (key k) (keyChanged k)
                 (idleCounter k - 5 * Z.of_nat i)))
     /\ overflows tov2 tifr (S q) (s, k)
        = (s, mkKeys (key k) 1 (idleRate s)))
    /\ (idleRate s = 0 -> forall i, overflows tov2 tifr i (s, k) = (s, k))
    /\ (forall tifr0,
           Z.land tifr0 (Z.shiftl 1 tov2) = 0 ->
           timerPoll tov2 tifr0 (s, k) = (s, k, None)).
Proof.
  intros tov2 tifr s k Hov Hc. cbv zeta.
  assert (Hq : 0 <= idleCounter k / 5) by (apply Z.div_pos; lia).
  pose proof (Z.div_mod (idleCounter k) 5 ltac:(lia)) as Hdm.
  pose proof (Z.mod_pos_bound (idleCounter k) 5 ltac:(lia)) as Hm.
  split; [|split].
  - intros Hrate.
    assert (Hdown : forall i,
      (i <= Z.to_nat (idleCounter k / 5))%nat ->
      overflows tov2 tifr i (s, k)
      = (s, mkKeys (key k) (keyChanged k) (idleCounter k - 5 * Z.of_nat i))).
    { intros i Hi. apply overflows_count_down; try assumption; lia. }
    split; [exact Hdown|].
    replace (S (Z.to_nat (idleCounter k / 5)))
      with (Z.to_nat (idleCounter k / 5) + 1)%nat by lia.
    rewrite overflows_app, Hdown by lia.
    cbn [overflows]. unfold timerPoll.
    apply Z.eqb_neq in Hov, Hrate. rewrite Hov, Hrate.
    cbn [idleCounter key keyChanged].
    replace (4 <? idleCounter k - 5 * Z.of_nat (Z.to_nat (idleCounter k / 5)))
      with false by (symmetry; apply Z.ltb_ge; lia).
    reflexivity.
  - intros Hrate i. induction i as [|i IH]; cbn [overflows].
    + reflexivity.
    + unfold timerPoll at 1.
      apply Z.eqb_neq in Hov. rewrite Hov, Hrate. cbn [Z.eqb fst].
      exact IH.
  - intros tifr0 H0. unfold timerPoll. rewrite H0. reflexivity.
Qed.

Lemma X11_idle_timer_period_witness :
  let s := set_idleRate 12 (power_up sample_headers) in
  let k := mkKeys 0 0 12 in
  overflows 6 64 2 (s, k) = (s, mkKeys 0 0 2)
  /\ overflows 6 64 3 (s, k) = (s, mkKeys 0 1 12).
Proof.
  cbv zeta.
  destruct (X11_idle_timer_period 6 64
              (set_idleRate 12 (power_up sample_headers)) (mkKeys 0 0 12)
              ltac:(cbn; lia) ltac:(cbn; lia)) as (H & _).
  cbv zeta in H. destruct (H ltac:(cbn; lia)) as [H1 H2].
  split; [apply (H1 2%nat); cbn; lia | exact H2].
Defined.

(** X12: the key and its report, in a turn of the loop of [main] during
    which the timer does not overflow.  After the turn [lastKey] is the
    state of the key as [keyPressed] reads it.  A report is handed to
    [usbSetInterrupt] exactly when a change is pending (noticed in this
    turn, or left from a turn in which the endpoint was busy) and the
    endpoint is ready; it carries the state of the key now: [0; KEY_ENTER]
    when it is down, [0; 0] when it is up.  A change noticed while the
    endpoint is busy stays pending. *)
Theorem X12_key_report_follows_the_key :
  forall (pind5 tov2 pind tifr : Z) (ready : bool) (s : Device) (k : Keys),
    Z.land tifr (Z.shiftl 1 tov2) = 0 ->
    let down := keyPressed pind5 pind in
    let pending := negb (keyChanged k =? 0) || negb (lastKey s =? down) in
    let '(s', k', report) :=
      poll_keys pind5 tov2 pind tifr ready (s, k) in
    lastKey s' = down
    /\ (down = 0 \/ down = 1)
    /\ report
       = (if pending && ready
          then Some [0; if down =? 1 then KEY_ENTER else 0]
          else None)
    /\ (keyChanged k' =? 0) = negb pending || ready
    /\ session s' = session s
    /\ trace s' = trace s.
Proof.
  intros pind5 tov2 pind tifr ready s k Hov. cbv zeta.
  unfold poll_keys, keyPoll.
  cbn [key keyChanged idleCounter].
  destruct (keyPressed_bit pind5 pind) as [Hd | Hd]; rewrite Hd;
    destruct (lastKey s =? _) eqn:El; cbn [negb];
    unfold timerPoll; rewrite Hov; cbn [fst]; unfold sendKey;
    cbn [keyChanged lastKey set_lastKey];
    destruct (keyChanged k =? 0) eqn:Ek; destruct ready;
    cbn [key keyChanged idleCounter]; rewrite ?Ek;
    try (apply Z.eqb_eq in El; rewrite ?El);
    cbn; rewrite ?Ek; repeat split; auto; rewrite El; reflexivity.
Qed.

Lemma X12_key_report_follows_the_key_witness :
  let '(s', k', report) :=
    poll_keys 5 6 0 0 true (power_up sample_headers, mkKeys 0 0 0) in
  lastKey s' = 1 /\ report = Some [0; 40].
Proof.
  pose proof (X12_key_report_follows_the_key 5 6 0 0 true
                (power_up sample_headers) (mkKeys 0 0 0) eq_refl) as H.
  cbv zeta in H.
  destruct (poll_keys 5 6 0 0 true (power_up sample_headers, mkKeys 0 0 0))
    as [[s' k'] report].
  destruct H as (H1 & _ & H3 & _). split; [exact H1 | exact H3].
Defined.

(** ** The two firmwares *)

(** X13: in the old address mode, the legacy field of an arming command
    is loaded as [(data[3] << 8) | data[2]], an [int], into the
    [unsigned long] address: the address is the 16-bit value of the field
    for fields below 0x8000, and that value with the upper 16 bits set from
    0x8000 on (the [int] is negative there); its low 16 bits are the field
    in both cases. *)
Theorem X13_legacy_address_sign_extends :
  forall (hdr : Headers) (port : Port) (s : Device) (data : list Z),
    is_packet data ->
    class_request_served hdr data = false ->
    is_arming data = true ->
    prog_address_newmode s = 0 ->
    let field := byte_at data 2 + 256 * byte_at data 3 in
    let s' := fst (usbFunctionSetup hdr port s data) in
    prog_address s'
    = (if byte_at data 3 <? 128 then field else 2 ^ 32 - 2 ^ 16 + field)
    /\ prog_address s' mod 2 ^ 16 = field.
Proof.
  intros hdr port s data Hpk Hv Harm Hmode. cbv zeta.
  destruct (setup_address_mode hdr port s data Hv) as [Ea _].
  rewrite Ea, dispatch_arming_address, Hmode by exact Harm.
  cbn [Z.eqb]. rewrite legacy_address_value by exact Hpk.
  pose proof (packet_byte data 2 Hpk) as H2.
  pose proof (packet_byte data 3 Hpk) as H3.
  split; [reflexivity|].
  change (2 ^ 32) with 4294967296. change (2 ^ 16) with 65536.
  destruct (byte_at data 3 <? 128).
  - apply Z.mod_small. lia.
  - symmetry. apply Z.mod_unique_pos with (q := 65535); lia.
Qed.

Lemma X13_legacy_address_sign_extends_witness :
  prog_address (armed (vendor_packet USBASP_FUNC_READFLASH 0 128 0 0 8 0))
  = 4294934528.
Proof.
  destruct (X13_legacy_address_sign_extends sample_headers quiet_port
              (power_up sample_headers)
              (vendor_packet USBASP_FUNC_READFLASH 0 128 0 0 8 0)
              (sample_is_packet USBASP_FUNC_READFLASH 0 128 0 0 8 0 eq_refl)
              eq_refl eq_refl eq_refl) as [H _].
  unfold armed. rewrite H. reflexivity.
Defined.

(** X14: the dispatcher of [firmware/main.c] and the later one agree on
    the commands they share, CONNECT apart, as long as the later one is in
    its old address mode.  On DISCONNECT, TRANSMIT, ENABLEPROG and on any
    number that is no command of the older firmware nor one of the two
    added later, both leave the same state and return the same length.  On
    the four arming commands they return the same length and leave the same
    state but for [prog_address]: the older firmware holds the 16-bit value
    of the legacy field, the later one that value sign-extended, so they
    agree entirely for fields below 0x8000. *)
Theorem X14_dispatchers_agree :
  forall (hdr : Headers) (old : Fw2006.Headers) (port : Port) (s : Device)
         (data : list Z),
    is_packet data ->
    class_request_served hdr data = false ->
    prog_address_newmode s = 0 ->
    byte_at data 1 <> USBASP_FUNC_CONNECT ->
    byte_at data 1 <> USBASP_FUNC_SETLONGADDRESS ->
    byte_at data 1 <> USBASP_FUNC_SETISPSCK ->
    let field := byte_at data 2 + 256 * byte_at data 3 in
    let (s9, len9) := usbFunctionSetup hdr port s data in
    let (s6, len6) := Fw2006.usbFunctionSetup old port s data in
    len9 = len6
    /\ (is_arming data = false -> s9 = s6)
    /\ (is_arming data = true ->
        prog_address s6 = field
        /\ s6 = set_prog_address field s9
        /\ (byte_at data 3 < 128 -> s9 = s6)).
Proof.
  intros hdr old port s data Hpk Hv Hmode Hc Hl Hk. cbv zeta.
  apply (hid_request_none hdr s data) in Hv.
  rewrite setup_dispatches by exact Hv.
  pose proof (packet_byte data 2 Hpk) as H2.
  pose proof (packet_byte data 3 Hpk) as H3.
  pose proof (legacy_address_value data Hpk) as Hleg.
  pose proof (int_of_bytes_uint _ _ H3 H2) as H16.
  assert (Hcase :
    byte_at data 1 = USBASP_FUNC_DISCONNECT
    \/ byte_at data 1 = USBASP_FUNC_TRANSMIT
    \/ byte_at data 1 = USBASP_FUNC_READFLASH
    \/ byte_at data 1 = USBASP_FUNC_ENABLEPROG
    \/ byte_at data 1 = USBASP_FUNC_WRITEFLASH
    \/ byte_at data 1 = USBASP_FUNC_READEEPROM
    \/ byte_at data 1 = USBASP_FUNC_WRITEEEPROM
    \/ (byte_at data 1 < 1 \/ 10 < byte_at data 1)).
  { unfold USBASP_FUNC_CONNECT, USBASP_FUNC_DISCONNECT, USBASP_FUNC_TRANSMIT,
      USBASP_FUNC_READFLASH, USBASP_FUNC_ENABLEPROG, USBASP_FUNC_WRITEFLASH,
      USBASP_FUNC_READEEPROM, USBASP_FUNC_WRITEEEPROM,
      USBASP_FUNC_SETLONGADDRESS, USBASP_FUNC_SETISPSCK in *.
    lia. }
  unfold Fw2006.usbFunctionSetup, dispatch, is_arming,
    Fw2006.load_address, load_legacy_address.
  rewrite Hmode. cbn [Z.eqb]. rewrite H16.
  destruct Hcase as [E|[E|[E|[E|[E|[E|[E|E]]]]]]].
  1-7: rewrite E;
    cbn [Z.eqb Pos.eqb orb USBASP_FUNC_CONNECT USBASP_FUNC_DISCONNECT
         USBASP_FUNC_TRANSMIT USBASP_FUNC_READFLASH USBASP_FUNC_ENABLEPROG
         USBASP_FUNC_WRITEFLASH USBASP_FUNC_READEEPROM
         USBASP_FUNC_WRITEEEPROM USBASP_FUNC_SETLONGADDRESS
         USBASP_FUNC_SETISPSCK fst snd prog_pagesize prog_blockflags
         set_prog_pagesize set_prog_blockflags set_prog_address];
    try (destruct (Z.land (to_uchar (Z.land (byte_at data 5) 15))
                     PROG_BLOCKFLAG_FIRST =? 0));
    cbn;
    (split; [reflexivity|]);
    (split;
     [intros H; first [discriminate H | reflexivity]
     |intros H;
      first
        [discriminate H
        |split; [reflexivity|]; split; [reflexivity|];
         intros Hlt; rewrite Hleg;
         replace (byte_at data 3 <? 128) with true
           by (symmetry; apply Z.ltb_lt; exact Hlt);
         reflexivity]]).
  assert (Hall :
    (byte_at data 1 =? USBASP_FUNC_CONNECT) = false
    /\ (byte_at data 1 =? USBASP_FUNC_DISCONNECT) = false
    /\ (byte_at data 1 =? USBASP_FUNC_TRANSMIT) = false
    /\ (byte_at data 1 =? USBASP_FUNC_READFLASH) = false
    /\ (byte_at data 1 =? USBASP_FUNC_READEEPROM) = false
    /\ (byte_at data 1 =? USBASP_FUNC_ENABLEPROG) = false
    /\ (byte_at data 1 =? USBASP_FUNC_WRITEFLASH) = false
    /\ (byte_at data 1 =? USBASP_FUNC_WRITEEEPROM) = false
    /\ (byte_at data 1 =? USBASP_FUNC_SETLONGADDRESS) = false
    /\ (byte_at data 1 =? USBASP_FUNC_SETISPSCK) = false).
  { repeat split; apply Z.eqb_neq; kinds_differ. }
  destruct Hall as (N1 & N2 & N3 & N4 & N5 & N6 & N7 & N8 & N9 & N10).
  rewrite N1, N2, N3, N4, N5, N6, N7, N8, N9, N10.
  cbn. repeat split; try reflexivity; discriminate.
Qed.

Lemma X14_dispatchers_agree_witness :
  usbFunctionSetup sample_headers quiet_port (power_up sample_headers)
    (vendor_packet USBASP_FUNC_WRITEFLASH 0 16 128 1 64 0)
  = Fw2006.usbFunctionSetup
      {| Fw2006.ISP_SCK_SLOW := 0; Fw2006.ISP_SCK_FAST := 1;
         Fw2006.PC2 := 2 |}
      quiet_port (power_up sample_headers)
      (vendor_packet USBASP_FUNC_WRITEFLASH 0 16 128 1 64 0).
Proof.
  pose proof (X14_dispatchers_agree sample_headers
                {| Fw2006.ISP_SCK_SLOW := 0; Fw2006.ISP_SCK_FAST := 1;
                   Fw2006.PC2 := 2 |}
                quiet_port (power_up sample_headers)
                (vendor_packet USBASP_FUNC_WRITEFLASH 0 16 128 1 64 0)
                (sample_is_packet USBASP_FUNC_WRITEFLASH 0 16 128 1 64 0
                   eq_refl)
                eq_refl eq_refl ltac:(discriminate) ltac:(discriminate)
                ltac:(discriminate)) as H.
  cbv zeta in H.
  destruct (usbFunctionSetup sample_headers quiet_port
              (power_up sample_headers)
              (vendor_packet USBASP_FUNC_WRITEFLASH 0 16 128 1 64 0))
    as [s9 len9].
  destruct (Fw2006.usbFunctionSetup _ quiet_port (power_up sample_headers)
              (vendor_packet USBASP_FUNC_WRITEFLASH 0 16 128 1 64 0))
    as [s6 len6].
  destruct H as (H1 & _ & H3).
  destruct (H3 eq_refl) as (_ & _ & H4).
  rewrite H1, (H4 ltac:(cbn; lia)). reflexivity.
Defined.

(** ** A paged write in several blocks *)

Section PagedBlocks.

Variable addr_bits : Z.
Variables a0 P n flags : Z.
Hypothesis P_positive : 1 <= P.
Hypothesis n_fits : n < 65536.

(** The rest of a transfer, from the offset [j] to its end. *)
Lemma paged_loop_complete_from (j : nat) (data : list Z) (s : Device)
  (r : Z) :
  paging addr_bits a0 P n flags j s ->
  Z.of_nat j < n ->
  Z.of_nat (j + length data) = n ->
  let sr := write_loop addr_bits (s, r) data in
  snd sr = 1
  /\ prog_state (fst sr) = PROG_STATE_IDLE
  /\ trace (fst sr)
     = trace s ++ paged_calls addr_bits a0 P j data
       ++ (if negb (Z.land flags PROG_BLOCKFLAG_LAST =? 0)
              && ((256 <=? P) || negb (n mod period P =? 0))
           then [CallFlushPage
                   (wrap addr_bits (a0 + Z.of_nat (j + length data - 1)))
                   (nth (length data - 1) data 0)]
           else []).
Proof.
  intros Hinv Hj Hlen.
  assert (Hne : data <> [])
    by (intros ->; cbn in Hlen; rewrite Nat.add_0_r in Hlen; lia).
  destruct (exists_last Hne) as (init & b & ->).
  rewrite length_app in *. cbn [length] in *.
  cbv zeta. unfold write_loop. rewrite fold_left_app. cbn [fold_left].
  destruct (paged_loop_running addr_bits a0 P n flags P_positive n_fits
              init j s r Hinv ltac:(lia)) as (R1 & R2 & R3).
  cbv zeta in R1, R2, R3. unfold write_loop in R1, R2, R3.
  destruct (fold_left (write_iter addr_bits) init (s, r)) as [s1 r1].
  cbn [fst snd] in *.
  destruct (paged_iter_final addr_bits a0 P n flags P_positive
              (j + length init) s1 r1 b R2 ltac:(lia))
    as (F1 & F2 & _ & _ & F5).
  cbv zeta in F1, F2, F5.
  split; [exact F1|]. split; [exact F2|].
  rewrite F5, R3, paged_calls_app, <- !app_assoc. cbn [paged_calls].
  rewrite app_nil_r. do 3 f_equal.
  rewrite (countdown_differs P P_positive n) by lia.
  replace (j + (length init + 1) - 1)%nat with (j + length init)%nat by lia.
  replace (length init + 1 - 1)%nat with (length init) by lia.
  rewrite app_nth2, Nat.sub_diag by lia. reflexivity.
Qed.

End PagedBlocks.

(** In the new address mode a WRITEFLASH command keeps the address and the
    mode. *)
Lemma setup_arms_newmode (hdr : Headers) (port : Port) (s : Device)
  (cmd : list Z) (P n : Z) (first last : bool) :
  arms_paged_write cmd P n first last ->
  class_request_served hdr cmd = false ->
  prog_address_newmode s <> 0 ->
  let s0 := fst (usbFunctionSetup hdr port s cmd) in
  prog_address s0 = prog_address s
  /\ prog_address_newmode s0 = prog_address_newmode s.
Proof.
  intros (_ & Hk & _) Hv Hm. cbv zeta.
  destruct (setup_address_mode hdr port s cmd Hv) as [Ea Em].
  assert (Harm : is_arming cmd = true)
    by (unfold is_arming; rewrite Hk; reflexivity).
  rewrite Ea, Em, dispatch_arming_address, dispatch_newmode, Hk by exact Harm.
  apply Z.eqb_neq in Hm. rewrite Hm. split; reflexivity.
Qed.

(** X15: a paged write sent as two blocks in the new address mode: a
    WRITEFLASH with PROG_BLOCKFLAG_FIRST and without PROG_BLOCKFLAG_LAST,
    its [n1] bytes, then a WRITEFLASH without PROG_BLOCKFLAG_FIRST for the
    same page size, and its [n2] bytes.  The second command keeps the
    address and the countdown of the first block.  When the second block
    announces 1 byte or more, the calls of the two blocks together are
    those of the paging policy for all the bytes: pages are flushed at the
    same offsets, counted from the start of the first block, as in one
    block of [n1 + n2] bytes, and the forced flush is made once, at the very
    end, as the second command's PROG_BLOCKFLAG_LAST asks.  When the second
    block announces 0 bytes, it closes nothing: the calls are those of the
    policy for the bytes of the first block, the forced flush that
    PROG_BLOCKFLAG_LAST asks for is not made, and the session stays in
    PROG_STATE_WRITEFLASH. *)
Theorem X15_paged_write_in_two_blocks :
  forall (hdr : Headers) (port : Port) (s : Device) (cmd1 cmd2 : list Z)
         (P n1 n2 : Z) (last : bool) (chunks1 chunks2 : list (list Z)),
    arms_paged_write cmd1 P n1 true false ->
    arms_paged_write cmd2 P n2 false last ->
    class_request_served hdr cmd1 = false ->
    class_request_served hdr cmd2 = false ->
    prog_address_newmode s <> 0 ->
    0 <= prog_address s < 2 ^ 32 ->
    1 <= P -> n1 + n2 < 65536 ->
    Z.of_nat (length (concat chunks1)) = n1 ->
    Z.of_nat (length (concat chunks2)) = n2 ->
    let s0 := fst (usbFunctionSetup hdr port s cmd1) in
    let s1 := fst (push_chunks 32 s0 chunks1) in
    let s2 := fst (usbFunctionSetup hdr port s1 cmd2) in
    let s3 := fst (push_chunks 32 s2 chunks2) in
    let bytes := concat chunks1 ++ concat chunks2 in
    (1 <= n2 ->
     calls_since s0 s3
     = paged_calls 32 (prog_address s0) P 0 bytes
       ++ forced_flush 32 (prog_address s0) P last bytes
     /\ prog_state s3 = PROG_STATE_IDLE
     /\ forall (whole : list Z) (chunks : list (list Z)),
         arms_paged_write whole P (n1 + n2) true last ->
         class_request_served hdr whole = false ->
         concat chunks = bytes ->
         let w0 := fst (usbFunctionSetup hdr port s whole) in
         calls_since w0 (fst (push_chunks 32 w0 chunks)) = calls_since s0 s3)
    /\ (n2 = 0 ->
        calls_since s0 s3 = paged_calls 32 (prog_address s0) P 0 bytes
        /\ prog_state s3 = PROG_STATE_WRITEFLASH).
Proof.
  intros hdr port s cmd1 cmd2 P n1 n2 last chunks1 chunks2
    Harm1 Harm2 Hv1 Hv2 Hmode Ha HP Hsum Hlen1 Hlen2.
  cbv zeta.
  (* the first command *)
  destruct (setup_arms hdr port s cmd1 P n1 true false Harm1 Hv1 Ha)
    as (A1 & A2 & A3 & A4 & A5 & _ & A7 & _ & A10).
  destruct (setup_arms_newmode hdr port s cmd1 P n1 true false Harm1 Hv1 Hmode)
    as [A8 A9].
  cbv zeta in A1, A2, A3, A4, A5, A7, A8, A9.
  set (s0 := fst (usbFunctionSetup hdr port s cmd1)) in *.
  (* its bytes *)
  assert (Hw0 : in_write_state s0 = true)
    by (unfold in_write_state; rewrite A1; reflexivity).
  pose proof (armed_is_paging 32 s0 P n1 A1 A2 A3 A5 A7) as Hpg0.
  set (s1 := fst (push_chunks 32 s0 chunks1)) in *.
  assert (HB : prog_pagecounter s1 = to_uchar (P - n1 mod period P)
               /\ trace s1
                  = trace s0
                    ++ paged_calls 32 (prog_address s0) P 0 (concat chunks1)
               /\ prog_address s1
                  = wrap 32 (prog_address s0
                             + Z.of_nat (length (concat chunks1)))
               /\ prog_address_newmode s1 = prog_address_newmode s0).
  { destruct (Z.eq_dec n1 0) as [Hz|Hnz].
    - assert (Hnil : concat chunks1 = [])
        by (apply length_zero_iff_nil; lia).
      unfold s1. rewrite (push_nothing 32 chunks1 s0 Hnil), Hnil, Hz.
      destruct Hpg0 as (_ & _ & _ & _ & G5 & G6).
      cbn [Z.of_nat length paged_calls] in *.
      rewrite app_nil_r. auto.
    - pose proof (push_chunks_concat 32 chunks1 s0 Hw0 ltac:(lia) ltac:(lia))
        as Hp1.
      destruct (paged_loop_complete 32 (prog_address s0) P n1
                  (prog_blockflags s0) HP ltac:(lia) (concat chunks1) s0 0
                  Hpg0 ltac:(lia) Hlen1)
        as (_ & _ & _ & B4 & B5).
      pose proof (write_loop_address 32 (concat chunks1) s0 0 A7) as B6.
      destruct (write_loop_frame 32 (concat chunks1) (s0, 0)) as (B7 & _ & _).
      cbv zeta in B4, B5. cbn [fst] in B7.
      rewrite <- Hp1 in B4, B5, B6, B7. fold s1 in B4, B5, B6, B7.
      rewrite A4 in B5. unfold forced_flush in B5. cbn [negb andb] in B5.
      rewrite app_nil_r in B5. auto. }
  destruct HB as (B4 & B5 & B6 & B7).
  (* the second command *)
  assert (Ha1 : 0 <= prog_address s1 < 2 ^ 32)
    by (rewrite B6; apply wrap_range; lia).
  assert (Hm1 : prog_address_newmode s1 <> 0) by congruence.
  destruct (setup_arms hdr port s1 cmd2 P n2 false last Harm2 Hv2 Ha1)
    as (C1 & C2 & C3 & C4 & C5 & C6 & C7 & _).
  destruct (setup_arms_newmode hdr port s1 cmd2 P n2 false last Harm2 Hv2 Hm1)
    as [C8 _].
  cbv zeta in C1, C2, C3, C4, C5, C6, C7, C8.
  set (s2 := fst (usbFunctionSetup hdr port s1 cmd2)) in *.
  assert (Hw2 : in_write_state s2 = true)
    by (unfold in_write_state; rewrite C1; reflexivity).
  set (s3 := fst (push_chunks 32 s2 chunks2)) in *.
  split.
  - intros Hn2.
    pose proof (push_chunks_concat 32 chunks2 s2 Hw2 ltac:(lia) ltac:(lia))
      as Hp2.
    assert (Hpg2 : paging 32 (prog_address s0) P (n1 + n2)
                     (prog_blockflags s2) (length (concat chunks1)) s2).
    { unfold paging. rewrite C1, C2, C3, C5, C8, B4, B6, Hlen1.
      repeat split. lia. }
    destruct (paged_loop_complete_from 32 (prog_address s0) P (n1 + n2)
                (prog_blockflags s2) HP Hsum (length (concat chunks1))
                (concat chunks2) s2 0 Hpg2 ltac:(lia)
                ltac:(rewrite Nat2Z.inj_add; lia)) as (_ & D2 & D3).
    cbv zeta in D2, D3. rewrite <- Hp2 in D2, D3. fold s3 in D2, D3.
    assert (Hcalls :
      calls_since s0 s3
      = paged_calls 32 (prog_address s0) P 0
          (concat chunks1 ++ concat chunks2)
        ++ forced_flush 32 (prog_address s0) P last
             (concat chunks1 ++ concat chunks2)).
    { apply calls_since_app.
      rewrite D3, C6, B5, C4, negb_involutive, paged_calls_app, <- !app_assoc.
      cbn [plus]. do 3 f_equal.
      unfold forced_flush, flush_at. rewrite length_app.
      replace (Z.of_nat (length (concat chunks1) + length (concat chunks2)))
        with (n1 + n2) by lia.
      rewrite app_nth2 by lia.
      replace (length (concat chunks1) + length (concat chunks2) - 1
               - length (concat chunks1))%nat
        with (length (concat chunks2) - 1)%nat by lia.
      reflexivity. }
    split; [exact Hcalls|]. split; [exact D2|].
    (* one block for all the bytes *)
    intros whole chunks Harmw Hvw Hcat.
    destruct (setup_arms hdr port s whole P (n1 + n2) true last Harmw Hvw Ha)
      as (W1 & W2 & W3 & W4 & W5 & _ & W7 & _).
    destruct (setup_arms_newmode hdr port s whole P (n1 + n2) true last
                Harmw Hvw Hmode) as [W8 _].
    cbv zeta in W1, W2, W3, W4, W5, W7, W8.
    set (w0 := fst (usbFunctionSetup hdr port s whole)) in *.
    destruct (paged_transfer 32 w0 P (n1 + n2) last W1 W2 W3 W5 W4 W7 HP
                ltac:(lia) chunks
                ltac:(rewrite Hcat, length_app, Nat2Z.inj_add; lia))
      as (T1 & _).
    cbv zeta in T1. rewrite T1, Hcalls, Hcat, W8, A8. reflexivity.
  - intros Hz.
    assert (Hnil : concat chunks2 = [])
      by (apply length_zero_iff_nil; lia).
    unfold s3. rewrite (push_nothing 32 chunks2 s2 Hnil), Hnil, app_nil_r.
    split; [|exact C1].
    apply calls_since_app. rewrite C6, B5. reflexivity.
Qed.

Lemma X15_paged_write_in_two_blocks_witness :
  let s := armed (vendor_packet USBASP_FUNC_SETLONGADDRESS 0 0 0 0 0 0) in
  let s0 :=
    fst (usbFunctionSetup sample_headers quiet_port s
           (vendor_packet USBASP_FUNC_WRITEFLASH 0 0 4 1 6 0)) in
  let s1 := fst (push_chunks 32 s0 [[1; 2; 3; 4; 5; 6]]) in
  let s2 :=
    fst (usbFunctionSetup sample_headers quiet_port s1
           (vendor_packet USBASP_FUNC_WRITEFLASH 0 0 4 2 4 0)) in
  let s3 := fst (push_chunks 32 s2 [[7; 8; 9; 10]]) in
  flushes (calls_since s0 s3)
  = [CallFlushPage 3 4; CallFlushPage 7 8; CallFlushPage 9 10].
Proof.
  pose proof (X15_paged_write_in_two_blocks sample_headers quiet_port
                (armed (vendor_packet USBASP_FUNC_SETLONGADDRESS 0 0 0 0 0 0))
                (vendor_packet USBASP_FUNC_WRITEFLASH 0 0 4 1 6 0)
                (vendor_packet USBASP_FUNC_WRITEFLASH 0 0 4 2 4 0)
                4 6 4 true [[1; 2; 3; 4; 5; 6]] [[7; 8; 9; 10]]
                (sample_arms 4 1 6 0 4 6 true false
                   (sample_is_packet USBASP_FUNC_WRITEFLASH 0 0 4 1 6 0
                      eq_refl)
                   eq_refl eq_refl eq_refl eq_refl)
                (sample_arms 4 2 4 0 4 4 false true
                   (sample_is_packet USBASP_FUNC_WRITEFLASH 0 0 4 2 4 0
                      eq_refl)
                   eq_refl eq_refl eq_refl eq_refl)
                eq_refl eq_refl ltac:(vm_compute; discriminate)
                ltac:(vm_compute; split; congruence)
                ltac:(lia) ltac:(lia)
                eq_refl eq_refl) as H.
  cbv zeta in H. destruct H as (H & _).
  destruct (H ltac:(lia)) as (H1 & _).
  cbv zeta. rewrite H1. reflexivity.
Defined.

(** ** The values the session takes *)

Section SessionValues.

Variable hdr : Headers.
Variable port : Port.

(** The transfer variables the dispatcher leaves, by command. *)
Lemma dispatch_fields (s : Device) (data : list Z) :
  let k := byte_at data 1 in
  let s' := fst (dispatch hdr port s data) in
  let size :=
    to_uint (to_uint (byte_at data 4)
             + Z.shiftl (Z.land (to_uint (byte_at data 5)) 240) 4) in
  let flags := to_uchar (Z.land (byte_at data 5) 15) in
  prog_address s'
  = (if is_arming data
     then (if prog_address_newmode s =? 0 then legacy_address data
           else prog_address s)
     else if k =? USBASP_FUNC_SETLONGADDRESS then long_address data
     else prog_address s)
  /\ prog_nbytes s'
     = (if is_arming data
        then to_uint (int_of_bytes (byte_at data 7) (byte_at data 6))
        else prog_nbytes s)
  /\ prog_pagesize s'
     = (if k =? USBASP_FUNC_WRITEFLASH then size
        else if k =? USBASP_FUNC_WRITEEEPROM then 0
        else prog_pagesize s)
  /\ prog_blockflags s'
     = (if k =? USBASP_FUNC_WRITEFLASH then flags
        else if k =? USBASP_FUNC_WRITEEEPROM then 0
        else prog_blockflags s)
  /\ prog_pagecounter s'
     = (if k =? USBASP_FUNC_WRITEFLASH
        then (if Z.land flags PROG_BLOCKFLAG_FIRST =? 0
              then prog_pagecounter s else to_uchar size)
        else prog_pagecounter s).
Proof.
  cbv zeta.
  unfold dispatch, is_arming, load_nbytes, load_legacy_address.
  destruct (byte_at data 1 =? USBASP_FUNC_CONNECT) eqn:E1.
  { cbn [orb]; split_ifs; cbn; repeat split; try reflexivity; exfalso;
    kinds_differ. }
  destruct (byte_at data 1 =? USBASP_FUNC_DISCONNECT) eqn:E2.
  { cbn [orb]; split_ifs; cbn; repeat split; try reflexivity; exfalso;
    kinds_differ. }
  destruct (byte_at data 1 =? USBASP_FUNC_TRANSMIT) eqn:E3.
  { cbn [orb]; split_ifs; cbn; repeat split; try reflexivity; exfalso;
    kinds_differ. }
  destruct (byte_at data 1 =? USBASP_FUNC_READFLASH) eqn:E4.
  { cbn [orb]; split_ifs; cbn; repeat split; try reflexivity; exfalso;
    kinds_differ. }
  destruct (byte_at data 1 =? USBASP_FUNC_READEEPROM) eqn:E5.
  { cbn [orb]; split_ifs; cbn; repeat split; try reflexivity; exfalso;
    kinds_differ. }
  destruct (byte_at data 1 =? USBASP_FUNC_ENABLEPROG) eqn:E6.
  { cbn [orb]; split_ifs; cbn; repeat split; try reflexivity; exfalso;
    kinds_differ. }
  destruct (byte_at data 1 =? USBASP_FUNC_WRITEFLASH) eqn:E7.
  { cbn [orb fst prog_pagesize prog_blockflags set_prog_pagesize
         set_prog_blockflags].
    split_ifs; cbn; repeat split; reflexivity. }
  destruct (byte_at data 1 =? USBASP_FUNC_WRITEEEPROM) eqn:E8.
  { cbn [orb]; split_ifs; cbn; repeat split; try reflexivity; exfalso;
    kinds_differ. }
  cbn [orb]; split_ifs; cbn; repeat split; reflexivity.
Qed.

Lemma long_address_range (data : list Z) : 0 <= long_address data < 2 ^ 32.
Proof.
  unfold long_address, to_ulong, wrap. apply Z.mod_pos_bound. lia.
Qed.

(** The dispatcher keeps the session within its values. *)
Lemma dispatch_session_ok (s : Device) (data : list Z) :
  is_packet data ->
  session_ok s ->
  session_ok (fst (dispatch hdr port s data)).
Proof.
  intros Hpk (S1 & S2 & S3 & S4 & S5 & S6 & S7 & S8).
  destruct (dispatch_fields s data) as (F1 & F2 & F3 & F4 & F5).
  destruct (dispatch_state_len hdr port s data) as [F6 _].
  pose proof (dispatch_sck hdr port s data) as F7.
  pose proof (dispatch_newmode hdr port s data) as F8.
  cbv zeta in F1, F2, F3, F4, F5, F6.
  pose proof (packet_byte data 2 Hpk) as H2.
  pose proof (packet_byte data 4 Hpk) as H4.
  pose proof (packet_byte data 5 Hpk) as H5.
  destruct (pagesize_decoded _ _ H4 H5) as [Q1 Q2].
  pose proof (legacy_address_range data) as L1.
  pose proof (long_address_range data) as L2.
  pose proof (to_uint_range (int_of_bytes (byte_at data 7) (byte_at data 6)))
    as U1.
  pose proof (to_uchar_range (byte_at data 4 + 256 * (byte_at data 5 / 16)))
    as U2.
  assert (U3 : 0 <= to_uchar (Z.land (byte_at data 5) 15) <= 15).
  { rewrite low_nibble by exact H5.
    pose proof (Z.mod_pos_bound (byte_at data 5) 16 ltac:(lia)).
    unfold to_uchar. rewrite wrap_small; [|change (2 ^ 8) with 256]; lia. }
  rewrite Q1 in F3, F5.
  unfold session_ok.
  rewrite F1, F2, F3, F4, F5, F6, F7, F8.
  unfold PROG_STATE_READFLASH, PROG_STATE_READEEPROM, PROG_STATE_WRITEFLASH,
    PROG_STATE_WRITEEEPROM.
  repeat split; split_ifs; lia.
Qed.

End SessionValues.

Section SessionInvariant.

Variable hdr : Headers.
Variable port : Port.

Lemma write_store_countdown (s : Device) (b : Z) :
  0 <= prog_pagecounter s < 256 ->
  0 <= prog_pagecounter (write_store s b) < 256.
Proof.
  intros H. unfold write_store.
  pose proof (to_uchar_range (prog_pagecounter s - 1)).
  pose proof (to_uchar_range (prog_pagesize s)).
  split_ifs; cbn; assumption.
Qed.

(** The writer's loop keeps the count and the countdown within their
    types, and leaves the state where it was or idle. *)
Lemma write_loop_values (data : list Z) :
  forall (s : Device) (r : Z),
    0 <= prog_nbytes s < 65536 ->
    0 <= prog_pagecounter s < 256 ->
    let s' := fst (write_loop 32 (s, r) data) in
    0 <= prog_nbytes s' < 65536
    /\ 0 <= prog_pagecounter s' < 256
    /\ (prog_state s' = prog_state s \/ prog_state s' = PROG_STATE_IDLE).
Proof.
  induction data as [|b data IH]; intros s r Hn Hc;
    cbn [write_loop fold_left].
  - auto.
  - destruct (write_iter_frame 32 (s, r) b) as (E1 & _ & E3 & _).
    pose proof (write_iter_pagecounter 32 s r b) as E4.
    pose proof (write_store_countdown s b Hc) as E5.
    pose proof (to_uint_range (prog_nbytes s - 1)) as E6.
    cbv zeta in E1, E3. cbn [fst] in E1, E3.
    destruct (write_iter 32 (s, r) b) as [s1 r1]. cbn [fst] in *.
    destruct (IH s1 r1 ltac:(rewrite E1; exact E6)
                ltac:(rewrite E4; exact E5)) as (I1 & I2 & I3).
    unfold write_loop in *. split; [exact I1|]. split; [exact I2|].
    rewrite E3 in I3.
    destruct (to_uint (prog_nbytes s - 1) =? 0); tauto.
Qed.

Lemma step_session_ok (s : Device) (a : action) :
  action_ok a ->
  session_ok s ->
  session_ok (step hdr port 32 s a).
Proof.
  intros Ha Hs. destruct a as [data | len | data]; cbn [step action_ok] in *.
  - unfold usbFunctionSetup.
    destruct (hid_request hdr s data) as [r|] eqn:Hh.
    + destruct (hid_request_beyond hdr s data r Hh) as (E & _).
      unfold session in E. unfold session_ok in *.
      injection E as -> -> -> -> -> -> -> ->. exact Hs.
    + pose proof (dispatch_session_ok hdr port s data Ha Hs) as D.
      destruct (dispatch hdr port s data) as [s1 len]. exact D.
  - destruct Hs as (S1 & S2 & S3 & S4 & S5 & S6 & S7 & S8).
    destruct (read_call_beyond port 32 s len) as (B1 & B2 & B3).
    pose proof (read_call_address port 32 s len S4) as A.
    cbv zeta in B1, B2, B3. unfold beyond_chunks in B1.
    assert (St : prog_state (fst (fst (usbFunctionRead port 32 s len)))
                 = prog_state s
                 \/ prog_state (fst (fst (usbFunctionRead port 32 s len)))
                    = PROG_STATE_IDLE).
    { unfold usbFunctionRead. destruct (negb (in_read_state s)); [auto|].
      destruct (read_loop_frame port 32 (Z.to_nat len) s) as (F1 & _).
      destruct (read_loop port 32 (Z.to_nat len) s) as [s1 out].
      cbn [fst] in *. destruct (len <? 8); cbn; auto. }
    destruct (usbFunctionRead port 32 s len) as [[s1 r1] out].
    cbn [fst] in *.
    pose proof (wrap_range 32 (prog_address s + Z.of_nat (length out))
                  ltac:(lia)) as W.
    unfold session_ok, PROG_STATE_IDLE in *.
    injection B1 as -> -> -> -> _ _ _ _ _.
    rewrite A, B2, B3.
    repeat split; try lia; destruct St as [-> | ->]; lia.
  - destruct Hs as (S1 & S2 & S3 & S4 & S5 & S6 & S7 & S8).
    pose proof (write_call_beyond 32 s data) as B1.
    pose proof (write_call_address 32 s data S4) as A.
    unfold beyond_chunks in B1.
    assert (V : 0 <= prog_nbytes (fst (usbFunctionWrite 32 s data)) < 65536
                /\ 0 <= prog_pagecounter (fst (usbFunctionWrite 32 s data))
                   < 256
                /\ (prog_state (fst (usbFunctionWrite 32 s data))
                    = prog_state s
                    \/ prog_state (fst (usbFunctionWrite 32 s data))
                       = PROG_STATE_IDLE)).
    { unfold usbFunctionWrite. destruct (negb (in_write_state s)).
      - cbn [fst]. auto.
      - apply write_loop_values; assumption. }
    destruct (usbFunctionWrite 32 s data) as [s1 r1]. cbn [fst] in *.
    pose proof (wrap_range 32
                  (prog_address s
                   + Z.of_nat (if r1 =? 255 then 0 else length data))
                  ltac:(lia)) as W.
    destruct V as (V1 & V2 & V3).
    unfold session_ok, PROG_STATE_IDLE in *.
    injection B1 as -> -> -> -> _ _ _ _ _.
    rewrite A.
    repeat split; try lia; destruct V3 as [-> | ->]; lia.
Qed.

End SessionInvariant.

(** X16: the values of the session.  From reset on, whatever setup
    packets, reads and writes arrive, [prog_state] is one of the five
    states, the address mode is 0 or 1, [prog_pagesize] is at most 4095,
    [prog_blockflags] at most 15, and the address, the count, the clock
    selector and the countdown are values of their C types; the same holds
    from any session that has these values. *)
Theorem X16_session_values :
  forall (hdr : Headers) (port : Port) (acts : list action),
    Forall action_ok acts ->
    (forall s, session_ok s -> session_ok (run hdr port 32 s acts))
    /\ (0 <= USBASP_ISP_SCK_AUTO hdr < 256 ->
        session_ok (run hdr port 32 (power_up hdr) acts)).
Proof.
  intros hdr port acts Hacts.
  assert (Hrun : forall s, session_ok s -> session_ok (run hdr port 32 s acts)).
  { induction Hacts as [|a acts Ha Hrest IH]; intros s Hs;
      cbn [run fold_left].
    - exact Hs.
    - apply IH. apply step_session_ok; assumption. }
  split; [exact Hrun|].
  intros Hauto. apply Hrun.
  unfold session_ok, power_up, PROG_STATE_IDLE. cbn. lia.
Qed.

Lemma X16_session_values_witness :
  session_ok
    (run sample_headers quiet_port 32 (power_up sample_headers)
       [DoSetup (vendor_packet USBASP_FUNC_WRITEFLASH 255 255 255 255 9 0);
        DoWrite [1; 2; 3; 4; 5; 6; 7; 8]; DoWrite [9; 10]; DoRead 8]).
Proof.
  destruct (X16_session_values sample_headers quiet_port
              [DoSetup
                 (vendor_packet USBASP_FUNC_WRITEFLASH 255 255 255 255 9 0);
               DoWrite [1; 2; 3; 4; 5; 6; 7; 8]; DoWrite [9; 10]; DoRead 8]
              ltac:(repeat (apply Forall_cons;
                              [first [exact I
                                     | apply sample_is_packet; reflexivity]|]);
                    apply Forall_nil)) as [_ H].
  apply H. cbn. lia.
Defined.

(** ** A count of zero *)

(** X17: a write armed with a byte count of 0 is not a transfer of no
    bytes.  The writer tests the count after decrementing it, so the first
    byte takes it from 0 to 65535: a chunk (of at most 255 bytes, as a
    [uchar] length allows) is taken in, the call returns 0, the session
    stays in its write state and the count is 65536 less the bytes taken.
    An empty chunk changes nothing.  The transfer would end after 65536
    bytes. *)
Theorem X17_zero_count_is_65536 :
  forall (addr_bits : Z) (s : Device) (data : list Z),
    in_write_state s = true ->
    prog_nbytes s = 0 ->
    (length data <= 255)%nat ->
    let (s', ret) := usbFunctionWrite addr_bits s data in
    ret = 0
    /\ prog_state s' = prog_state s
    /\ prog_nbytes s'
       = (if (length data =? 0)%nat then 0
          else 65536 - Z.of_nat (length data))
    /\ (data = [] -> s' = s).
Proof.
  intros addr_bits s data Hst Hn Hlen.
  unfold usbFunctionWrite. rewrite Hst. cbn [negb].
  destruct data as [|b rest].
  - cbn. auto.
  - cbn [write_loop fold_left length Nat.eqb] in *.
    destruct (write_iter_frame addr_bits (s, 0) b) as (E1 & _ & E3 & E4 & _).
    cbv zeta in E1, E3, E4. cbn [fst snd] in E1, E3, E4.
    rewrite Hn in E1, E3, E4.
    change (to_uint (0 - 1)) with 65535 in E1, E3, E4.
    cbn [Z.eqb] in E3, E4.
    destruct (write_iter addr_bits (s, 0) b) as [s1 r1]. cbn [fst snd] in *.
    subst r1.
    destruct (write_loop_running addr_bits rest s1 0 ltac:(lia) ltac:(lia))
      as (R1 & R2 & R3).
    cbv zeta in R1, R2, R3. unfold write_loop in *.
    destruct (fold_left (write_iter addr_bits) rest (s1, 0)) as [s' ret].
    cbn [fst snd] in *.
    split; [exact R1|]. split; [congruence|]. split; [lia | discriminate].
Qed.

Lemma X17_zero_count_is_65536_witness :
  let s0 := armed (vendor_packet USBASP_FUNC_WRITEEEPROM 0 0 0 0 0 0) in
  let (s', ret) := usbFunctionWrite 32 s0 [1; 2; 3] in
  ret = 0 /\ prog_state s' = PROG_STATE_WRITEEEPROM
  /\ prog_nbytes s' = 65533.
Proof.
  cbv zeta.
  pose proof (X17_zero_count_is_65536 32
                (armed (vendor_packet USBASP_FUNC_WRITEEEPROM 0 0 0 0 0 0))
                [1; 2; 3] eq_refl eq_refl ltac:(cbn; lia)) as H.
  destruct (usbFunctionWrite 32
              (armed (vendor_packet USBASP_FUNC_WRITEEEPROM 0 0 0 0 0 0))
              [1; 2; 3]) as [s' ret].
  destruct H as (H1 & H2 & H3 & _).
  split; [exact H1|]. split; [rewrite H2; reflexivity | exact H3].
Defined.
